(** * Maigret: the probing engine of [maigret/maigret.py]

    A shallow embedding of [get_response], [sherlock] and [main] from the
    start of its work on (the first queue, the checks of the arguments, the
    parsed page, the exploration loop and the reports that it writes after
    each round), followed by the properties of the classifier, the
    dispatcher and the driver.

    Python dictionaries are association lists in insertion order (the order
    matters: the driver pops the first item of the work queue, and the
    failure annotations are scanned in order); the set [already_checked] is a
    [gset string].  The network, the identifier extractor, [re.search],
    [str.format], [str.lower], the page parser and the file system are
    collaborators of the engine and are collected in the class [Externals].
    Calls on the notifier, the creation of the session, the HTTP requests
    and the operations on files are recorded as a trace of events; an
    exception that leaves [sherlock] or [main] ends the run and keeps the
    trace up to that point.  The loop of [main] takes fuel, since the identifiers
    found on the pages may keep the queue filled for ever. *)

From Stdlib Require Import ZArith String Ascii Lia DecimalString Sorted.
From stdpp Require Import gmap strings list.

Open Scope string_scope.
Open Scope list_scope.

(** ** Python strings and dictionaries *)

(** [sub in s] on Python strings. *)
Fixpoint str_in (sub s : string) : bool :=
  String.prefix sub s ||
  match s with
  | EmptyString => false
  | String _ s' => str_in sub s'
  end.

(** [d.get(k)]: the value stored under [k], if any. *)
Fixpoint dict_get {V : Type} (d : list (string * V)) (k : string) : option V :=
  match d with
  | [] => None
  | (k', v) :: d' => if String.eqb k' k then Some v else dict_get d' k
  end.

(** [d[k] = v]: an existing key keeps its position, a new key goes last. *)
Fixpoint dict_set {V : Type} (d : list (string * V)) (k : string) (v : V)
  : list (string * V) :=
  match d with
  | [] => [(k, v)]
  | (k', v') :: d' =>
      if String.eqb k' k then (k', v) :: d' else (k', v') :: dict_set d' k v
  end.

(** [d.update(e)]. *)
Definition dict_update {V : Type} (d e : list (string * V)) : list (string * V) :=
  fold_left (fun acc kv => dict_set acc kv.1 kv.2) e d.

(** ** Data model *)

Inductive QueryStatus := CLAIMED | AVAILABLE | UNKNOWN | ILLEGAL.

(** [QueryResult(username, site_name, site_url_user, status, ids_data,
    query_time, context)].  An absent or empty [ids_data] is the empty
    list. *)
Record QueryResult := mkQueryResult {
  qr_username : string;
  qr_site_name : string;
  qr_site_url_user : option string;
  qr_status : QueryStatus;
  qr_ids_data : list (string * string);
  qr_query_time : option N;
  qr_context : option string
}.

(** The part of a [requests.Response] that the engine reads. *)
Record Response := mkResponse {
  status_code : Z;
  text : string;
  elapsed : N
}.

(** The exception classes of [requests.exceptions] that [get_response]
    tells apart, with their subclass relation below. *)
Inductive RequestException :=
| HTTPError | ProxyError | SSLError | ConnectionError
| ConnectTimeout | ReadTimeout | Timeout
| TooManyRedirects | OtherRequestException.

Definition isinstance_HTTPError (e : RequestException) : bool :=
  match e with HTTPError => true | _ => false end.
Definition isinstance_ProxyError (e : RequestException) : bool :=
  match e with ProxyError => true | _ => false end.
Definition isinstance_ConnectionError (e : RequestException) : bool :=
  match e with
  | ProxyError | SSLError | ConnectionError | ConnectTimeout => true
  | _ => false
  end.
Definition isinstance_Timeout (e : RequestException) : bool :=
  match e with ConnectTimeout | ReadTimeout | Timeout => true | _ => false end.

(** What [request_future.result()] does: it returns a response or raises. *)
Inductive Future :=
| Returns (r : Response)
| Throws (e : RequestException) (msg : string).

Inductive Method := HEAD | GET.

Record Request := mkRequest {
  rq_method : Method;
  rq_url : string;
  rq_headers : list (string * string);
  rq_proxies : option (list (string * string));
  rq_allow_redirects : bool;
  rq_timeout : option N
}.

(** The value of ["errorMsg"]: one string or a list of strings. *)
Inductive ErrorMsg :=
| MsgStr (s : string)
| MsgList (l : list string).

(** One entry of [site_data].  An optional field is [None] when the key is
    absent; ["url"] and ["errorType"] are read without a default.
    [request_future] is the key that [sherlock] itself stores in the
    entry. *)
Record NetInfo := mkNetInfo {
  ni_type : option string;
  ni_tags : option (list string);
  ni_urlMain : option string;
  ni_headers : option (list (string * string));
  ni_url : string;
  ni_regexCheck : option string;
  ni_urlProbe : option string;
  ni_errorType : string;
  ni_request_head_only : option bool;
  ni_errors : option (list (string * string));
  ni_errorMsg : option ErrorMsg;
  ni_request_future : option Future
}.

(** The value under ["http_status"]: a status code, ["?"] or [""]. *)
Inductive HttpStatus :=
| HttpCode (c : Z)
| HttpQuestionMark
| HttpEmpty.

(** [results_site]; the key ["response_text"] is not read by the engine and
    is left out. *)
Record ResultsSite := mkResultsSite {
  rs_url_main : option string;
  rs_url_user : option string;
  rs_status : option QueryResult;
  rs_http_status : option HttpStatus;
  rs_ids_usernames : option (list (string * string))
}.

(** Exceptions that leave [sherlock] or [main]: nothing in the module
    catches them.  [SystemExit] is what [sys.exit] raises. *)
Inductive PyExn :=
| ValueError (msg : string)
| AttributeError (msg : string)
| TypeError (msg : string)
| KeyError (key : string)
| FormatError (template : string)
| OSError (msg : string)
| Exception (msg : string)
| SystemExit (code : Z).

(** A cell of a row of the CSV report: a string, [None], [str] of a status,
    the value under ["http_status"], or a response time. *)
Inductive CsvCell :=
| CellStr (s : string)
| CellNone
| CellStatus (status : QueryStatus)
| CellHttp (http_status : HttpStatus)
| CellTime (seconds : N).

(** What the engine does to the outside: calls on [query_notify], the
    session it creates, the requests it submits (tagged with the site they
    are for) and the resets of the Tor identity; and what [main] does: the
    page it parses and the operations on the files of its reports. *)
Inductive Event :=
| NotifyStart (username id_type : string)
| NotifyUpdate (r : QueryResult)
| NotifyFinish
| NewSession (max_workers : nat)
| HttpRequest (site : string) (rq : Request)
| ResetIdentity
| ParsePage (url : string)
| MakeDirs (path : string)
| OpenFile (path : string)
| WriteFile (path text : string)
| WriteRow (path : string) (row : list CsvCell)
| CloseFile (path : string).

(** ** Collaborators *)

Class Externals := {
  (** the state of the network and of the file system, and the answer to
      one submitted request *)
  World : Type;
  send : World -> Request -> World * Future;
  (** [socid_extractor.extract] *)
  extract : string -> list (string * string);
  (** [re.search(regex, s) is not None] *)
  re_search : string -> string -> bool;
  (** [template.format(username)]; [None] when it raises *)
  format : string -> string -> option string;
  (** [str.lower] *)
  lower : string -> string;
  (** [parse(url, cookies_str=...)]: the page, or the exception raised *)
  parse : World -> string -> World * (PyExn + string);
  (** [os.makedirs(path, exist_ok=True)], [open(path, "w", ...)],
      [file.write(text)], [writer.writerow(row)] and the closing of the
      file at the end of [with]: each may raise *)
  makedirs : World -> string -> World * option PyExn;
  open_file : World -> string -> World * option PyExn;
  write_file : World -> string -> string -> World * option PyExn;
  writerow : World -> string -> list CsvCell -> World * option PyExn;
  close_file : World -> string -> World * option PyExn;
  (** [os.path.join] *)
  path_join : string -> string -> string
}.

(** ** The monad of the engine: network state, emitted events, exceptions *)

Section Engine.
Context `{Ext : Externals}.

Definition M (A : Type) : Type := World -> World * list Event * (PyExn + A).

Definition ret {A} (a : A) : M A := fun w => (w, [], inr a).

Definition bind {A B} (c : M A) (f : A -> M B) : M B :=
  fun w =>
    match c w with
    | (w1, t1, inl e) => (w1, t1, inl e)
    | (w1, t1, inr a) =>
        match f a w1 with
        | (w2, t2, r) => (w2, t1 ++ t2, r)
        end
    end.

Definition raise {A} (e : PyExn) : M A := fun w => (w, [], inl e).

Definition emit (ev : Event) : M unit := fun w => (w, [ev], inr tt).

Definition submit (site : string) (rq : Request) : M Future :=
  fun w => match send w rq with (w', f) => (w', [HttpRequest site rq], inr f) end.

Definition lift {A} (r : PyExn + A) : M A := fun w => (w, [], r).

(** A call of an operation of the outside that may raise: the call is
    recorded, whatever comes of it. *)
Definition call (ev : Event) (op : World -> World * option PyExn) : M unit :=
  fun w =>
    match op w with
    | (w', None) => (w', [ev], inr tt)
    | (w', Some e) => (w', [ev], inl e)
    end.

(** [with open(path, "w", ...) as file: body]: the file is closed when the
    body returns and when it raises; an exception raised by the closing
    replaces the outcome of the body. *)
Definition with_open {A} (path : string) (body : M A) : M A :=
  bind (call (OpenFile path) (fun w => open_file w path))
       (fun _ w =>
          match body w with
          | (w1, t1, r) =>
              match close_file w1 path with
              | (w2, None) => (w2, t1 ++ [CloseFile path], r)
              | (w2, Some e) => (w2, t1 ++ [CloseFile path], inl e)
              end
          end).

End Engine.

Notation "'let*' x ':=' c 'in' k" := (bind c (fun x => k))
  (at level 10, x pattern, c at level 200, k at level 200, only parsing).
Notation "c '>>' k" := (bind c (fun _ => k))
  (at level 62, right associativity, only parsing).

(** ** [get_response] *)

Definition get_response (request_future : Future)
  : option Response * option string * option string :=
  match request_future with
  | Returns response =>
      (Some response,
       if Z.eqb (status_code response) 0
       then Some "General Unknown Error" else None,
       None)
  | Throws e msg =>
      if isinstance_HTTPError e then (None, Some "HTTP Error", Some msg)
      else if isinstance_ProxyError e then (None, Some "Proxy Error", Some msg)
      else if isinstance_ConnectionError e
           then (None, Some "Error Connecting", Some msg)
      else if isinstance_Timeout e then (None, Some "Timeout Error", Some msg)
      else (None, Some "Unknown Error", Some msg)
  end.

(** ** The pieces of the collection loop of [sherlock] *)

(** [r.text] and [r.status_code] on a variable that may hold [None]. *)
Definition text_of (r : option Response) : PyExn + string :=
  match r with
  | Some resp => inr (text resp)
  | None => inl (AttributeError "'NoneType' object has no attribute 'text'")
  end.

Definition status_code_of (r : option Response) : PyExn + Z :=
  match r with
  | Some resp => inr (status_code resp)
  | None =>
      inl (AttributeError "'NoneType' object has no attribute 'status_code'")
  end.

(** The truth value of [r]: [None] is false, and a [requests.Response] is
    true exactly when it is [ok], that is when [raise_for_status] accepts
    its status code. *)
Definition truthy (r : option Response) : bool :=
  match r with
  | None => false
  | Some resp =>
      negb (Z.leb 400 (status_code resp) && Z.ltb (status_code resp) 600)
  end.

(** The loop over [failure_errors.items()]: the first annotation found in
    the body replaces [error_text], and the loop stops there. *)
Fixpoint detect_failure (failure_errors : list (string * string))
    (r : option Response) (error_text : option string)
  : PyExn + option string :=
  match failure_errors with
  | [] => inr error_text
  | (txt, comment) :: rest =>
      match text_of r with
      | inl e => inl e
      | inr body =>
          if str_in txt body then inr (Some comment)
          else detect_failure rest r error_text
      end
  end.

Definition special_id_kinds : list string :=
  ["yandex_public_id"; "wikimapia_uid"; "gaia_id"].

(** The body of the loop over [extracted_ids_data.items()]. *)
Definition add_new_username (new_usernames : list (string * string))
    (kv : string * string) : list (string * string) :=
  let '(k, v) := kv in
  let new_usernames :=
    if str_in "username" k then dict_set new_usernames v "username"
    else new_usernames in
  if existsb (String.eqb k) special_id_kinds then dict_set new_usernames v k
  else new_usernames.

Definition new_usernames_of (extracted_ids_data : list (string * string))
  : list (string * string) :=
  fold_left add_new_username extracted_ids_data [].

Definition is_empty {A} (l : list A) : bool :=
  match l with [] => true | _ => false end.

(** [any([(err in r.text) for err in errors_set])] for the value of
    ["errorMsg"]; an absent key gives [None in r.text], a [TypeError]. *)
Definition error_found (error : option ErrorMsg) (body : string) : PyExn + bool :=
  match error with
  | None =>
      inl (TypeError "'in <string>' requires string as left operand, not NoneType")
  | Some (MsgStr err) => inr (str_in err body)
  | Some (MsgList errs) => inr (existsb (fun err => str_in err body) errs)
  end.

(** The chain [if error_text is not None ... elif error_type == ...]. *)
Definition classify (username social_network : string) (url : option string)
    (net_info : NetInfo) (r : option Response) (error_text : option string)
    (extracted_ids_data : list (string * string)) (response_time : option N)
  : PyExn + QueryResult :=
  let result st ctx :=
    mkQueryResult username social_network url st extracted_ids_data
                  response_time ctx in
  let error_type := ni_errorType net_info in
  match error_text with
  | Some ctx => inr (result UNKNOWN (Some ctx))
  | None =>
      if String.eqb error_type "message" then
        match text_of r with
        | inl e => inl e
        | inr body =>
            match error_found (ni_errorMsg net_info) body with
            | inl e => inl e
            | inr found =>
                if negb found then inr (result CLAIMED None)
                else inr (result AVAILABLE None)
            end
        end
      else if String.eqb error_type "status_code" then
        match status_code_of r with
        | inl e => inl e
        | inr sc =>
            if negb (Z.geb sc 300) || Z.ltb sc 200
            then inr (result CLAIMED None)
            else inr (result AVAILABLE None)
        end
      else if String.eqb error_type "response_url" then
        match status_code_of r with
        | inl e => inl e
        | inr sc =>
            if Z.leb 200 sc && Z.ltb sc 300
            then inr (result CLAIMED None)
            else inr (result AVAILABLE None)
        end
      else
        inl (ValueError ("Unknown Error Type '" +:+ error_type +:+
                         "' for site '" +:+ social_network +:+ "'"))
  end.

(** The values of [error_context] that [get_response] sets when the
    request raised. *)
Definition transport_contexts : list string :=
  ["HTTP Error"; "Proxy Error"; "Error Connecting"; "Timeout Error";
   "Unknown Error"].

(** ** [sherlock] *)

(** The arguments of a run: the ones that [main] hands to every call of
    [sherlock], and the ones that [main] reads itself.  [tags] is
    [args.tags]: the empty list when no tag filter was given. *)
Record Args := mkArgs {
  tor : bool;
  unique_tor : bool;
  proxy : option string;
  timeout : option N;
  ids_search : bool;
  tags : list string;
  output : option string;
  folderoutput : option string;
  csv : bool;
  parse_url : option string
}.

Definition default_headers : list (string * string) :=
  [("User-Agent",
    "Mozilla/5.0 (Macintosh; Intel Mac OS X 11.1; rv:55.0) Gecko/20100101 Firefox/55.0")].

(** [tags.intersection(site_tags)] is not empty. *)
Definition tags_intersect (tags site_tags : list string) : bool :=
  existsb (fun t => existsb (String.eqb t) site_tags) tags.

(** The two tests that make the first loop [continue]. *)
Definition kind_differs (net_info : NetInfo) (id_type : string) : bool :=
  negb (String.eqb (default "username" (ni_type net_info)) id_type).

Definition tags_exclude (net_info : NetInfo) (tags : list string) : bool :=
  negb (is_empty tags) &&
  negb (tags_intersect tags (default [] (ni_tags net_info))).

Definition request_method (net_info : NetInfo) : Method :=
  if String.eqb (ni_errorType net_info) "status_code" &&
     bool_decide (default true (ni_request_head_only net_info) = true)
  then HEAD else GET.

Definition allow_redirects (net_info : NetInfo) : bool :=
  if String.eqb (ni_errorType net_info) "response_url" then false else true.

Definition set_request_future (net_info : NetInfo) (future : Future) : NetInfo :=
  mkNetInfo (ni_type net_info) (ni_tags net_info) (ni_urlMain net_info)
            (ni_headers net_info) (ni_url net_info) (ni_regexCheck net_info)
            (ni_urlProbe net_info) (ni_errorType net_info)
            (ni_request_head_only net_info) (ni_errors net_info)
            (ni_errorMsg net_info) (Some future).

(** [regex_check and re.search(regex_check, username) is None] *)
Definition regex_rejects `{Externals} (net_info : NetInfo) (username : string) : bool :=
  match ni_regexCheck net_info with
  | None => false
  | Some regex_check =>
      negb (String.eqb regex_check "") && negb (re_search regex_check username)
  end.

Definition newline : string := String (ascii_of_nat 10) EmptyString.

(** [str(n)] for a natural number. *)
Definition decimal (n : nat) : string := NilZero.string_of_uint (Nat.to_uint n).

(** The truth value of a string argument: [None] and [""] are false. *)
Definition truthy_string (s : option string) : bool :=
  match s with
  | Some s => negb (String.eqb s "")
  | None => false
  end.

Section Sherlock.
Context `{Ext : Externals}.

Definition format_or_raise (template username : string) : M string :=
  match format template username with
  | Some s => ret s
  | None => raise (FormatError template)
  end.

(** One iteration of the first loop: the site entry (whose
    ["request_future"] may be set) and [results_total] afterwards. *)
Definition dispatch_site (username id_type : string) (args : Args)
    (social_network : string) (net_info : NetInfo)
    (results_total : list (string * ResultsSite))
  : M (NetInfo * list (string * ResultsSite)) :=
  if kind_differs net_info id_type then ret (net_info, results_total)
  else if tags_exclude net_info (tags args) then ret (net_info, results_total)
  else
    let url_main := ni_urlMain net_info in
    let headers :=
      match ni_headers net_info with
      | Some extra => dict_update default_headers extra
      | None => default_headers
      end in
    let* url := format_or_raise (ni_url net_info) username in
    if regex_rejects net_info username then
      let status :=
        mkQueryResult username social_network (Some url) ILLEGAL [] None None in
      emit (NotifyUpdate status) >>
      ret (net_info,
           dict_set results_total social_network
             (mkResultsSite url_main (Some "") (Some status) (Some HttpEmpty) None))
    else
      let* url_probe :=
        match ni_urlProbe net_info with
        | None => ret url
        | Some template => format_or_raise template username
        end in
      let proxies :=
        match proxy args with
        | Some p => Some [("http", p); ("https", p)]
        | None => None
        end in
      let* future :=
        submit social_network
          (mkRequest (request_method net_info) url_probe headers proxies
                     (allow_redirects net_info) (timeout args)) in
      (if unique_tor args then emit ResetIdentity else ret tt) >>
      ret (set_request_future net_info future,
           dict_set results_total social_network
             (mkResultsSite url_main (Some url) None None None)).

(** The first loop over [site_data.items()]. *)
Fixpoint dispatch_all (username id_type : string) (args : Args)
    (site_data : list (string * NetInfo))
    (results_total : list (string * ResultsSite))
  : M (list (string * NetInfo) * list (string * ResultsSite)) :=
  match site_data with
  | [] => ret ([], results_total)
  | (social_network, net_info) :: rest =>
      let* (net_info', results_total') :=
        dispatch_site username id_type args social_network net_info
                      results_total in
      let* (rest', results_total'') :=
        dispatch_all username id_type args rest results_total' in
      ret ((social_network, net_info') :: rest', results_total'')
  end.

(** [extract(r.text)] under [if ids_search and r], and the initial [""]
    otherwise; a true [r] is a response. *)
Definition extracted_ids (ids_search : bool) (r : option Response)
  : list (string * string) :=
  if ids_search && truthy r then
    match r with
    | Some resp => extract (text resp)
    | None => []
    end
  else [].

(** One iteration of the second loop.  A [results_site] always holds the
    key ["url_main"], so [not results_site] is the test for a missing
    entry. *)
Definition collect_site (username : string) (args : Args)
    (social_network : string) (net_info : NetInfo)
    (results_total : list (string * ResultsSite))
  : M (list (string * ResultsSite)) :=
  match dict_get results_total social_network with
  | None => ret results_total
  | Some results_site =>
      let url := rs_url_user results_site in
      match rs_status results_site with
      | Some _ => ret results_total
      | None =>
          let failure_errors := default [] (ni_errors net_info) in
          match ni_request_future net_info with
          | None => raise (KeyError "request_future")
          | Some future =>
              let '(r, error_text, expection_text) := get_response future in
              let response_time := elapsed <$> r in
              let http_status :=
                match r with
                | Some resp => HttpCode (status_code resp)
                | None => HttpQuestionMark
                end in
              let* error_text := lift (detect_failure failure_errors r error_text) in
              let extracted_ids_data := extracted_ids (ids_search args) r in
              let ids_usernames :=
                if is_empty extracted_ids_data
                then rs_ids_usernames results_site
                else Some (new_usernames_of extracted_ids_data) in
              let* result :=
                lift (classify username social_network url net_info r
                               error_text extracted_ids_data response_time) in
              emit (NotifyUpdate result) >>
              ret (dict_set results_total social_network
                     (mkResultsSite (rs_url_main results_site) url (Some result)
                                    (Some http_status) ids_usernames))
          end
      end
  end.

(** The second loop over [site_data.items()]. *)
Fixpoint collect_all (username : string) (args : Args)
    (site_data : list (string * NetInfo))
    (results_total : list (string * ResultsSite))
  : M (list (string * ResultsSite)) :=
  match site_data with
  | [] => ret results_total
  | (social_network, net_info) :: rest =>
      let* results_total' :=
        collect_site username args social_network net_info results_total in
      collect_all username args rest results_total'
  end.

Definition max_workers (site_data : list (string * NetInfo)) : nat :=
  if Nat.leb 20 (length site_data) then 20 else length site_data.

(** [sherlock(username, site_data, query_notify, ...)]: the site data as the
    call leaves it, and the value returned.  [NewSession] records the pool
    size handed to [SherlockFuturesSession]. *)
Definition sherlock (username : string) (site_data : list (string * NetInfo))
    (args : Args) (id_type : string)
  : M (list (string * NetInfo) * list (string * ResultsSite)) :=
  emit (NotifyStart username id_type) >>
  emit (NewSession (max_workers site_data)) >>
  let* (site_data', results_total) :=
    dispatch_all username id_type args site_data [] in
  let* results_total := collect_all username args site_data' results_total in
  emit NotifyFinish >>
  ret (site_data', results_total).

(** ** The exploration loop of [main] *)

(** [{u: 'username' for u in args.username if u not in ('-')}]: the
    parentheses hold a string, so the test is a substring test. *)
Definition initial_usernames (args_username : list string)
  : list (string * string) :=
  fold_left
    (fun usernames u =>
       if negb (str_in u "-") then dict_set usernames u "username"
       else usernames)
    args_username [].

(** What the loop over [results] in the report block does to the work
    queue: [usernames[u] = utype] for the new identifiers of each entry, in
    the order of the results. *)
Definition push_new_usernames (results : list (string * ResultsSite))
    (usernames : list (string * string)) : list (string * string) :=
  fold_left
    (fun usernames entry =>
       match rs_ids_usernames entry.2 with
       | Some new_usernames =>
           if is_empty new_usernames then usernames
           else dict_update usernames new_usernames
       | None => usernames
       end)
    results usernames.

(** The choice of [result_file]; [os.makedirs] is called for
    [--folderoutput]. *)
Definition result_file (username : string) (args : Args) : M string :=
  if truthy_string (output args) then ret (default "" (output args))
  else if truthy_string (folderoutput args) then
    let folder := default "" (folderoutput args) in
    call (MakeDirs folder) (fun w => makedirs w folder) >>
    ret (path_join folder (username +:+ ".txt"))
  else ret (username +:+ ".txt").

(** [for website_name in results: ...] in the text report: the new
    identifiers of the entry go to the queue, and the URL of a claimed
    site is written.  The loop returns the queue and [exists_counter]. *)
Fixpoint report_loop (file : string) (results : list (string * ResultsSite))
    (usernames : list (string * string)) (exists_counter : nat)
  : M (list (string * string) * nat) :=
  match results with
  | [] => ret (usernames, exists_counter)
  | (website_name, dictionary) :: results =>
      let usernames :=
        match rs_ids_usernames dictionary with
        | Some new_usernames =>
            if is_empty new_usernames then usernames
            else dict_update usernames new_usernames
        | None => usernames
        end in
      match rs_status dictionary with
      | None =>
          raise (AttributeError "'NoneType' object has no attribute 'status'")
      | Some result =>
          match qr_status result with
          | CLAIMED =>
              match rs_url_user dictionary with
              | None => raise (KeyError "url_user")
              | Some url_user =>
                  call (WriteFile file (url_user +:+ newline))
                       (fun w => write_file w file (url_user +:+ newline)) >>
                  report_loop file results usernames (S exists_counter)
              end
          | _ => report_loop file results usernames exists_counter
          end
      end
  end.

(** [with open(result_file, "w", encoding="utf-8") as file: ...]: the text
    report of a round; it returns the work queue. *)
Definition text_report (file : string) (results : list (string * ResultsSite))
    (usernames : list (string * string)) : M (list (string * string)) :=
  with_open file
    (let* (usernames, exists_counter) := report_loop file results usernames 0 in
     let total := "Total Websites Username Detected On : " +:+
                  decimal exists_counter in
     call (WriteFile file total) (fun w => write_file w file total) >>
     ret usernames).

(** The row of a site in the CSV report. *)
Definition csv_row (username site : string) (entry : ResultsSite)
  : PyExn + list CsvCell :=
  match rs_status entry with
  | None => inl (KeyError "status")
  | Some status =>
      match rs_url_user entry with
      | None => inl (KeyError "url_user")
      | Some url_user =>
          match rs_http_status entry with
          | None => inl (KeyError "http_status")
          | Some http_status =>
              inr [CellStr username; CellStr site;
                   match rs_url_main entry with
                   | Some url_main => CellStr url_main
                   | None => CellNone
                   end;
                   CellStr url_user; CellStatus (qr_status status);
                   CellHttp http_status;
                   match qr_query_time status with
                   | Some response_time_s => CellTime response_time_s
                   | None => CellStr ""
                   end]
          end
      end
  end.

(** [for site in results: ... writer.writerow([...])] *)
Fixpoint csv_rows (file username : string)
    (results : list (string * ResultsSite)) : M unit :=
  match results with
  | [] => ret tt
  | (site, entry) :: results =>
      let* row := lift (csv_row username site entry) in
      call (WriteRow file row) (fun w => writerow w file row) >>
      csv_rows file username results
  end.

Definition csv_header : list CsvCell :=
  [CellStr "username"; CellStr "name"; CellStr "url_main"; CellStr "url_user";
   CellStr "exists"; CellStr "http_status"; CellStr "response_time_s"].

(** [with open(username + ".csv", "w", ...) as csv_report: ...] *)
Definition csv_report (username : string)
    (results : list (string * ResultsSite)) : M unit :=
  let file := username +:+ ".csv" in
  with_open file
    (call (WriteRow file csv_header) (fun w => writerow w file csv_header) >>
     csv_rows file username results).

(** What [main] does with the results of a round: the text report, which
    also fills the work queue, and the CSV report under [--csv]. *)
Definition reports (username : string) (args : Args)
    (results : list (string * ResultsSite)) (usernames : list (string * string))
  : M (list (string * string)) :=
  let* file := result_file username args in
  let* usernames := text_report file results usernames in
  (if csv args then csv_report username results else ret tt) >>
  ret usernames.

Inductive RunStatus := Finished | OutOfFuel.

(** [while usernames: ...], one unit of fuel for each pass. *)
Fixpoint main_loop (fuel : nat) (usernames : list (string * string))
    (already_checked : gset string) (site_data : list (string * NetInfo))
    (args : Args) : M RunStatus :=
  match usernames with
  | [] => ret Finished
  | (username, id_type) :: usernames =>
      match fuel with
      | O => ret OutOfFuel
      | S fuel =>
          if bool_decide (lower username ∈ already_checked)
          then main_loop fuel usernames already_checked site_data args
          else
            let already_checked := already_checked ∪ {[lower username]} in
            let* (site_data, results) :=
              sherlock username site_data args id_type in
            let* usernames := reports username args results usernames in
            main_loop fuel usernames already_checked site_data args
      end
  end.

(** The checks of the arguments that [main] makes before its loop. *)
Definition check_args (args_username : list string) (args : Args) : M unit :=
  (if tor args && bool_decide (is_Some (proxy args))
   then raise (Exception "Tor and Proxy cannot be set at the same time.")
   else ret tt) >>
  (if bool_decide (is_Some (output args)) &&
      bool_decide (is_Some (folderoutput args))
   then raise (SystemExit 1)
   else ret tt) >>
  (if bool_decide (is_Some (output args)) &&
      negb (Nat.eqb (length args_username) 1)
   then raise (SystemExit 1)
   else ret tt).

(** [if args.parse_url: ...]: the identifiers of the parsed page that are
    followed go to the queue. *)
Definition parsed_usernames (args : Args) (usernames : list (string * string))
  : M (list (string * string)) :=
  if truthy_string (parse_url args) then
    let url := default "" (parse_url args) in
    fun w =>
      match parse w url with
      | (w', inl e) => (w', [ParsePage url], inl e)
      | (w', inr page) =>
          (w', [ParsePage url],
           inr (fold_left add_new_username (extract page) usernames))
      end
  else ret usernames.

(** [main] from the first queue on: the parsing of the command line comes
    before and gives [args_username] and [args]; the loading, the selection
    and the ranking of the sites, which come between the parsed page and
    the loop, give [site_data]. *)
Definition main (fuel : nat) (args_username : list string)
    (site_data : list (string * NetInfo)) (args : Args) : M RunStatus :=
  let usernames := initial_usernames args_username in
  check_args args_username args >>
  let* usernames := parsed_usernames args usernames in
  main_loop fuel usernames ∅ site_data args.

End Sherlock.

(** ** A concrete world

    A small network and catalog on which the engine can be run: the server
    answers by the first pattern found in the URL, templates hold the
    placeholder [{}], a regular expression is a literal, and [lower] maps
    the ASCII capitals. *)

Module Demo.

Definition server_table : list (string * Future) :=
  [("timeout", Throws ReadTimeout "read timed out");
   ("refused", Throws ConnectionError "connection refused");
   ("switching", Returns (mkResponse 101 "" 3));
   ("missing", Returns (mkResponse 404 "Not Found" 4));
   ("banned", Returns (mkResponse 200 "Access denied in your country. User not found" 6));
   ("linked", Returns (mkResponse 200 "uid=77 name=bob" 7));
   ("twin", Returns (mkResponse 200 "uid=77 twin" 7))].

Fixpoint server (table : list (string * Future)) (url : string) : Future :=
  match table with
  | [] => Returns (mkResponse 200 "Welcome" 5)
  | (pattern, answer) :: table =>
      if str_in pattern url then answer else server table url
  end.

Fixpoint fill (template username : string) : string :=
  match template with
  | EmptyString => EmptyString
  | String "{" (String "}" rest) => username +:+ fill rest username
  | String c rest => String c (fill rest username)
  end.

Definition lower_ascii (c : ascii) : ascii :=
  let n := nat_of_ascii c in
  if Nat.leb 65 n && Nat.leb n 90 then ascii_of_nat (n + 32) else c.

Fixpoint lower_string (s : string) : string :=
  match s with
  | EmptyString => EmptyString
  | String c s' => String (lower_ascii c) (lower_string s')
  end.

Definition extract_ids (body : string) : list (string * string) :=
  if str_in "twin" body
  then [("username", "77"); ("gaia_id", "77")]
  else if str_in "uid=77" body
  then [("fullname", "Bob B."); ("vk_username", "bob"); ("gaia_id", "77")]
  else [].

#[global] Instance externals : Externals := {|
  World := nat;
  send := fun w rq => (S w, server server_table (rq_url rq));
  extract := extract_ids;
  re_search := str_in;
  format := fun template username => Some (fill template username);
  lower := lower_string;
  parse := fun w url =>
             match server server_table url with
             | Returns response => (S w, inr (text response))
             | Throws _ msg => (S w, inl (OSError msg))
             end;
  makedirs := fun w path => (w, None);
  open_file := fun w path =>
                 (w, if str_in "no_such_dir/" path
                     then Some (OSError "No such file or directory")
                     else None);
  write_file := fun w path text => (w, None);
  writerow := fun w path row => (w, None);
  close_file := fun w path => (w, None);
  path_join := fun folder name => folder +:+ "/" +:+ name
|}.

(** The network before the first request. *)
Definition w0 : @World externals := 0%nat.

Definition site (kind : option string) (site_tags : option (list string))
    (url error_type : string) (annotations : option (list (string * string)))
    (msg : option ErrorMsg) : NetInfo :=
  mkNetInfo kind site_tags (Some "https://example.org") None url None None
            error_type None annotations msg None.

(** Three sites: two for usernames, one for another kind of identifier. *)
Definition catalog : list (string * NetInfo) :=
  [("Forum", site None (Some ["forum"]) "https://forum.example/{}"
             "status_code" None None);
   ("Gaia", site (Some "gaia_id") None "https://gaia.example/{}"
            "status_code" None None);
   ("Blog", site None (Some ["blog"]) "https://blog.example/missing/{}"
            "message" None (Some (MsgStr "Not Found")))].

Definition no_args : Args :=
  mkArgs false false None None false [] None None false None.

(** A site whose pages name bob and a Gaia identifier. *)
Definition link_catalog : list (string * NetInfo) :=
  [("Link", site None None "https://link.example/linked/{}" "message" None
            (Some (MsgStr "No such user")))].

(** A site whose page carries one identifier under two followed keys. *)
Definition twin_catalog : list (string * NetInfo) :=
  [("Twin", site None None "https://twin.example/{}" "message" None
            (Some (MsgStr "No such user")))].

(** A site that answers 101, detected by status code. *)
Definition switch_catalog : list (string * NetInfo) :=
  [("Switch", site None None "https://sw.example/switching/{}"
              "status_code" None None)].

(** A site that times out, with and without failure annotations. *)
Definition slow_catalog : list (string * NetInfo) :=
  [("Slow", site None None "https://slow.example/timeout/{}"
            "status_code" None None)].

Definition slow_annotated_catalog : list (string * NetInfo) :=
  [("Slow", site None None "https://slow.example/timeout/{}"
            "status_code" (Some [("captcha", "Captcha required")]) None)].

(** A site with an unknown detection strategy between two sound ones. *)
Definition forum : NetInfo :=
  site None (Some ["forum"]) "https://forum.example/{}" "status_code" None None.
Definition odd : NetInfo :=
  site None None "https://odd.example/{}" "regex" None None.
Definition blog : NetInfo :=
  site None (Some ["blog"]) "https://blog.example/missing/{}" "message" None
       (Some (MsgStr "Not Found")).

Definition odd_catalog : list (string * NetInfo) :=
  [("Forum", forum); ("Odd", odd); ("Blog", blog)].

Definition welcome : Response := mkResponse 200 "Welcome" 5.
Definition not_found : Response := mkResponse 404 "Not Found" 4.

Definition pending (url : string) : ResultsSite :=
  mkResultsSite (Some "https://example.org") (Some url) None None None.

(** The results of the round for alice on [odd_catalog] after the first
    loop, and after the second loop has handled the forum. *)
Definition odd_dispatched : list (string * ResultsSite) :=
  [("Forum", pending "https://forum.example/alice");
   ("Odd", pending "https://odd.example/alice");
   ("Blog", pending "https://blog.example/missing/alice")].

Definition odd_collected : list (string * ResultsSite) :=
  [("Forum",
    mkResultsSite (Some "https://example.org")
      (Some "https://forum.example/alice")
      (Some (mkQueryResult "alice" "Forum" (Some "https://forum.example/alice")
               CLAIMED [] (Some 5%N) None))
      (Some (HttpCode 200)) None);
   ("Odd", pending "https://odd.example/alice");
   ("Blog", pending "https://blog.example/missing/alice")].

(** A site under a country ban whose page also holds the error message of
    the site, after the request has been answered. *)
Definition banned_body : Response :=
  mkResponse 200 "Access denied in your country. User not found" 6.

Definition bbs : NetInfo :=
  set_request_future
    (site None None "https://bbs.example/banned/{}" "message"
          (Some [("captcha", "Captcha required"); ("Access denied", "Country ban")])
          (Some (MsgStr "User not found")))
    (Returns banned_body).
Definition ids_args : Args :=
  mkArgs false false None None true [] None None false None.

End Demo.

(** ** Reading a run *)

Definition run_trace {W A : Type} (x : W * list Event * A) : list Event := x.1.2.
Definition run_result {W A : Type} (x : W * list Event * A) : A := x.2.

(** The verdicts handed to [query_notify.update], in order. *)
Definition verdicts (t : list Event)
  : list (string * string * QueryStatus * option string) :=
  omap (fun ev =>
          match ev with
          | NotifyUpdate r =>
              Some (qr_username r, qr_site_name r, qr_status r, qr_context r)
          | _ => None
          end) t.

(** The identifiers for which a round was started, in order. *)
Definition starts (t : list Event) : list string :=
  omap (fun ev => match ev with NotifyStart u _ => Some u | _ => None end) t.

(** The number of calls of [query_notify.finish]. *)
Definition finishes (t : list Event) : nat :=
  length (omap (fun ev => match ev with NotifyFinish => Some tt | _ => None end) t).

(** The pool sizes of the sessions created, in order. *)
Definition pool_sizes (t : list Event) : list nat :=
  omap (fun ev => match ev with NewSession n => Some n | _ => None end) t.

(** The requests submitted, in order. *)
Definition requests (t : list Event) : list (string * Request) :=
  omap (fun ev => match ev with HttpRequest s rq => Some (s, rq) | _ => None end) t.

(** An event that concerns the site [name]: a probe for it or a verdict on
    it. *)
Definition about (name : string) (ev : Event) : Prop :=
  match ev with
  | NotifyUpdate r => qr_site_name r = name
  | HttpRequest s _ => s = name
  | _ => False
  end.

(** An event of the inside of a round: neither a start nor a finish nor a
    new session. *)
Definition inner (ev : Event) : Prop :=
  match ev with
  | NotifyUpdate _ | HttpRequest _ _ | ResetIdentity => True
  | _ => False
  end.

(** A descriptor that the first loop skips. *)
Definition skipped (net_info : NetInfo) (id_type : string) (tags : list string)
  : bool :=
  kind_differs net_info id_type || tags_exclude net_info tags.

Definition applicable_count (site_data : list (string * NetInfo))
    (id_type : string) (tags : list string) : nat :=
  length (filter (fun entry => skipped entry.2 id_type tags = false) site_data).

(** A key of an extraction that the engine follows, and the kind it gives
    to the value. *)
Definition followed (k : string) : bool :=
  str_in "username" k || existsb (String.eqb k) special_id_kinds.

Definition kind_of (k : string) : string :=
  if existsb (String.eqb k) special_id_kinds then k else "username".

(** The pair [(k, v)] was extracted from a page during the trace: it is in
    the [ids_data] of a verdict. *)
Definition found (t : list Event) (k v : string) : Prop :=
  exists r, NotifyUpdate r ∈ t /\ (k, v) ∈ qr_ids_data r.

(** The entries that carry new identifiers were written by a verdict, and
    hold the identifiers of the followed pairs of that verdict. *)
Definition carries_found (t : list Event) (results : list (string * ResultsSite))
  : Prop :=
  forall k v, found t k v -> followed k = true ->
    exists name rs nu,
      dict_get results name = Some rs /\ is_Some (rs_status rs) /\
      rs_ids_usernames rs = Some nu /\ v ∈ nu.*1.

Definition carries_only_found (t : list Event)
    (results : list (string * ResultsSite)) : Prop :=
  forall name rs nu v kind,
    (name, rs) ∈ results -> rs_ids_usernames rs = Some nu -> (v, kind) ∈ nu ->
    exists k, found t k v /\ followed k = true /\ kind = kind_of k.

(** The calls of [query_notify.start] and [query_notify.finish], in
    order. *)
Definition lifecycle (t : list Event) : list Event :=
  omap (fun ev =>
          match ev with
          | NotifyStart _ _ | NotifyFinish => Some ev
          | _ => None
          end) t.

(** The number of rounds started for an identifier with the lowercase form
    of [u]. *)
Definition rounds_for `{Externals} (u : string) (t : list Event) : nat :=
  length (filter (fun x => lower x = lower u) (starts t)).

(** The calls of [start] and [finish] of a sequence of rounds that all
    returned. *)
Definition round_marks (rounds : list (string * string)) : list Event :=
  mbind (M := list) (fun round => [NotifyStart round.1 round.2; NotifyFinish])
        rounds.

(** A verdict on the site [name]. *)
Definition verdict_on (name : string) (ev : Event) : Prop :=
  match ev with
  | NotifyUpdate r => qr_site_name r = name
  | _ => False
  end.

(** An event that the loops of [sherlock] emit while they handle the site
    [name]. *)
Definition of_site (name : string) (ev : Event) : Prop :=
  match ev with
  | NotifyUpdate r => qr_site_name r = name
  | HttpRequest s _ => s = name
  | ResetIdentity => True
  | _ => False
  end.

(** A request is for a site of the catalog and has the method that the
    site's entry fixes. *)
Definition method_rule (site_data : list (string * NetInfo)) (ev : Event) : Prop :=
  forall s rq, ev = HttpRequest s rq ->
    exists net_info, (s, net_info) ∈ site_data /\
                     rq_method rq = request_method net_info.

(** A specification of a computation: every event emitted satisfies [P],
    and a returned value satisfies [Q]. *)
Definition triple `{Ext : Externals} {A} (c : M A)
    (P : Event -> Prop) (Q : A -> Prop) : Prop :=
  forall w,
    Forall P (run_trace (c w)) /\
    match run_result (c w) with inr a => Q a | inl _ => True end.

(** ** [SherlockFuturesSession.request] *)

(** A response hook: the time hook that a call of [request] defines (it
    keeps the start time of that call), or a hook of the caller. *)
Inductive Hook :=
| response_time (start : N)
| caller_hook (name : string).

(** What the caller may have put under [hooks['response']]: a list, a
    tuple, or one hook. *)
Inductive HookValue :=
| HookList (hs : list Hook)
| HookTuple (hs : list Hook)
| HookOne (h : Hook).

(** The [try] block of [request]: the dictionary [hooks] as the call leaves
    it and hands it to the request method of the super class.  [start] is
    the value of [monotonic()] at the call. *)
Definition request_hooks (start : N) (hooks : list (string * HookValue))
  : list (string * HookValue) :=
  match dict_get hooks "response" with
  | Some (HookList hs) =>
      dict_set hooks "response" (HookList (response_time start :: hs))
  | Some (HookTuple hs) =>
      dict_set hooks "response" (HookList (response_time start :: hs))
  | Some (HookOne h) =>
      dict_set hooks "response" (HookList [response_time start; h])
  | None => dict_set hooks "response" (HookList [response_time start])
  end.

(** The hooks that a value holds, in order. *)
Definition hooks_in (v : option HookValue) : list Hook :=
  match v with
  | Some (HookList hs) | Some (HookTuple hs) => hs
  | Some (HookOne h) => [h]
  | None => []
  end.

(** Successive calls of [request] on one dictionary, as the calls that
    leave out [hooks] make them on the default value [{}] of the
    parameter. *)
Definition requests_hooks (starts : list N) (hooks : list (string * HookValue))
  : list (string * HookValue) :=
  fold_left (fun hooks start => request_hooks start hooks) starts hooks.

(** ** The request of a site *)

Definition site_headers (net_info : NetInfo) : list (string * string) :=
  match ni_headers net_info with
  | Some extra => dict_update default_headers extra
  | None => default_headers
  end.

Definition site_proxies (args : Args) : option (list (string * string)) :=
  match proxy args with
  | Some p => Some [("http", p); ("https", p)]
  | None => None
  end.

(** The request that the first loop submits for a site, given the probe
    URL. *)
Definition site_request (args : Args) (net_info : NetInfo) (url_probe : string)
  : Request :=
  mkRequest (request_method net_info) url_probe (site_headers net_info)
            (site_proxies args) (allow_redirects net_info) (timeout args).

(** The template of the probe URL: ["urlProbe"] when the site has one,
    ["url"] otherwise. *)
Definition probe_template (net_info : NetInfo) : string :=
  default (ni_url net_info) (ni_urlProbe net_info).

(** ** The selection of the sites in [main] *)

(** The inner loop for one name of [args.site_list]: the entries of the
    catalog are unique by name, so [site_data_all[existing_site]] is the
    value of the entry. *)
Definition select_site `{Externals} (site : string)
    (site_data_all site_data : list (string * NetInfo))
  : list (string * NetInfo) :=
  fold_left
    (fun site_data existing =>
       if String.eqb (lower site) (lower existing.1)
       then dict_set site_data existing.1 existing.2
       else site_data)
    site_data_all site_data.

(** The loop over [args.site_list]: the pruned site data and
    [site_missing]. *)
Definition select_sites `{Externals} (site_list : list string)
    (site_data_all : list (string * NetInfo))
  : list (string * NetInfo) * list string :=
  fold_left
    (fun state site =>
       let site_data := select_site site site_data_all state.1 in
       (site_data,
        if is_empty site_data then state.2 ++ ["'" +:+ site +:+ "'"]
        else state.2))
    site_list ([], []).

(** [site_data] after the selection: all sites when [args.site_list] is
    [None]; [None] stands for [sys.exit(1)]. *)
Definition selected_site_data `{Externals} (site_list : option (list string))
    (site_data_all : list (string * NetInfo))
  : option (list (string * NetInfo)) :=
  match site_list with
  | None => Some site_data_all
  | Some site_list =>
      let '(site_data, site_missing) := select_sites site_list site_data_all in
      if is_empty site_missing then Some site_data else None
  end.

(** A name of [args.site_list] that is the name of a site, up to case. *)
Definition names_a_site `{Externals} (site_data_all : list (string * NetInfo))
    (site : string) : bool :=
  existsb (fun existing => String.eqb (lower site) (lower existing.1))
          site_data_all.

(** The longest prefix of a list whose elements satisfy a test. *)
Fixpoint while_true {A} (p : A -> bool) (l : list A) : list A :=
  match l with
  | [] => []
  | x :: l => if p x then x :: while_true p l else []
  end.

(** ** The ranking of the sites in [main] *)

Section Ranking.
(** The value under ["rank"] of a site entry, when it has one. *)
Context {Info : Type} (rank : Info -> option Z).

Definition maxsize : Z := 9223372036854775807.

(** The sort key: the test ["rank" not in k] is made on the name of the
    site. *)
Definition rank_key (entry : string * Info) : bool * Z :=
  (negb (str_in "rank" entry.1), default maxsize (rank entry.2)).

(** The order of Python on pairs of a truth value and an integer. *)
Definition key_le (a b : bool * Z) : bool :=
  match a.1, b.1 with
  | false, true => true
  | true, false => false
  | _, _ => Z.leb a.2 b.2
  end.

(** [sorted] is stable: an element goes before the first element of the
    sorted rest that is not below it. *)
Fixpoint insert_ranked (entry : string * Info) (sorted : list (string * Info))
  : list (string * Info) :=
  match sorted with
  | [] => [entry]
  | other :: rest =>
      if key_le (rank_key entry) (rank_key other) then entry :: sorted
      else other :: insert_ranked entry rest
  end.

Definition sorted_by_rank (site_data : list (string * Info))
  : list (string * Info) :=
  foldr insert_ranked [] site_data.

(** The block under [if args.rank]: the dictionary rebuilt in the order of
    [ranked_sites]. *)
Definition ranked_site_data (site_data : list (string * Info))
  : list (string * Info) :=
  fold_left
    (fun acc site => match dict_get site_data site with
                     | Some info => dict_set acc site info
                     | None => acc
                     end)
    (sorted_by_rank site_data).*1 [].

End Ranking.

(** ** Reading a round *)

(** The verdicts handed to the sink, in order. *)
Definition updates (t : list Event) : list QueryResult :=
  omap (fun ev => match ev with NotifyUpdate r => Some r | _ => None end) t.

(** The requests and the resets of the Tor identity, in order. *)
Definition network_events (t : list Event) : list Event :=
  omap (fun ev =>
          match ev with
          | HttpRequest _ _ | ResetIdentity => Some ev
          | _ => None
          end) t.

(** An event of the first loop: a request, a reset, or the verdict on an
    identifier that the site does not allow. *)
Definition dispatch_event (ev : Event) : Prop :=
  match ev with
  | HttpRequest _ _ | ResetIdentity => True
  | NotifyUpdate r => qr_status r = ILLEGAL
  | _ => False
  end.

(** An event of the second loop: the verdict on a probed site. *)
Definition collect_event (ev : Event) : Prop :=
  match ev with
  | NotifyUpdate r => qr_status r <> ILLEGAL
  | _ => False
  end.

Definition is_claimed (r : QueryResult) : bool :=
  match qr_status r with CLAIMED => true | _ => false end.

(** The sites of a catalog that the first loop does not skip. *)
Definition applicable (site_data : list (string * NetInfo)) (id_type : string)
    (tags : list string) : list (string * NetInfo) :=
  filter (fun entry => skipped entry.2 id_type tags = false) site_data.

(** A site entry as a round leaves it: unchanged, or with a new
    ["request_future"]. *)
Definition same_site (before after : string * NetInfo) : Prop :=
  after.1 = before.1 /\
  (after.2 = before.2 \/ exists future, after.2 = set_request_future before.2 future).

(** An entry of [results_total] that the second loop has still to fill. *)
Definition pending_in (results_total : list (string * ResultsSite))
    (name : string) : Prop :=
  exists rs, dict_get results_total name = Some rs /\ rs_status rs = None.

(** ** The results of the first loop *)

(** The verdict on an identifier that the site does not allow. *)
Definition illegal_result (username name url : string) : QueryResult :=
  mkQueryResult username name (Some url) ILLEGAL [] None None.

(** The entry that the first loop writes for a site that it does not skip,
    given the URL of the user on the site. *)
Definition first_entry `{Externals} (username name : string) (net_info : NetInfo)
    (url : string) : ResultsSite :=
  if regex_rejects net_info username
  then mkResultsSite (ni_urlMain net_info) (Some "")
                     (Some (illegal_result username name url)) (Some HttpEmpty)
                     None
  else mkResultsSite (ni_urlMain net_info) (Some url) None None None.

(** The entries that the first loop writes for a catalog whose templates
    can all be filled. *)
Definition first_results `{Externals} (username id_type : string) (args : Args)
    (site_data : list (string * NetInfo)) : list (string * ResultsSite) :=
  omap (fun entry =>
          if skipped entry.2 id_type (tags args) then None
          else (fun url => (entry.1, first_entry username entry.1 entry.2 url))
                 <$> format (ni_url entry.2) username)
       site_data.

(** A site entry before and after the first loop: a site that is probed
    has a new ["request_future"], another one is as it was. *)
Definition dispatched_site `{Externals} (username id_type : string) (args : Args)
    (before after : string * NetInfo) : Prop :=
  after.1 = before.1 /\
  if skipped before.2 id_type (tags args) || regex_rejects before.2 username
  then after.2 = before.2
  else exists future, after.2 = set_request_future before.2 future.

(** What an event of the first loop says about the site it is for. *)
Definition site_event `{Externals} (username id_type : string) (args : Args)
    (name : string) (net_info : NetInfo) (ev : Event) : Prop :=
  skipped net_info id_type (tags args) = false /\
  match ev with
  | HttpRequest s rq =>
      s = name /\ regex_rejects net_info username = false /\
      exists url_probe,
        format (probe_template net_info) username = Some url_probe /\
        rq = site_request args net_info url_probe
  | ResetIdentity => unique_tor args = true
  | NotifyUpdate r =>
      regex_rejects net_info username = true /\
      exists url, format (ni_url net_info) username = Some url /\
                  r = illegal_result username name url
  | _ => False
  end.

(** The network events of a list of requests: each request, and the reset
    that follows it when every request gets a new Tor circuit. *)
Definition with_resets (unique_tor : bool) (rqs : list (string * Request))
  : list Event :=
  mbind (M := list)
    (fun rq => HttpRequest rq.1 rq.2 ::
               (if unique_tor then [ResetIdentity] else []))
    rqs.

(** ** The results of the second loop *)

(** An entry of [results_total] before and after the second loop: as it
    was, or filled with the verdict on the site. *)
Definition filled_entry (username : string) (before after : string * ResultsSite)
  : Prop :=
  after.1 = before.1 /\
  (after.2 = before.2 \/
   (rs_status before.2 = None /\
    rs_url_main after.2 = rs_url_main before.2 /\
    rs_url_user after.2 = rs_url_user before.2 /\
    is_Some (rs_http_status after.2) /\
    exists result,
      rs_status after.2 = Some result /\
      qr_site_name result = before.1 /\ qr_username result = username /\
      qr_site_url_user result = rs_url_user before.2)).

(** What the second loop has done when it returns: it has filled entries,
    and the verdicts it has notified are the ones it has written. *)
Definition collected (username : string)
    (before : list (string * ResultsSite)) (t : list Event)
    (after : list (string * ResultsSite)) : Prop :=
  Forall2 (filled_entry username) before after /\
  omap (fun entry => rs_status entry.2) after ≡ₚ
    omap (fun entry => rs_status entry.2) before ++ updates t /\
  Forall collect_event t.

(** Why the iteration of the second loop for a site raises. *)
Definition collect_failure (name : string) (net_info : NetInfo) (e : PyExn)
  : Prop :=
  (ni_request_future net_info = None /\ e = KeyError "request_future") \/
  (exists ex msg,
     ni_request_future net_info = Some (Throws ex msg) /\
     default [] (ni_errors net_info) <> [] /\
     e = AttributeError "'NoneType' object has no attribute 'text'") \/
  (exists resp,
     ni_request_future net_info = Some (Returns resp) /\
     status_code resp <> 0%Z /\
     Forall (fun kc => str_in kc.1 (text resp) = false)
            (default [] (ni_errors net_info)) /\
     ((ni_errorType net_info = "message" /\ ni_errorMsg net_info = None /\
       e = TypeError "'in <string>' requires string as left operand, not NoneType") \/
      (ni_errorType net_info <> "message" /\
       ni_errorType net_info <> "status_code" /\
       ni_errorType net_info <> "response_url" /\
       e = ValueError ("Unknown Error Type '" +:+ ni_errorType net_info +:+
                       "' for site '" +:+ name +:+ "'")))).

(** ** Reading the new identifiers of a round *)

(** The new identifiers that an entry of the results holds are those of the
    page of its verdict. *)
Definition holds_page_identifiers (t : list Event)
    (results : list (string * ResultsSite)) : Prop :=
  forall (name : string) (rs : ResultsSite) (nu : list (string * string)),
    (name, rs) ∈ results -> rs_ids_usernames rs = Some nu ->
    exists result,
      rs_status rs = Some result /\ (NotifyUpdate result ∈ t) /\
      qr_ids_data result <> [] /\
      nu = new_usernames_of (qr_ids_data result).

(** ** Reading the reports *)

(** An operation on a file. *)
Definition file_event (ev : Event) : Prop :=
  match ev with
  | MakeDirs _ | OpenFile _ | WriteFile _ _ | WriteRow _ _ | CloseFile _ => True
  | _ => False
  end.

(** The texts handed to [file.write] for a file, in order. *)
Definition written (file : string) (t : list Event) : list string :=
  omap (fun ev =>
          match ev with
          | WriteFile path text => if String.eqb path file then Some text else None
          | _ => None
          end) t.

(** The user URLs of the entries whose verdict is [CLAIMED], in the order
    of the results. *)
Definition claimed_urls (results : list (string * ResultsSite)) : list string :=
  omap (fun entry =>
          match rs_status entry.2 with
          | Some result => if is_claimed result then rs_url_user entry.2 else None
          | None => None
          end)
       results.

(** The texts of a text report: one line for each URL, then the total. *)
Definition report_lines (urls : list string) : list string :=
  ((fun url => url +:+ newline) <$> urls) ++
  ["Total Websites Username Detected On : " +:+ decimal (length urls)].

(** An exception that an operation on a file raises in some state of the
    file system. *)
Definition raised_by_file `{Externals} (file : string) (e : PyExn) : Prop :=
  exists w,
    (open_file w file).2 = Some e \/
    (exists text, (write_file w file text).2 = Some e) \/
    (close_file w file).2 = Some e.

(** ** More sites for the concrete world *)

Module Sample.

(** A site that only allows identifiers with an [a], and sends its own
    headers to a separate probe URL. *)
Definition strict : NetInfo :=
  mkNetInfo None None (Some "https://strict.example")
            (Some [("User-Agent", "curl/8"); ("Accept", "text/html")])
            "https://strict.example/u/{}" (Some "a")
            (Some "https://api.strict.example/{}") "status_code" None None None
            None.

(** A site detected by redirect. *)
Definition redirecting : NetInfo :=
  Demo.site None None "https://redir.example/{}" "response_url" None None.

(** A site detected by message that has no error message. *)
Definition silent : NetInfo :=
  Demo.site None None "https://silent.example/{}" "message" None None.

(** A site detected by message, with two error messages. *)
Definition wordy : NetInfo :=
  Demo.site None None "https://wordy.example/missing/{}" "message" None
            (Some (MsgList ["No such user"; "Not Found"])).

Definition catalog : list (string * NetInfo) :=
  [("Strict", strict); ("Redirecting", redirecting); ("Gaia",
    Demo.site (Some "gaia_id") None "https://gaia.example/{}" "status_code"
              None None);
   ("Wordy", wordy)].

Definition tor_args : Args :=
  mkArgs true true None (Some 30%N) false [] None None false None.


End Sample.

(** * Properties *)

(** ** A program logic for the monad: what is emitted, what is returned *)

Section Logic.
Context `{Ext : Externals}.

Lemma triple_ret {A} (a : A) (P : Event -> Prop) (Q : A -> Prop) :
  Q a -> triple (ret a) P Q.
Proof. intros HQ w. split; [constructor | exact HQ]. Qed.

Lemma triple_raise {A} (e : PyExn) (P : Event -> Prop) (Q : A -> Prop) :
  triple (raise e) P Q.
Proof. intros w. split; [constructor | exact I]. Qed.

Lemma triple_lift {A} (r : PyExn + A) (P : Event -> Prop) (Q : A -> Prop) :
  (forall a, r = inr a -> Q a) -> triple (lift r) P Q.
Proof.
  intros HQ w. split; [constructor |].
  unfold lift, run_result; simpl. destruct r; auto.
Qed.

Lemma triple_emit (ev : Event) (P : Event -> Prop) (Q : unit -> Prop) :
  P ev -> Q tt -> triple (emit ev) P Q.
Proof. intros HP HQ w. split; [repeat constructor; exact HP | exact HQ]. Qed.

Lemma triple_submit site rq (P : Event -> Prop) (Q : Future -> Prop) :
  P (HttpRequest site rq) -> (forall f, Q f) -> triple (submit site rq) P Q.
Proof.
  intros HP HQ w. unfold submit, run_trace, run_result.
  destruct (send w rq) as [w' f]; simpl.
  split; [repeat constructor; exact HP | apply HQ].
Qed.

Lemma triple_bind {A B} (c : M A) (f : A -> M B) P (Q : A -> Prop) (R : B -> Prop) :
  triple c P Q -> (forall a, Q a -> triple (f a) P R) -> triple (bind c f) P R.
Proof.
  intros Hc Hf w. specialize (Hc w). unfold bind, run_trace, run_result in *.
  destruct (c w) as [[w1 t1] [e|a]]; simpl in *.
  - split; [tauto | exact I].
  - destruct Hc as [Ht HQ]. specialize (Hf a HQ w1).
    destruct (f a w1) as [[w2 t2] r]; simpl in *.
    split; [apply Forall_app; tauto | tauto].
Qed.

Lemma triple_weaken {A} (c : M A) (P P' : Event -> Prop) (Q Q' : A -> Prop) :
  triple c P Q -> (forall ev, P ev -> P' ev) -> (forall a, Q a -> Q' a) ->
  triple c P' Q'.
Proof.
  intros Hc HP HQ w. destruct (Hc w) as [Ht Hr]. split.
  - eapply Forall_impl; eauto.
  - destruct (run_result (c w)); auto.
Qed.

End Logic.

(** ** Dictionaries *)

Section DictFacts.
Context {V : Type}.
Implicit Types (d : list (string * V)) (k : string) (v : V).

Lemma dict_get_set_eq d k v : dict_get (dict_set d k v) k = Some v.
Proof.
  induction d as [|[k' v'] d IH]; simpl.
  - by rewrite String.eqb_refl.
  - destruct (String.eqb_spec k' k) as [->|Hne]; simpl.
    + by rewrite String.eqb_refl.
    + destruct (String.eqb_spec k' k); [done | exact IH].
Qed.

Lemma dict_get_set_ne d k k' v :
  k <> k' -> dict_get (dict_set d k v) k' = dict_get d k'.
Proof.
  intros Hne. induction d as [|[k0 v0] d IH]; simpl.
  - destruct (String.eqb_spec k k'); [done | reflexivity].
  - destruct (String.eqb_spec k0 k) as [->|Hk]; simpl.
    + destruct (String.eqb_spec k k'); [done | reflexivity].
    + destruct (String.eqb_spec k0 k'); [reflexivity | exact IH].
Qed.

Lemma dict_get_Some_elem d k v : dict_get d k = Some v -> (k, v) ∈ d.
Proof.
  induction d as [|[k' v'] d IH]; simpl; [done |].
  destruct (String.eqb_spec k' k) as [->|Hne].
  - intros [= ->]. apply list_elem_of_here.
  - intros H. apply list_elem_of_further, IH, H.
Qed.

Lemma dict_get_None d k : dict_get d k = None <-> k ∉ d.*1.
Proof.
  induction d as [|[k' v'] d IH]; simpl.
  - split; [intros _; apply not_elem_of_nil | done].
  - rewrite not_elem_of_cons. destruct (String.eqb_spec k' k) as [->|Hne].
    + split; [done | intros [? _]; done].
    + rewrite IH. split; [intros H; split; [congruence | done] | tauto].
Qed.

Lemma dict_set_keys d k v :
  forall k', k' ∈ (dict_set d k v).*1 <-> k' = k \/ k' ∈ d.*1.
Proof.
  intros k'. induction d as [|[k0 v0] d IH]; simpl.
  - rewrite list_elem_of_singleton. split; [auto | intros [|H]; [done|]].
    by apply elem_of_nil in H.
  - destruct (String.eqb_spec k0 k) as [->|Hne]; simpl;
      rewrite !elem_of_cons; [tauto | rewrite IH; tauto].
Qed.

End DictFacts.

(** ** The two loops of a round, site by site *)

Section Rounds.
Context `{Ext : Externals}.

Lemma classify_fields username social_network url net_info r error_text
    extracted response_time result :
  classify username social_network url net_info r error_text extracted
           response_time = inr result ->
  qr_username result = username /\ qr_site_name result = social_network /\
  qr_ids_data result = extracted.
Proof.
  unfold classify. intros H.
  repeat match type of H with
         | match ?x with _ => _ end = _ => destruct x
         | (if ?b then _ else _) = _ => destruct b
         end;
    try discriminate; injection H as <-; auto.
Qed.

(** One iteration of the first loop leaves a skipped site alone; for a site
    that is not skipped it only emits events of that site and only writes
    that site's entry. *)
Lemma dispatch_site_spec username id_type args name net_info results_total :
  triple (dispatch_site username id_type args name net_info results_total)
    (fun ev => of_site name ev /\ skipped net_info id_type (tags args) = false)
    (fun out =>
       (skipped net_info id_type (tags args) = true /\ out.2 = results_total) \/
       (skipped net_info id_type (tags args) = false /\
        exists rs, out.2 = dict_set results_total name rs)).
Proof.
  unfold dispatch_site, skipped.
  destruct (kind_differs net_info id_type); simpl.
  { apply triple_ret. left. auto. }
  destruct (tags_exclude net_info (tags args)); simpl.
  { apply triple_ret. left. auto. }
  eapply triple_bind with (Q := fun _ => True).
  { unfold format_or_raise. destruct (format _ _);
      [by apply triple_ret | apply triple_raise]. }
  intros url _. destruct (regex_rejects net_info username).
  - eapply triple_bind with (Q := fun _ => True).
    + apply triple_emit; simpl; auto.
    + intros _ _. apply triple_ret. right. eauto.
  - eapply triple_bind with (Q := fun _ => True).
    { destruct (ni_urlProbe net_info); [| by apply triple_ret].
      unfold format_or_raise. destruct (format _ _);
        [by apply triple_ret | apply triple_raise]. }
    intros url_probe _.
    eapply triple_bind with (Q := fun _ => True).
    { apply triple_submit; simpl; auto. }
    intros future _.
    eapply triple_bind with (Q := fun _ => True).
    { destruct (unique_tor args);
        [apply triple_emit; simpl; auto | by apply triple_ret]. }
    intros _ _. apply triple_ret. right. eauto.
Qed.

(** One iteration of the second loop does nothing for a site without an
    entry; otherwise it only emits a verdict on that site and only writes
    that site's entry. *)
Lemma collect_site_spec username args name net_info results_total :
  triple (collect_site username args name net_info results_total)
    (fun ev => verdict_on name ev /\ name ∈ results_total.*1)
    (fun out =>
       out = results_total \/
       (name ∈ results_total.*1 /\ exists rs, out = dict_set results_total name rs)).
Proof.
  unfold collect_site.
  destruct (dict_get results_total name) as [rs|] eqn:Hget;
    [| apply triple_ret; auto].
  assert (Hin : name ∈ results_total.*1).
  { destruct (decide (name ∈ results_total.*1)) as [|Hn]; [done |].
    apply dict_get_None in Hn. congruence. }
  destruct (rs_status rs); [apply triple_ret; auto |].
  destruct (ni_request_future net_info) as [future|]; [| apply triple_raise].
  destruct (get_response future) as [[r error_text] expection_text].
  eapply triple_bind with (Q := fun _ => True).
  { by apply triple_lift. }
  intros error_text' _.
  eapply triple_bind
    with (Q := fun result => qr_site_name result = name).
  { apply triple_lift. intros result Hc.
    apply classify_fields in Hc. tauto. }
  intros result Hname.
  eapply triple_bind with (Q := fun _ => True).
  { apply triple_emit; simpl; auto. }
  intros _ _. apply triple_ret. right. eauto.
Qed.

End Rounds.

(** ** Skipped descriptors (the applicability filter) *)

Section Applicability.
Context `{Ext : Externals}.

Lemma dict_key_unique {V} (d : list (string * V)) k v1 v2 :
  NoDup d.*1 -> (k, v1) ∈ d -> (k, v2) ∈ d -> v1 = v2.
Proof.
  induction d as [|[k' v'] d IH]; simpl; intros Hnd H1 H2.
  - by apply elem_of_nil in H1.
  - apply NoDup_cons in Hnd as [Hk Hnd].
    apply elem_of_cons in H1 as [H1|H1], H2 as [H2|H2]; simplify_eq; auto.
    + exfalso. apply Hk. apply list_elem_of_fmap. by exists (k', v2).
    + exfalso. apply Hk. apply list_elem_of_fmap. by exists (k', v1).
Qed.

Lemma verdict_on_of_site name ev : verdict_on name ev -> of_site name ev.
Proof. by destruct ev. Qed.

Lemma of_site_inner name ev : of_site name ev -> inner ev.
Proof. by destruct ev. Qed.

Lemma of_site_not_about name n ev : of_site name ev -> name <> n -> ~ about n ev.
Proof. destruct ev; simpl; congruence || tauto. Qed.

Lemma tags_intersect_spec (tags site_tags : list string) :
  tags_intersect tags site_tags = true <->
  exists t, t ∈ tags /\ t ∈ site_tags.
Proof.
  unfold tags_intersect. rewrite existsb_exists. split.
  - intros (t & Ht & Hs). apply existsb_exists in Hs as (t' & Ht' & Heq).
    apply String.eqb_eq in Heq as <-. exists t.
    by rewrite <- !list_elem_of_In in *.
  - intros (t & Ht & Hs). exists t. rewrite existsb_exists.
    rewrite <- list_elem_of_In. split; [done |].
    exists t. rewrite <- list_elem_of_In, String.eqb_refl. done.
Qed.

(** [skipped] is the condition of the two [continue] statements: the kind
    of the site is not the requested one, or a tag filter is set and shares
    no tag with the site. *)
Lemma skipped_spec net_info id_type (tags : list string) :
  skipped net_info id_type tags = true <->
  default "username" (ni_type net_info) <> id_type \/
  (tags <> [] /\
   forall t, t ∈ tags -> t ∉ default [] (ni_tags net_info)).
Proof.
  unfold skipped, kind_differs, tags_exclude.
  rewrite orb_true_iff, andb_true_iff, !negb_true_iff.
  rewrite <- not_true_iff_false, String.eqb_eq.
  rewrite <- (not_true_iff_false (tags_intersect _ _)), tags_intersect_spec.
  destruct tags as [|t0 tags']; simpl.
  - split; [intros [|[? _]]; [auto | done] | intros [|[? _]]; [auto | done]].
  - split.
    + intros [|[_ Hno]]; [auto |]. right. split; [done |].
      intros t Ht Hs. apply Hno. eauto.
    + intros [|[_ Hno]]; [auto |]. right. split; [done |].
      intros (t & Ht & Hs). by apply (Hno t).
Qed.

Section Absent.
Variables (username id_type : string) (args : Args) (n : string).

Lemma dispatch_all_absent site_data results_total :
  (forall net_info, (n, net_info) ∈ site_data ->
                    skipped net_info id_type (tags args) = true) ->
  n ∉ results_total.*1 ->
  triple (dispatch_all username id_type args site_data results_total)
    (fun ev => inner ev /\ ~ about n ev)
    (fun out => n ∉ out.2.*1).
Proof.
  revert results_total.
  induction site_data as [|[name net_info] rest IH];
    intros results_total Hskip Hfresh; simpl.
  { by apply triple_ret. }
  eapply triple_bind with (Q := fun out => n ∉ out.2.*1).
  - eapply triple_weaken; [apply dispatch_site_spec | |].
    + intros ev [Hsite Hsk]. split; [by eapply of_site_inner |].
      eapply of_site_not_about; [done |]. intros ->.
      rewrite Hskip in Hsk; [done | apply list_elem_of_here].
    + intros out [[_ ->]|[Hsk (rs & ->)]]; [done |].
      rewrite dict_set_keys. intros [->|]; [| done].
      rewrite Hskip in Hsk; [done | apply list_elem_of_here].
  - intros [net_info' results_total'] Hfresh'. simpl in Hfresh'.
    eapply triple_bind with (Q := fun out => n ∉ out.2.*1).
    + apply IH; [| done]. intros ni Hni. apply Hskip.
      by apply list_elem_of_further.
    + intros [rest' results_total''] H. by apply triple_ret.
Qed.

Lemma collect_all_absent site_data results_total :
  n ∉ results_total.*1 ->
  triple (collect_all username args site_data results_total)
    (fun ev => inner ev /\ ~ about n ev)
    (fun out => n ∉ out.*1).
Proof.
  revert results_total.
  induction site_data as [|[name net_info] rest IH];
    intros results_total Hfresh; simpl.
  { by apply triple_ret. }
  eapply triple_bind with (Q := fun out => n ∉ out.*1).
  - eapply triple_weaken; [apply collect_site_spec | |].
    + intros ev [Hsite Hin]. apply verdict_on_of_site in Hsite.
      split; [by eapply of_site_inner |].
      eapply of_site_not_about; [done | congruence].
    + intros out [->|[Hin (rs & ->)]]; [done |].
      rewrite dict_set_keys. intros [->|]; done.
  - intros results_total' Hfresh'. by apply IH.
Qed.

Lemma sherlock_absent site_data :
  (forall net_info, (n, net_info) ∈ site_data ->
                    skipped net_info id_type (tags args) = true) ->
  triple (sherlock username site_data args id_type)
    (fun ev => ~ about n ev)
    (fun out => n ∉ out.2.*1).
Proof.
  intros Hskip. unfold sherlock.
  eapply triple_bind with (Q := fun _ => True).
  { apply triple_emit; simpl; auto. }
  intros _ _. eapply triple_bind with (Q := fun _ => True).
  { apply triple_emit; simpl; auto. }
  intros _ _. eapply triple_bind with (Q := fun out => n ∉ out.2.*1).
  { eapply triple_weaken;
      [apply dispatch_all_absent; [exact Hskip | apply not_elem_of_nil]
      | by intros ev [_ ?] | auto]. }
  intros [site_data' results_total] Hfresh. simpl in Hfresh.
  eapply triple_bind with (Q := fun out => n ∉ out.*1).
  { eapply triple_weaken;
      [by apply collect_all_absent | by intros ev [_ ?] | auto]. }
  intros results_total' Hfresh'.
  eapply triple_bind with (Q := fun _ => True).
  { apply triple_emit; simpl; auto. }
  intros _ _. by apply triple_ret.
Qed.

End Absent.

(** C7: a descriptor whose kind is not the requested one, or whose tags
    share nothing with a non-empty tag filter, is not probed and gets no
    verdict: the round submits no request for it, never notifies the sink
    about it, and the returned results hold no entry for it. *)
Theorem C7_skipped_descriptor_is_absent
    (username id_type : string) (args : Args)
    (site_data : list (string * NetInfo)) (name : string) (net_info : NetInfo)
    (w : World) :
  NoDup site_data.*1 ->
  (name, net_info) ∈ site_data ->
  default "username" (ni_type net_info) <> id_type \/
  (tags args <> [] /\
   forall t, t ∈ tags args -> t ∉ default [] (ni_tags net_info)) ->
  let run := sherlock username site_data args id_type w in
  Forall (fun ev => ~ about name ev) (run_trace run) /\
  (name ∉ (requests (run_trace run)).*1) /\
  (name ∉ (verdicts (run_trace run)).*1.*1.*2) /\
  forall site_data' results,
    run_result run = inr (site_data', results) -> dict_get results name = None.
Proof.
  intros Hnodup Hin Hcond run.
  assert (Hskip : forall ni, (name, ni) ∈ site_data ->
                             skipped ni id_type (tags args) = true).
  { intros ni Hni. apply skipped_spec.
    assert (ni = net_info) as ->; [| done].
    eapply dict_key_unique; eauto. }
  destruct (sherlock_absent username id_type args name site_data Hskip w)
    as [Htrace Hres]. fold run in Htrace, Hres.
  split; [exact Htrace |]. repeat split.
  - intros Hreq. apply list_elem_of_fmap in Hreq as ([s rq] & -> & Hreq).
    unfold requests in Hreq. apply list_elem_of_omap in Hreq as (ev & Hev & Hsome).
    rewrite Forall_forall in Htrace. apply (Htrace ev); [done|].
    destruct ev; simplify_eq. reflexivity.
  - intros Hv. apply list_elem_of_fmap in Hv as (x1 & -> & Hv).
    apply list_elem_of_fmap in Hv as (x2 & -> & Hv).
    apply list_elem_of_fmap in Hv as (x3 & -> & Hv).
    unfold verdicts in Hv. apply list_elem_of_omap in Hv as (ev & Hev & Hsome).
    rewrite Forall_forall in Htrace. apply (Htrace ev); [done|].
    destruct ev; simplify_eq. reflexivity.
  - intros site_data' results Hrun. rewrite Hrun in Hres. simpl in Hres.
    by apply dict_get_None.
Qed.

End Applicability.

(** ** The shape of a round *)

Section RoundShape.
Context `{Ext : Externals}.

Lemma inner_observations (t : list Event) :
  Forall inner t -> starts t = [] /\ finishes t = 0 /\ pool_sizes t = [].
Proof.
  unfold finishes.
  induction 1 as [|ev t Hev _ IH]; [done |].
  destruct ev; simpl in *; tauto.
Qed.

Lemma dispatch_all_inner username id_type args site_data results_total :
  triple (dispatch_all username id_type args site_data results_total)
    inner (fun _ => True).
Proof.
  revert results_total.
  induction site_data as [|[name net_info] rest IH]; intros results_total; simpl.
  { by apply triple_ret. }
  eapply triple_bind with (Q := fun _ => True).
  - eapply triple_weaken; [apply dispatch_site_spec | | done].
    intros ev [Hsite _]. by eapply of_site_inner.
  - intros [net_info' results_total'] _.
    eapply triple_bind with (Q := fun _ => True); [apply IH |].
    intros [rest' results_total''] _. by apply triple_ret.
Qed.

Lemma collect_all_inner username args site_data results_total :
  triple (collect_all username args site_data results_total)
    inner (fun _ => True).
Proof.
  revert results_total.
  induction site_data as [|[name net_info] rest IH]; intros results_total; simpl.
  { by apply triple_ret. }
  eapply triple_bind with (Q := fun _ => True); [| intros; apply IH].
  eapply triple_weaken; [apply collect_site_spec | | done].
  intros ev [Hsite _]. by eapply of_site_inner, verdict_on_of_site.
Qed.

(** A round starts, creates its session, emits events of the two loops,
    and reports completion exactly when it returns. *)
Lemma sherlock_trace username site_data args id_type w :
  exists t,
    Forall inner t /\
    run_trace (sherlock username site_data args id_type w) =
      NotifyStart username id_type :: NewSession (max_workers site_data) ::
      t ++ match run_result (sherlock username site_data args id_type w) with
           | inl _ => []
           | inr _ => [NotifyFinish]
           end.
Proof.
  unfold sherlock, bind, emit, ret, run_trace, run_result. simpl.
  pose proof (dispatch_all_inner username id_type args site_data [] w) as [Hd _].
  unfold run_trace in Hd.
  destruct (dispatch_all username id_type args site_data [] w)
    as [[w1 t1] [e|[site_data' results_total]]]; simpl in *.
  { exists t1. by rewrite app_nil_r. }
  pose proof (collect_all_inner username args site_data' results_total w1)
    as [Hc _].
  unfold run_trace in Hc.
  destruct (collect_all username args site_data' results_total w1)
    as [[w2 t2] [e|results_total']]; simpl in *.
  - exists (t1 ++ t2). rewrite app_nil_r. split; [by apply Forall_app | done].
  - exists (t1 ++ t2). split; [by apply Forall_app |].
    by rewrite <- !app_assoc.
Qed.

Lemma max_workers_min site_data : max_workers site_data = Nat.min 20 (length site_data).
Proof. unfold max_workers. destruct (Nat.leb_spec 20 (length site_data)); lia. Qed.

(** C4, as amended: the session of a round is created with a pool of
    min(20, number of entries of [site_data]) workers, whether or not the
    entries pass the kind and tag tests of the first loop. *)
Theorem C4_pool_size_is_min_20_catalog_size
    (username id_type : string) (args : Args)
    (site_data : list (string * NetInfo)) (w : World) :
  pool_sizes (run_trace (sherlock username site_data args id_type w)) =
    [Nat.min 20 (length site_data)].
Proof.
  destruct (sherlock_trace username site_data args id_type w)
    as (t & Ht & ->).
  unfold pool_sizes. simpl. rewrite omap_app.
  apply inner_observations in Ht as (_ & _ & Hp). unfold pool_sizes in Hp.
  rewrite Hp, max_workers_min.
  by destruct (run_result _).
Qed.

End RoundShape.

(** C4, as stated, fails: of the three sites of the catalog two pass the
    filter for a username (no tag filter), and the pool has three
    workers. *)
Lemma C4_pool_counts_skipped_sites :
  applicable_count Demo.catalog "username" (tags Demo.no_args) = 2 /\
  pool_sizes (run_trace (sherlock "alice" Demo.catalog Demo.no_args "username" Demo.w0))
    = [3] /\
  [3] <> [Nat.min 20 (applicable_count Demo.catalog "username" (tags Demo.no_args))].
Proof. vm_compute. split; [reflexivity | split; [reflexivity | discriminate]]. Qed.

(** The witness of C7: the site for Gaia identifiers in a round for a
    username. *)
Lemma C7_skipped_descriptor_is_absent_witness :
  NoDup Demo.catalog.*1 /\
  ("Gaia", Demo.site (Some "gaia_id") None "https://gaia.example/{}"
             "status_code" None None) ∈ Demo.catalog /\
  let run := sherlock "alice" Demo.catalog Demo.no_args "username" Demo.w0 in
  Forall (fun ev => ~ about "Gaia" ev) (run_trace run) /\
  ("Gaia" ∉ (requests (run_trace run)).*1) /\
  ("Gaia" ∉ (verdicts (run_trace run)).*1.*1.*2) /\
  forall site_data' results,
    run_result run = inr (site_data', results) -> dict_get results "Gaia" = None.
Proof.
  assert (Hnd : NoDup Demo.catalog.*1).
  { apply (bool_decide_unpack (NoDup Demo.catalog.*1)). vm_compute. exact I. }
  assert (Hin : ("Gaia", Demo.site (Some "gaia_id") None
                           "https://gaia.example/{}" "status_code" None None)
                ∈ Demo.catalog).
  { apply list_elem_of_further, list_elem_of_here. }
  split; [exact Hnd |]. split; [exact Hin |].
  apply (C7_skipped_descriptor_is_absent "alice" "username" Demo.no_args
           Demo.catalog "Gaia" _ Demo.w0 Hnd Hin).
  left. simpl. discriminate.
Defined.

(** ** The classifier *)

Section Classifier.
Context `{Ext : Externals}.

Lemma get_response_throws e msg :
  exists ctx, ctx ∈ transport_contexts /\
              get_response (Throws e msg) = (None, Some ctx, Some msg).
Proof.
  unfold transport_contexts.
  destruct e; simpl; eexists; (split; [| reflexivity]); set_solver.
Qed.

Lemma detect_failure_delivered_no_match failure_errors resp error_text :
  Forall (fun kc => str_in kc.1 (text resp) = false) failure_errors ->
  detect_failure failure_errors (Some resp) error_text = inr error_text.
Proof.
  induction 1 as [|[k c] rest Hk _ IH]; simpl in *; [done |].
  by rewrite Hk.
Qed.

Lemma detect_failure_delivered_match pre k c post resp error_text :
  Forall (fun kc => str_in kc.1 (text resp) = false) pre ->
  str_in k (text resp) = true ->
  detect_failure (pre ++ (k, c) :: post) (Some resp) error_text = inr (Some c).
Proof.
  intros Hpre Hk.
  induction Hpre as [|[k0 c0] pre Hk0 _ IH]; simpl in *.
  - by rewrite Hk.
  - by rewrite Hk0.
Qed.

(** The first annotation found in a body, when there is one. *)
Lemma first_annotation (failure_errors : list (string * string)) (body : string) :
  (exists k c, (k, c) ∈ failure_errors /\ str_in k body = true) ->
  exists pre k c post,
    failure_errors = pre ++ (k, c) :: post /\
    Forall (fun kc => str_in kc.1 body = false) pre /\
    str_in k body = true.
Proof.
  induction failure_errors as [|[k0 c0] rest IH]; intros (k & c & Hin & Hk).
  - by apply elem_of_nil in Hin.
  - destruct (str_in k0 body) eqn:Hk0.
    + exists [], k0, c0, rest. auto.
    + apply elem_of_cons in Hin as [Heq|Hin]; [simplify_eq; congruence |].
      destruct IH as (pre & k' & c' & post & -> & Hpre & Hk'); [eauto |].
      exists ((k0, c0) :: pre), k', c', post. repeat split; auto.
Qed.

(** What the status-code branch does: below 300 is claimed. *)
Lemma classify_status_code username name url net_info resp extracted time :
  ni_errorType net_info = "status_code" ->
  classify username name url net_info (Some resp) None extracted time =
    inr (mkQueryResult username name url
           (if Z.ltb (status_code resp) 300 then CLAIMED else AVAILABLE)
           extracted time None).
Proof.
  intros Hty. unfold classify. rewrite Hty. simpl.
  rewrite Z.geb_leb.
  destruct (Z.leb_spec 300 (status_code resp)), (Z.ltb_spec (status_code resp) 300),
    (Z.ltb_spec (status_code resp) 200); simpl; try reflexivity; lia.
Qed.

(** The sibling branch for [response_url] tests both bounds. *)
Lemma classify_response_url username name url net_info resp extracted time :
  ni_errorType net_info = "response_url" ->
  classify username name url net_info (Some resp) None extracted time =
    inr (mkQueryResult username name url
           (if Z.leb 200 (status_code resp) && Z.ltb (status_code resp) 300
            then CLAIMED else AVAILABLE)
           extracted time None).
Proof.
  intros Hty. unfold classify. rewrite Hty. simpl.
  by destruct (_ && _).
Qed.

Lemma classify_unknown_strategy username name url net_info r extracted time :
  ni_errorType net_info <> "message" ->
  ni_errorType net_info <> "status_code" ->
  ni_errorType net_info <> "response_url" ->
  classify username name url net_info r None extracted time =
    inl (ValueError ("Unknown Error Type '" +:+ ni_errorType net_info +:+
                     "' for site '" +:+ name +:+ "'")).
Proof.
  intros H1 H2 H3. unfold classify.
  apply String.eqb_neq in H1, H2, H3. by rewrite H1, H2, H3.
Qed.

(** A transport failure on a site without failure annotations: one verdict,
    unknown, with the description of the failure. *)
Lemma collect_site_transport_failure username args name net_info results_total
    rs e msg w :
  dict_get results_total name = Some rs -> rs_status rs = None ->
  ni_request_future net_info = Some (Throws e msg) ->
  default [] (ni_errors net_info) = [] ->
  exists ctx result,
    ctx ∈ transport_contexts /\
    result = mkQueryResult username name (rs_url_user rs) UNKNOWN [] None (Some ctx) /\
    collect_site username args name net_info results_total w =
      (w, [NotifyUpdate result],
       inr (dict_set results_total name
              (mkResultsSite (rs_url_main rs) (rs_url_user rs) (Some result)
                             (Some HttpQuestionMark) (rs_ids_usernames rs)))).
Proof.
  intros Hget Hst Hfut Herr.
  destruct (get_response_throws e msg) as (ctx & Hctx & Hresp).
  exists ctx, (mkQueryResult username name (rs_url_user rs) UNKNOWN [] None (Some ctx)).
  split; [done |]. split; [done |].
  unfold collect_site. rewrite Hget, Hst, Hfut, Hresp, Herr.
  unfold extracted_ids. simpl. rewrite andb_false_r. reflexivity.
Qed.

(** The same failure on a site that declares failure annotations: the scan
    of the annotations reads [r.text] on [None]. *)
Lemma collect_site_transport_failure_annotated username args name net_info
    results_total rs e msg kc rest w :
  dict_get results_total name = Some rs -> rs_status rs = None ->
  ni_request_future net_info = Some (Throws e msg) ->
  ni_errors net_info = Some (kc :: rest) ->
  collect_site username args name net_info results_total w =
    (w, [], inl (AttributeError "'NoneType' object has no attribute 'text'")).
Proof.
  intros Hget Hst Hfut Herr.
  destruct (get_response_throws e msg) as (ctx & Hctx & Hresp).
  unfold collect_site. rewrite Hget, Hst, Hfut, Hresp, Herr. simpl.
  by destruct kc.
Qed.

(** C6: when the body of a delivered response holds a key of the failure
    annotations, the verdict is unknown and its context is the text of the
    first annotation (in the order of the dictionary) whose key is in the
    body, whatever the detection strategy and the error messages are. *)
Theorem C6_failure_annotation_gives_unknown
    (username : string) (args : Args) (name : string) (net_info : NetInfo)
    (results_total : list (string * ResultsSite)) (rs : ResultsSite)
    (resp : Response) (w : World) :
  dict_get results_total name = Some rs -> rs_status rs = None ->
  ni_request_future net_info = Some (Returns resp) ->
  (exists k c, (k, c) ∈ default [] (ni_errors net_info) /\
               str_in k (text resp) = true) ->
  exists pre k c post result,
    default [] (ni_errors net_info) = pre ++ (k, c) :: post /\
    Forall (fun kc => str_in kc.1 (text resp) = false) pre /\
    str_in k (text resp) = true /\
    result = mkQueryResult username name (rs_url_user rs) UNKNOWN
               (extracted_ids (ids_search args) (Some resp))
               (Some (elapsed resp)) (Some c) /\
    run_trace (collect_site username args name net_info results_total w)
      = [NotifyUpdate result] /\
    exists rs',
      run_result (collect_site username args name net_info results_total w)
        = inr (dict_set results_total name rs') /\
      rs_status rs' = Some result.
Proof.
  intros Hget Hst Hfut Hex.
  destruct (first_annotation _ _ Hex) as (pre & k & c & post & Herr & Hpre & Hk).
  exists pre, k, c, post. eexists. split; [exact Herr |].
  split; [exact Hpre |]. split; [exact Hk |]. split; [reflexivity |].
  unfold collect_site. rewrite Hget, Hst, Hfut, Herr. simpl.
  unfold bind, lift, emit, ret, run_trace, run_result.
  rewrite (detect_failure_delivered_match pre k c post resp _ Hpre Hk). simpl.
  split; [reflexivity |]. eexists. split; reflexivity.
Qed.

End Classifier.

(** The witness of C6: a site detected by message, whose page holds both
    the annotation of a country ban and the error message of the site. *)
Lemma C6_failure_annotation_gives_unknown_witness :
  let results_total := [("Bbs", Demo.pending "https://bbs.example/banned/alice")] in
  dict_get results_total "Bbs" = Some (Demo.pending "https://bbs.example/banned/alice") /\
  ni_request_future Demo.bbs = Some (Returns Demo.banned_body) /\
  (exists k c, (k, c) ∈ default [] (ni_errors Demo.bbs) /\
               str_in k (text Demo.banned_body) = true) /\
  exists pre k c post result,
    default [] (ni_errors Demo.bbs) = pre ++ (k, c) :: post /\
    Forall (fun kc => str_in kc.1 (text Demo.banned_body) = false) pre /\
    str_in k (text Demo.banned_body) = true /\
    result = mkQueryResult "alice" "Bbs" (Some "https://bbs.example/banned/alice")
               UNKNOWN
               (extracted_ids (ids_search Demo.no_args) (Some Demo.banned_body))
               (Some (elapsed Demo.banned_body)) (Some c) /\
    run_trace (collect_site "alice" Demo.no_args "Bbs" Demo.bbs results_total Demo.w0)
      = [NotifyUpdate result] /\
    exists rs',
      run_result (collect_site "alice" Demo.no_args "Bbs" Demo.bbs results_total Demo.w0)
        = inr (dict_set results_total "Bbs" rs') /\
      rs_status rs' = Some result.
Proof.
  intros results_total.
  assert (Hex : exists k c, (k, c) ∈ default [] (ni_errors Demo.bbs) /\
                            str_in k (text Demo.banned_body) = true).
  { exists "Access denied", "Country ban". split; [| reflexivity].
    simpl. apply list_elem_of_further, list_elem_of_here. }
  split; [reflexivity |]. split; [reflexivity |]. split; [exact Hex |].
  apply (C6_failure_annotation_gives_unknown "alice" Demo.no_args "Bbs" Demo.bbs
           results_total (Demo.pending "https://bbs.example/banned/alice")
           Demo.banned_body Demo.w0);
    [reflexivity | reflexivity | reflexivity | exact Hex].
Defined.

(** C1, the status-code strategy on a status below 200: the site answers
    101 and the verdict is CLAIMED, where the claim has AVAILABLE.  The test
    [not r.status_code >= 300 or r.status_code < 200] accepts every status
    below 300 ([classify_status_code]); the comment above it and the
    branch for [response_url] ([classify_response_url]) have the range
    200..299. *)
Theorem C1_status_below_200_is_claimed :
  let run := sherlock "alice" Demo.switch_catalog Demo.no_args "username" Demo.w0 in
  Demo.server Demo.server_table "https://sw.example/switching/alice"
    = Returns (mkResponse 101 "" 3) /\
  rq_url <$> (requests (run_trace run)).*2
    = ["https://sw.example/switching/alice"] /\
  verdicts (run_trace run) = [("alice", "Switch", CLAIMED, None)].
Proof. vm_compute. repeat split; reflexivity. Qed.

(** C2, a timeout on a site that declares a failure annotation: the scan of
    the annotations reads [r.text] while [r] is [None]; the
    [AttributeError] leaves [sherlock] and [main], no verdict reaches the
    sink and the round is never finished.  The same site without the
    annotation gets its UNKNOWN verdict. *)
Theorem C2_timeout_on_annotated_site_aborts :
  let run := main 3 ["alice"] Demo.slow_annotated_catalog Demo.no_args Demo.w0 in
  let run' := main 3 ["alice"] Demo.slow_catalog Demo.no_args Demo.w0 in
  Demo.server Demo.server_table "https://slow.example/timeout/alice"
    = Throws ReadTimeout "read timed out" /\
  run_result run
    = inl (AttributeError "'NoneType' object has no attribute 'text'") /\
  verdicts (run_trace run) = [] /\
  finishes (run_trace run) = 0 /\
  run_result run' = inr Finished /\
  verdicts (run_trace run') = [("alice", "Slow", UNKNOWN, Some "Timeout Error")].
Proof. vm_compute. repeat split; reflexivity. Qed.

(** C3, as stated, fails: the site with the unknown strategy stops the
    round and the run.  The forum, collected before it, has its verdict;
    the blog, after it, was probed but gets none; the round is not
    finished and bob, still in the queue, is never searched. *)
Lemma C3_unknown_strategy_aborts_the_run_at_odd :
  let run := main 5 ["alice"; "bob"] Demo.odd_catalog Demo.no_args Demo.w0 in
  run_result run = inl (ValueError "Unknown Error Type 'regex' for site 'Odd'") /\
  (requests (run_trace run)).*1 = ["Forum"; "Odd"; "Blog"] /\
  verdicts (run_trace run) = [("alice", "Forum", CLAIMED, None)] /\
  finishes (run_trace run) = 0 /\
  starts (run_trace run) = ["alice"].
Proof. vm_compute. repeat split; reflexivity. Qed.

Section ConfigurationError.
Context `{Ext : Externals}.

Lemma collect_all_app username args pre rest results_total w w2 t2 results_total' :
  collect_all username args pre results_total w = (w2, t2, inr results_total') ->
  collect_all username args (pre ++ rest) results_total w =
    match collect_all username args rest results_total' w2 with
    | (w3, t3, r) => (w3, t2 ++ t3, r)
    end.
Proof.
  revert results_total w t2.
  induction pre as [|[name net_info] pre IH]; intros results_total w t2; simpl.
  - unfold ret. intros [= -> <- ->].
    by destruct (collect_all _ _ rest _ _) as [[? ?] ?].
  - unfold bind.
    destruct (collect_site _ _ _ _ _ _) as [[w1 t1] [e|rt1]]; [done |].
    destruct (collect_all username args pre rt1 w1) as [[w2' t2'] r] eqn:Hpre.
    intros [= -> <- ->]. rewrite (IH _ _ _ Hpre).
    destruct (collect_all _ _ rest _ _) as [[w3 t3] r3].
    by rewrite app_assoc.
Qed.

Lemma collect_site_unknown_strategy username args name net_info results_total
    rs resp w :
  dict_get results_total name = Some rs -> rs_status rs = None ->
  ni_request_future net_info = Some (Returns resp) ->
  status_code resp <> 0%Z ->
  Forall (fun kc => str_in kc.1 (text resp) = false)
         (default [] (ni_errors net_info)) ->
  ni_errorType net_info <> "message" ->
  ni_errorType net_info <> "status_code" ->
  ni_errorType net_info <> "response_url" ->
  collect_site username args name net_info results_total w =
    (w, [],
     inl (ValueError ("Unknown Error Type '" +:+ ni_errorType net_info +:+
                      "' for site '" +:+ name +:+ "'"))).
Proof.
  intros Hget Hst Hfut Hsc Hann H1 H2 H3.
  unfold collect_site. rewrite Hget, Hst, Hfut. simpl.
  apply Z.eqb_neq in Hsc. rewrite Hsc.
  unfold bind, lift.
  rewrite (detect_failure_delivered_no_match _ _ _ Hann).
  by rewrite classify_unknown_strategy.
Qed.

(** C3, as amended: the [ValueError] raised for a descriptor with an unknown
    detection strategy is not caught.  The round stops at that descriptor
    and the run ends with the error: the sink has received what the first
    loop emitted and the verdicts of the descriptors collected before it,
    and nothing after that (no verdict for the descriptor or for those
    behind it, no completion, no round for the identifiers still queued). *)
Theorem C3_unknown_strategy_aborts_the_run
    (fuel : nat) (username id_type : string) (queue : list (string * string))
    (already_checked : gset string) (site_data : list (string * NetInfo))
    (args : Args) (w : World)
    (pre post : list (string * NetInfo)) (name : string) (net_info : NetInfo)
    (results_total results_total' : list (string * ResultsSite))
    (rs : ResultsSite) (resp : Response) :
  let dispatched := dispatch_all username id_type args site_data [] w in
  let collected := collect_all username args pre results_total dispatched.1.1 in
  lower username ∉ already_checked ->
  run_result dispatched = inr (pre ++ (name, net_info) :: post, results_total) ->
  run_result collected = inr results_total' ->
  dict_get results_total' name = Some rs -> rs_status rs = None ->
  ni_request_future net_info = Some (Returns resp) ->
  status_code resp <> 0%Z ->
  Forall (fun kc => str_in kc.1 (text resp) = false)
         (default [] (ni_errors net_info)) ->
  ni_errorType net_info <> "message" ->
  ni_errorType net_info <> "status_code" ->
  ni_errorType net_info <> "response_url" ->
  main_loop (S fuel) ((username, id_type) :: queue) already_checked site_data
            args w =
    (collected.1.1,
     NotifyStart username id_type :: NewSession (max_workers site_data) ::
       run_trace dispatched ++ run_trace collected,
     inl (ValueError ("Unknown Error Type '" +:+ ni_errorType net_info +:+
                      "' for site '" +:+ name +:+ "'"))).
Proof.
  intros dispatched collected Hnew Hd Hc Hget Hst Hfut Hsc Hann H1 H2 H3.
  simpl. rewrite bool_decide_eq_false_2 by done.
  unfold sherlock, bind, emit. simpl.
  subst collected. subst dispatched. unfold run_result, run_trace in *.
  destruct (dispatch_all username id_type args site_data [] w)
    as [[w1 t1] r1]; simpl in *. subst r1.
  destruct (collect_all username args pre results_total w1)
    as [[w2 t2] r2] eqn:Hpre; simpl in *. subst r2.
  rewrite (collect_all_app _ _ _ _ _ _ _ _ _ Hpre). simpl. unfold bind.
  rewrite (collect_site_unknown_strategy _ _ _ _ _ _ _ _ Hget Hst Hfut Hsc Hann
             H1 H2 H3).
  by rewrite app_nil_r.
Qed.

End ConfigurationError.

(** The witness of C3: the round for alice on the catalog with the odd site
    between the forum and the blog. *)
Lemma C3_unknown_strategy_aborts_the_run_witness :
  let dispatched := dispatch_all "alice" "username" Demo.no_args Demo.odd_catalog [] Demo.w0 in
  let pre := [("Forum", set_request_future Demo.forum (Returns Demo.welcome))] in
  let post := [("Blog", set_request_future Demo.blog (Returns Demo.not_found))] in
  let net_info := set_request_future Demo.odd (Returns Demo.welcome) in
  let collected := collect_all "alice" Demo.no_args pre Demo.odd_dispatched dispatched.1.1 in
  (lower "alice" ∉ (∅ : gset string)) /\
  run_result dispatched = inr (pre ++ ("Odd", net_info) :: post, Demo.odd_dispatched) /\
  run_result collected = inr Demo.odd_collected /\
  main_loop 1 [("alice", "username"); ("bob", "username")] ∅ Demo.odd_catalog
            Demo.no_args Demo.w0 =
    (collected.1.1,
     NotifyStart "alice" "username" :: NewSession (max_workers Demo.odd_catalog) ::
       run_trace dispatched ++ run_trace collected,
     inl (ValueError ("Unknown Error Type '" +:+ ni_errorType net_info +:+
                      "' for site '" +:+ "Odd" +:+ "'"))).
Proof.
  intros dispatched pre post net_info collected.
  split; [apply not_elem_of_empty |].
  split; [vm_compute; reflexivity |].
  split; [vm_compute; reflexivity |].
  apply (C3_unknown_strategy_aborts_the_run 0 "alice" "username"
           [("bob", "username")] ∅ Demo.odd_catalog Demo.no_args Demo.w0
           pre post "Odd" net_info Demo.odd_dispatched Demo.odd_collected
           (Demo.pending "https://odd.example/alice") Demo.welcome).
  - apply not_elem_of_empty.
  - vm_compute; reflexivity.
  - vm_compute; reflexivity.
  - reflexivity.
  - reflexivity.
  - reflexivity.
  - discriminate.
  - constructor.
  - discriminate.
  - discriminate.
  - discriminate.
Defined.

(** ** The request method *)

Section RequestMethod.
Context `{Ext : Externals}.

Lemma request_method_head net_info :
  ni_errorType net_info = "status_code" ->
  ni_request_head_only net_info = None ->
  request_method net_info = HEAD.
Proof. unfold request_method. by intros -> ->. Qed.

Lemma request_method_get net_info :
  ni_errorType net_info <> "status_code" \/
  ni_request_head_only net_info = Some false ->
  request_method net_info = GET.
Proof.
  unfold request_method. intros [Hty| ->].
  - apply String.eqb_neq in Hty. by rewrite Hty.
  - simpl. by rewrite andb_false_r.
Qed.

Lemma dispatch_site_method username id_type args name net_info results_total :
  triple (dispatch_site username id_type args name net_info results_total)
    (fun ev => forall s rq, ev = HttpRequest s rq ->
                            s = name /\ rq_method rq = request_method net_info)
    (fun _ => True).
Proof.
  unfold dispatch_site.
  destruct (kind_differs net_info id_type); [by apply triple_ret |].
  destruct (tags_exclude net_info (tags args)); [by apply triple_ret |].
  eapply triple_bind with (Q := fun _ => True).
  { unfold format_or_raise. destruct (format _ _);
      [by apply triple_ret | apply triple_raise]. }
  intros url _. destruct (regex_rejects net_info username).
  - eapply triple_bind with (Q := fun _ => True).
    + by apply triple_emit.
    + intros _ _. by apply triple_ret.
  - eapply triple_bind with (Q := fun _ => True).
    { destruct (ni_urlProbe net_info); [| by apply triple_ret].
      unfold format_or_raise. destruct (format _ _);
        [by apply triple_ret | apply triple_raise]. }
    intros url_probe _.
    eapply triple_bind with (Q := fun _ => True).
    { apply triple_submit; [| done]. by intros s rq [= <- <-]. }
    intros future _.
    eapply triple_bind with (Q := fun _ => True).
    { destruct (unique_tor args); [by apply triple_emit | by apply triple_ret]. }
    intros _ _. by apply triple_ret.
Qed.

Lemma dispatch_all_method username id_type args site_data results_total :
  triple (dispatch_all username id_type args site_data results_total)
    (method_rule site_data) (fun _ => True).
Proof.
  revert results_total.
  induction site_data as [|[name net_info] rest IH]; intros results_total; simpl.
  { by apply triple_ret. }
  eapply triple_bind with (Q := fun _ => True).
  - eapply triple_weaken; [apply dispatch_site_method | | done].
    intros ev Hev s rq ->. destruct (Hev _ _ eq_refl) as [-> Hm].
    exists net_info. split; [apply list_elem_of_here | done].
  - intros [net_info' results_total'] _.
    eapply triple_bind with (Q := fun _ => True).
    + eapply triple_weaken; [apply IH | | done].
      intros ev Hev s rq ->. destruct (Hev _ _ eq_refl) as (ni & Hin & Hm).
      exists ni. split; [by apply list_elem_of_further | done].
    + intros [rest' results_total''] _. by apply triple_ret.
Qed.

Lemma collect_all_method username args site_data results_total P :
  triple (collect_all username args site_data results_total)
    (fun ev => forall s rq, ev = HttpRequest s rq -> P s rq) (fun _ => True).
Proof.
  revert results_total.
  induction site_data as [|[name net_info] rest IH]; intros results_total; simpl.
  { by apply triple_ret. }
  eapply triple_bind with (Q := fun _ => True); [| intros; apply IH].
  eapply triple_weaken; [apply collect_site_spec | | done].
  intros ev [Hv _] s rq ->. destruct Hv.
Qed.

(** C9: every request of a round is for a site of the catalog and has the
    method that the site's entry fixes: HEAD when the detection strategy is
    [status_code] and [request_head_only] is absent, GET when the strategy
    is another one or [request_head_only] is false. *)
Theorem C9_head_for_status_code_get_otherwise
    (username id_type : string) (args : Args)
    (site_data : list (string * NetInfo)) (w : World)
    (name : string) (rq : Request) :
  (name, rq) ∈ requests (run_trace (sherlock username site_data args id_type w)) ->
  exists net_info,
    (name, net_info) ∈ site_data /\
    (ni_errorType net_info = "status_code" ->
     ni_request_head_only net_info = None -> rq_method rq = HEAD) /\
    (ni_errorType net_info <> "status_code" \/
     ni_request_head_only net_info = Some false -> rq_method rq = GET).
Proof.
  intros Hin.
  assert (Hrule : triple (sherlock username site_data args id_type)
                         (method_rule site_data) (fun _ => True)).
  { unfold sherlock.
    eapply triple_bind with (Q := fun _ => True);
      [by apply triple_emit | intros _ _].
    eapply triple_bind with (Q := fun _ => True);
      [by apply triple_emit | intros _ _].
    eapply triple_bind with (Q := fun _ => True);
      [apply dispatch_all_method | intros [site_data' results_total] _].
    eapply triple_bind with (Q := fun _ => True);
      [apply collect_all_method | intros results_total' _].
    eapply triple_bind with (Q := fun _ => True);
      [by apply triple_emit | intros _ _].
    by apply triple_ret. }
  destruct (Hrule w) as [Htrace _]. rewrite Forall_forall in Htrace.
  unfold requests in Hin. apply list_elem_of_omap in Hin as (ev & Hev & Hsome).
  destruct ev; simplify_eq.
  destruct (Htrace _ Hev _ _ eq_refl) as (net_info & Hni & Hm).
  exists net_info. split; [done |]. rewrite Hm. split.
  - apply request_method_head.
  - apply request_method_get.
Qed.

End RequestMethod.

(** The witness of C9: the request for the forum, detected by status code
    with no [request_head_only], in the round for alice. *)
Lemma C9_head_for_status_code_get_otherwise_witness :
  let rq := mkRequest HEAD "https://forum.example/alice" default_headers None
                      true None in
  ("Forum", rq) ∈ requests (run_trace (sherlock "alice" Demo.catalog Demo.no_args
                                         "username" Demo.w0)) /\
  exists net_info,
    ("Forum", net_info) ∈ Demo.catalog /\
    (ni_errorType net_info = "status_code" ->
     ni_request_head_only net_info = None -> rq_method rq = HEAD) /\
    (ni_errorType net_info <> "status_code" \/
     ni_request_head_only net_info = Some false -> rq_method rq = GET).
Proof.
  intros rq.
  assert (Hin : ("Forum", rq) ∈ requests (run_trace (sherlock "alice" Demo.catalog
                                           Demo.no_args "username" Demo.w0))).
  { vm_compute. apply list_elem_of_here. }
  split; [exact Hin |].
  exact (C9_head_for_status_code_get_otherwise "alice" "username" Demo.no_args
           Demo.catalog Demo.w0 "Forum" rq Hin).
Defined.

(** ** Followed keys of an extraction *)

Section FollowedKeys.

Lemma dict_set_elem {V} (d : list (string * V)) k v x :
  x ∈ dict_set d k v -> x ∈ d \/ x = (k, v).
Proof.
  induction d as [|[k' v'] d IH]; simpl.
  - rewrite list_elem_of_singleton. auto.
  - destruct (String.eqb_spec k' k) as [->|Hne]; rewrite !elem_of_cons.
    + tauto.
    + intros [|H]; [auto |]. destruct (IH H); auto.
Qed.

Lemma dict_update_keys {V} (d e : list (string * V)) k :
  k ∈ (dict_update d e).*1 <-> k ∈ d.*1 \/ k ∈ e.*1.
Proof.
  unfold dict_update. revert d.
  induction e as [|[k' v'] e IH]; intros d; simpl.
  - rewrite elem_of_nil. tauto.
  - rewrite IH, dict_set_keys, elem_of_cons. tauto.
Qed.

Lemma dict_update_elem {V} (d e : list (string * V)) x :
  x ∈ dict_update d e -> x ∈ d \/ x ∈ e.
Proof.
  unfold dict_update. revert d.
  induction e as [|[k' v'] e IH]; intros d; simpl; [auto |].
  intros H. apply IH in H as [H|H].
  - apply dict_set_elem in H as [H| ->]; [auto |]. right. apply list_elem_of_here.
  - right. by apply list_elem_of_further.
Qed.

(** No special kind contains ["username"]: the two tests of the loop body
    never hold together. *)
Lemma special_has_no_username k :
  existsb (String.eqb k) special_id_kinds = true -> str_in "username" k = false.
Proof.
  simpl. rewrite !orb_true_iff.
  intros [H|[H|[H|H]]]; try discriminate; apply String.eqb_eq in H as ->;
    reflexivity.
Qed.

Lemma followed_spec k :
  followed k = true <->
  str_in "username" k = true \/ k ∈ special_id_kinds.
Proof.
  unfold followed. rewrite orb_true_iff, existsb_exists.
  split; intros [H|H]; auto; right.
  - destruct H as (k' & Hin & Heq). apply String.eqb_eq in Heq as <-.
    by apply list_elem_of_In.
  - exists k. rewrite String.eqb_refl. split; [by apply list_elem_of_In | done].
Qed.

(** The kind that the loop body gives: ["username"] for a key that holds
    ["username"], the key itself for a special kind. *)
Lemma kind_of_spec k kind :
  followed k = true /\ kind = kind_of k <->
  (str_in "username" k = true /\ kind = "username") \/
  (k ∈ special_id_kinds /\ kind = k).
Proof.
  unfold followed, kind_of.
  assert (Hs : existsb (String.eqb k) special_id_kinds = true <->
               k ∈ special_id_kinds).
  { rewrite existsb_exists. split.
    - intros (k' & Hin & Heq). apply String.eqb_eq in Heq as <-.
      by apply list_elem_of_In.
    - intros Hin. exists k. rewrite String.eqb_refl.
      split; [by apply list_elem_of_In | done]. }
  destruct (existsb (String.eqb k) special_id_kinds) eqn:Hsp.
  - rewrite (special_has_no_username k Hsp). simpl.
    split; [intros [_ ->]; right; split; [by apply Hs | done] |].
    intros [[? _]|[_ ->]]; [done | done].
  - rewrite orb_false_r.
    split; [intros [? ->]; by left |].
    intros [[? ->]|[Hin _]]; [done |]. apply Hs in Hin. done.
Qed.

Lemma add_new_username_step new_usernames k v :
  add_new_username new_usernames (k, v) =
    if followed k then dict_set new_usernames v (kind_of k) else new_usernames.
Proof.
  unfold add_new_username, followed, kind_of.
  destruct (existsb (String.eqb k) special_id_kinds) eqn:Hsp.
  - by rewrite (special_has_no_username k Hsp).
  - rewrite orb_false_r. by destruct (str_in "username" k).
Qed.

Lemma new_usernames_fold_keys extracted acc v :
  v ∈ (fold_left add_new_username extracted acc).*1 <->
  v ∈ acc.*1 \/ exists k, (k, v) ∈ extracted /\ followed k = true.
Proof.
  revert acc. induction extracted as [|[k0 v0] rest IH]; intros acc;
    cbn [fold_left].
  - split; [auto | intros [|(k & H & _)]; [done |]]. by apply elem_of_nil in H.
  - rewrite IH, add_new_username_step.
    destruct (followed k0) eqn:Hk0.
    + rewrite dict_set_keys. split.
      * intros [[->|]|(k & Hin & Hk)]; [right | by left | right].
        -- exists k0. split; [apply list_elem_of_here | done].
        -- exists k. split; [by apply list_elem_of_further | done].
      * intros [|(k & Hin & Hk)]; [by left; right |].
        apply elem_of_cons in Hin as [[= -> ->]|Hin]; [by left; left |].
        right. eauto.
    + split.
      * intros [|(k & Hin & Hk)]; [by left | right].
        exists k. split; [by apply list_elem_of_further | done].
      * intros [|(k & Hin & Hk)]; [by left |].
        apply elem_of_cons in Hin as [[= -> ->]|Hin]; [congruence |].
        right. eauto.
Qed.

Lemma new_usernames_fold_elem extracted acc v kind :
  (v, kind) ∈ fold_left add_new_username extracted acc ->
  (v, kind) ∈ acc \/
  exists k, (k, v) ∈ extracted /\ followed k = true /\ kind = kind_of k.
Proof.
  revert acc. induction extracted as [|[k0 v0] rest IH]; intros acc;
    cbn [fold_left]; [auto |].
  rewrite add_new_username_step.
  intros H. apply IH in H as [H|(k & Hin & Hk & Hkind)].
  - destruct (followed k0) eqn:Hk0; [| by left].
    apply dict_set_elem in H as [H|[= -> ->]]; [by left |].
    right. exists k0. split; [apply list_elem_of_here | done].
  - right. exists k. split; [by apply list_elem_of_further | done].
Qed.

Lemma new_usernames_keys extracted v :
  v ∈ (new_usernames_of extracted).*1 <->
  exists k, (k, v) ∈ extracted /\ followed k = true.
Proof.
  unfold new_usernames_of. rewrite new_usernames_fold_keys.
  split; [intros [H|]; [by apply elem_of_nil in H | done] | auto].
Qed.

Lemma new_usernames_elem extracted v kind :
  (v, kind) ∈ new_usernames_of extracted ->
  exists k, (k, v) ∈ extracted /\ followed k = true /\ kind = kind_of k.
Proof.
  intros H. apply new_usernames_fold_elem in H as [H|]; [| done].
  by apply elem_of_nil in H.
Qed.

Lemma push_new_usernames_queue results usernames v :
  v ∈ usernames.*1 -> v ∈ (push_new_usernames results usernames).*1.
Proof.
  unfold push_new_usernames. revert usernames.
  induction results as [|[name rs] rest IH]; intros usernames Hv; simpl; [done |].
  apply IH. destruct (rs_ids_usernames rs) as [nu|]; [| done].
  destruct (is_empty nu); [done |]. apply dict_update_keys. auto.
Qed.

Lemma push_new_usernames_entry results usernames name rs nu v :
  (name, rs) ∈ results -> rs_ids_usernames rs = Some nu -> v ∈ nu.*1 ->
  v ∈ (push_new_usernames results usernames).*1.
Proof.
  revert usernames.
  induction results as [|[name' rs'] rest IH]; intros usernames Hin Hids Hv.
  { by apply elem_of_nil in Hin. }
  apply elem_of_cons in Hin as [[= <- <-]|Hin].
  - unfold push_new_usernames. simpl. rewrite Hids.
    apply (push_new_usernames_queue rest).
    destruct nu as [|kv nu]; [by apply elem_of_nil in Hv |]. simpl.
    apply (dict_update_keys usernames (kv :: nu)). auto.
  - unfold push_new_usernames. simpl. by eapply IH.
Qed.

Lemma push_new_usernames_elem results usernames x :
  x ∈ push_new_usernames results usernames ->
  x ∈ usernames \/
  exists name rs nu,
    (name, rs) ∈ results /\ rs_ids_usernames rs = Some nu /\ x ∈ nu.
Proof.
  unfold push_new_usernames. revert usernames.
  induction results as [|[name rs] rest IH]; intros usernames; simpl; [auto |].
  intros H. apply IH in H as [H|(n & rs' & nu & Hin & Hids & Hx)].
  - destruct (rs_ids_usernames rs) as [nu|] eqn:Hids; [| by left].
    destruct (is_empty nu); [by left |].
    apply dict_update_elem in H as [H|H]; [by left |].
    right. exists name, rs, nu. split; [apply list_elem_of_here | done].
  - right. exists n, rs', nu. split; [by apply list_elem_of_further | done].
Qed.

End FollowedKeys.

(** ** What a round extracts and what it returns *)

Section Extraction.
Context `{Ext : Externals}.

Lemma found_app t1 t2 k v : found (t1 ++ t2) k v <-> found t1 k v \/ found t2 k v.
Proof.
  unfold found. split.
  - intros (r & Hin & Hkv). apply elem_of_app in Hin as [?|?]; eauto.
  - intros [(r & Hin & Hkv)|(r & Hin & Hkv)]; exists r;
      (split; [apply elem_of_app; auto | done]).
Qed.

Lemma found_nil k v : ~ found [] k v.
Proof. intros (r & Hin & _). by apply elem_of_nil in Hin. Qed.

(** The three ways in which one iteration of the second loop ends. *)
Lemma collect_site_cases username args name net_info results_total w :
  collect_site username args name net_info results_total w
    = (w, [], inr results_total) \/
  (exists e, collect_site username args name net_info results_total w
             = (w, [], inl e)) \/
  exists rs result rs',
    dict_get results_total name = Some rs /\ rs_status rs = None /\
    qr_site_name result = name /\
    rs_status rs' = Some result /\
    rs_ids_usernames rs' =
      (if is_empty (qr_ids_data result) then rs_ids_usernames rs
       else Some (new_usernames_of (qr_ids_data result))) /\
    (ids_search args = false -> qr_ids_data result = []) /\
    collect_site username args name net_info results_total w
      = (w, [NotifyUpdate result], inr (dict_set results_total name rs')).
Proof.
  unfold collect_site.
  destruct (dict_get results_total name) as [rs|] eqn:Hget; [| by left].
  destruct (rs_status rs) eqn:Hst; [by left |].
  destruct (ni_request_future net_info) as [future|]; [| right; left; eauto].
  destruct (get_response future) as [[r error_text] expection_text].
  unfold bind, lift, emit, ret.
  destruct (detect_failure _ r error_text) as [e|error_text'];
    [right; left; eauto |].
  destruct (classify _ _ _ _ _ _ _ _) as [e|result] eqn:Hc;
    [right; left; eauto |].
  apply classify_fields in Hc as (_ & Hname & Hids).
  assert (Hoff : ids_search args = false -> qr_ids_data result = []).
  { intros Hoff. by rewrite Hids, Hoff. }
  right. right. rewrite <- Hids. exists rs, result. eexists.
  split; [reflexivity |]. split; [done |]. split; [done |].
  split; [| split; [| split]]; [| | exact Hoff | reflexivity]; reflexivity.
Qed.

Lemma collect_all_carries username args site_data results_total w w' t results t0 :
  collect_all username args site_data results_total w = (w', t, inr results) ->
  carries_found t0 results_total /\ carries_only_found t0 results_total ->
  carries_found (t0 ++ t) results /\ carries_only_found (t0 ++ t) results.
Proof.
  revert results_total w t t0.
  induction site_data as [|[name net_info] rest IH];
    intros results_total w t t0; simpl.
  { unfold ret. intros [= <- <- <-]. by rewrite app_nil_r. }
  unfold bind.
  destruct (collect_site_cases username args name net_info results_total w)
    as [Hskip|[(e & Hraise)|(rs & result & rs' & Hget & Hst & Hname & Hst' &
                              Hids & _ & Hrun)]].
  - rewrite Hskip.
    destruct (collect_all _ _ rest _ _) as [[w2 t2] r2] eqn:Hrest.
    intros [= <- <- ->]. simpl. by eapply IH.
  - rewrite Hraise. done.
  - rewrite Hrun.
    destruct (collect_all _ _ rest _ _) as [[w2 t2] r2] eqn:Hrest.
    intros [= <- <- ->] [Hfwd Hbwd]. simpl.
    change (t0 ++ NotifyUpdate result :: t2)
      with (t0 ++ [NotifyUpdate result] ++ t2).
    rewrite app_assoc. eapply IH; [exact Hrest |]. split.
    + intros k v Hfound Hk. apply found_app in Hfound as [Hold|Hnew].
      * destruct (Hfwd k v Hold Hk) as (n & rs0 & nu & Hn & Hsome & Hnu & Hv).
        exists n, rs0, nu. split; [| done].
        rewrite dict_get_set_ne; [done |]. intros <-.
        rewrite Hget in Hn. injection Hn as <-. rewrite Hst in Hsome.
        by destruct Hsome.
      * destruct Hnew as (r & Hr & Hkv).
        apply list_elem_of_singleton in Hr. injection Hr as ->.
        exists name, rs', (new_usernames_of (qr_ids_data result)).
        split; [apply dict_get_set_eq |]. split; [by rewrite Hst' |].
        split.
        -- rewrite Hids. destruct (qr_ids_data result); [| done].
           by apply elem_of_nil in Hkv.
        -- apply new_usernames_keys. eauto.
    + intros n rs0 nu v kind Hin Hnu Hv.
      assert (Hmono : forall k, found t0 k v -> found (t0 ++ [NotifyUpdate result]) k v).
      { intros k Hf. apply found_app. auto. }
      apply dict_set_elem in Hin as [Hin|[= -> ->]].
      * destruct (Hbwd n rs0 nu v kind Hin Hnu Hv) as (k & Hf & Hk & Hkind).
        exists k. auto.
      * rewrite Hids in Hnu. destruct (is_empty (qr_ids_data result)).
        -- apply dict_get_Some_elem in Hget.
           destruct (Hbwd name rs nu v kind Hget Hnu Hv) as (k & Hf & Hk & Hkind).
           exists k. auto.
        -- injection Hnu as <-.
           apply new_usernames_elem in Hv as (k & Hkv & Hk & Hkind).
           exists k. split; [| done]. apply found_app. right.
           exists result. split; [apply list_elem_of_here | done].
Qed.

(** The first loop extracts nothing and writes no new identifiers. *)
Lemma dispatch_site_no_ids username id_type args name net_info results_total :
  Forall (fun entry => rs_ids_usernames entry.2 = None) results_total ->
  triple (dispatch_site username id_type args name net_info results_total)
    (fun ev => forall r, ev = NotifyUpdate r -> qr_ids_data r = [])
    (fun out => Forall (fun entry => rs_ids_usernames entry.2 = None) out.2).
Proof.
  intros Hall.
  assert (Hset : forall rs, rs_ids_usernames rs = None ->
            Forall (fun entry => rs_ids_usernames entry.2 = None)
                   (dict_set results_total name rs)).
  { intros rs Hrs. apply Forall_forall. intros x Hx.
    apply dict_set_elem in Hx as [Hx| ->]; [| done].
    rewrite Forall_forall in Hall. by apply Hall. }
  unfold dispatch_site.
  destruct (kind_differs net_info id_type); [by apply triple_ret |].
  destruct (tags_exclude net_info (tags args)); [by apply triple_ret |].
  eapply triple_bind with (Q := fun _ => True).
  { unfold format_or_raise. destruct (format _ _);
      [by apply triple_ret | apply triple_raise]. }
  intros url _. destruct (regex_rejects net_info username).
  - eapply triple_bind with (Q := fun _ => True).
    + apply triple_emit; [| done]. by intros r [= <-].
    + intros _ _. apply triple_ret. by apply Hset.
  - eapply triple_bind with (Q := fun _ => True).
    { destruct (ni_urlProbe net_info); [| by apply triple_ret].
      unfold format_or_raise. destruct (format _ _);
        [by apply triple_ret | apply triple_raise]. }
    intros url_probe _.
    eapply triple_bind with (Q := fun _ => True).
    { by apply triple_submit. }
    intros future _.
    eapply triple_bind with (Q := fun _ => True).
    { destruct (unique_tor args); [by apply triple_emit | by apply triple_ret]. }
    intros _ _. apply triple_ret. by apply Hset.
Qed.

Lemma dispatch_all_no_ids username id_type args site_data results_total :
  Forall (fun entry => rs_ids_usernames entry.2 = None) results_total ->
  triple (dispatch_all username id_type args site_data results_total)
    (fun ev => forall r, ev = NotifyUpdate r -> qr_ids_data r = [])
    (fun out => Forall (fun entry => rs_ids_usernames entry.2 = None) out.2).
Proof.
  revert results_total.
  induction site_data as [|[name net_info] rest IH]; intros results_total Hall;
    simpl.
  { by apply triple_ret. }
  eapply triple_bind; [by apply dispatch_site_no_ids |].
  intros [net_info' results_total'] Hall'.
  eapply triple_bind; [by apply IH |].
  intros [rest' results_total''] Hall''. by apply triple_ret.
Qed.

(** After a round that returns: a followed pair of a verdict has its value
    among the new identifiers of an entry of the results, and every new
    identifier of the results comes from such a pair, with its kind. *)
Lemma sherlock_carries username site_data args id_type w w' t site_data' results :
  sherlock username site_data args id_type w = (w', t, inr (site_data', results)) ->
  carries_found t results /\ carries_only_found t results.
Proof.
  unfold sherlock, bind, emit, ret. simpl.
  pose proof (dispatch_all_no_ids username id_type args site_data []
                (Forall_nil_2 _) w) as [Hd Hq].
  unfold run_trace, run_result in *.
  destruct (dispatch_all username id_type args site_data [] w)
    as [[w1 t1] [e|[sd1 results1]]]; simpl in *; [done |].
  destruct (collect_all username args sd1 results1 w1)
    as [[w2 t2] [e|results2]] eqn:Hc; simpl in *; [done |].
  intros [= <- <- <- <-].
  assert (Hno : forall k v, ~ found t1 k v).
  { intros k v (r & Hr & Hkv). rewrite Forall_forall in Hd.
    rewrite (Hd _ Hr r eq_refl) in Hkv. by apply elem_of_nil in Hkv. }
  destruct (collect_all_carries _ _ _ _ _ _ _ _ t1 Hc) as [Hfwd Hbwd].
  { split.
    - intros k v Hf. by apply Hno in Hf.
    - intros n rs nu v kind Hin Hnu. rewrite Forall_forall in Hq.
      specialize (Hq _ Hin). simpl in Hq. congruence. }
  assert (Heq : forall k v,
            found (NotifyStart username id_type ::
                   NewSession (max_workers site_data) ::
                   (t1 ++ t2 ++ [NotifyFinish])) k v <-> found (t1 ++ t2) k v).
  { intros k v. unfold found. split; intros (r & Hr & Hkv); exists r;
      (split; [| done]).
    - rewrite !elem_of_cons, app_assoc, elem_of_app in Hr.
      destruct Hr as [?|[?|[?|Hr]]]; try done.
      apply list_elem_of_singleton in Hr. done.
    - rewrite !elem_of_cons, app_assoc, elem_of_app. auto. }
  split.
  - intros k v Hf Hk. apply Heq in Hf. exact (Hfwd k v Hf Hk).
  - intros n rs nu v kind Hin Hnu Hv.
    destruct (Hbwd n rs nu v kind Hin Hnu Hv) as (k & Hf & Hk).
    exists k. split; [by apply Heq | done].
Qed.

End Extraction.

(** ** New identifiers *)

Section NewIdentifiers.
Context `{Ext : Externals}.

Lemma new_usernames_fold_keeps post acc v kind :
  dict_get acc v = Some kind ->
  (forall k', (k', v) ∈ post -> followed k' = false) ->
  dict_get (fold_left add_new_username post acc) v = Some kind.
Proof.
  revert acc. induction post as [|[k0 v0] post IH]; intros acc Hget Hpost;
    cbn [fold_left]; [done |].
  apply IH.
  - rewrite add_new_username_step. destruct (followed k0) eqn:Hk0; [| done].
    rewrite dict_get_set_ne; [done |]. intros ->.
    rewrite Hpost in Hk0; [done | apply list_elem_of_here].
  - intros k' Hin. apply Hpost. by apply list_elem_of_further.
Qed.

(** The kind kept for a value is that of the last followed pair with that
    value. *)
Lemma new_usernames_last pre k v post :
  followed k = true ->
  (forall k', (k', v) ∈ post -> followed k' = false) ->
  dict_get (new_usernames_of (pre ++ (k, v) :: post)) v = Some (kind_of k).
Proof.
  intros Hk Hpost. unfold new_usernames_of.
  rewrite fold_left_app. cbn [fold_left].
  apply new_usernames_fold_keeps; [| done].
  rewrite add_new_username_step, Hk. apply dict_get_set_eq.
Qed.

(** The verdict of a delivered response carries what [extract] returns for
    its body when the search for identifiers is on and the response is
    true, and nothing otherwise. *)
Lemma extracted_ids_spec (on : bool) (r : option Response) :
  extracted_ids on r =
    match r with
    | Some resp =>
        if on && negb (Z.leb 400 (status_code resp) && Z.ltb (status_code resp) 600)
        then extract (text resp) else []
    | None => []
    end.
Proof.
  unfold extracted_ids, truthy. destruct r; [done |]. by rewrite andb_false_r.
Qed.

End NewIdentifiers.

(** ** The exploration loop *)

Section Driver.
Context `{Ext : Externals}.

Lemma starts_app t1 t2 : starts (t1 ++ t2) = starts t1 ++ starts t2.
Proof. apply omap_app. Qed.

Lemma finishes_app t1 t2 : finishes (t1 ++ t2) = finishes t1 + finishes t2.
Proof. unfold finishes. by rewrite omap_app, length_app. Qed.

(** A round has one start. *)
Lemma sherlock_starts username site_data args id_type w :
  starts (run_trace (sherlock username site_data args id_type w)) = [username].
Proof.
  destruct (sherlock_trace username site_data args id_type w) as (t & Ht & ->).
  apply inner_observations in Ht as (Hs & _ & _).
  change (NotifyStart username id_type :: NewSession (max_workers site_data) ::
          t ++ ?x)
    with ([NotifyStart username id_type; NewSession (max_workers site_data)] ++
          t ++ x).
  rewrite !starts_app, Hs. by destruct (run_result _).
Qed.

(** *** The reports of a round *)

Lemma triple_call (ev : Event) op (P : Event -> Prop) (Q : unit -> Prop) :
  P ev -> Q tt -> triple (call ev op) P Q.
Proof.
  intros Hev Hq w. unfold call, run_trace, run_result.
  destruct (op w) as [w' [e|]]; simpl; split; by repeat constructor.
Qed.

Lemma triple_with_open {A} (path : string) (body : M A) (P : Event -> Prop)
    (Q : A -> Prop) :
  P (OpenFile path) -> P (CloseFile path) -> triple body P Q ->
  triple (with_open path body) P Q.
Proof.
  intros Hopen Hclose Hbody. unfold with_open.
  eapply triple_bind with (Q := fun _ => True); [by apply triple_call |].
  intros _ _ w. destruct (Hbody w) as [Ht Hr].
  unfold run_trace, run_result in *.
  destruct (body w) as [[w1 t1] r]. simpl in *.
  destruct (close_file w1 path) as [w2 [e|]]; simpl.
  - split; [| done]. apply Forall_app. split; [done | by repeat constructor].
  - split; [| done]. apply Forall_app. split; [done | by repeat constructor].
Qed.

(** The loop of the text report fills the queue as [push_new_usernames]
    says. *)
Lemma report_loop_spec file results usernames exists_counter :
  triple (report_loop file results usernames exists_counter) file_event
         (fun out => out.1 = push_new_usernames results usernames).
Proof.
  revert usernames exists_counter.
  induction results as [|[website_name dictionary] results IH];
    intros usernames exists_counter.
  { by apply triple_ret. }
  cbn [report_loop]. unfold push_new_usernames. cbn [fold_left snd].
  fold (push_new_usernames results).
  destruct (rs_status dictionary) as [result|]; [| by apply triple_raise].
  destruct (qr_status result); try apply IH.
  destruct (rs_url_user dictionary) as [url_user|]; [| by apply triple_raise].
  eapply triple_bind with (Q := fun _ => True); [by apply triple_call |].
  intros _ _. apply IH.
Qed.

Lemma text_report_spec file results usernames :
  triple (text_report file results usernames) file_event
         (fun q => q = push_new_usernames results usernames).
Proof.
  unfold text_report. apply triple_with_open; [done | done |].
  eapply triple_bind; [apply report_loop_spec |].
  intros [q n] Hq. simpl in Hq.
  eapply triple_bind with (Q := fun _ => True); [by apply triple_call |].
  intros _ _. by apply triple_ret.
Qed.

Lemma csv_rows_spec file username results :
  triple (csv_rows file username results) file_event (fun _ => True).
Proof.
  induction results as [|[site entry] results IH]; [by apply triple_ret |].
  cbn [csv_rows].
  eapply triple_bind with (Q := fun _ => True); [by apply triple_lift |].
  intros row _.
  eapply triple_bind with (Q := fun _ => True); [by apply triple_call |].
  intros _ _. apply IH.
Qed.

Lemma csv_report_spec username results :
  triple (csv_report username results) file_event (fun _ => True).
Proof.
  unfold csv_report. apply triple_with_open; [done | done |].
  eapply triple_bind with (Q := fun _ => True); [by apply triple_call |].
  intros _ _. apply csv_rows_spec.
Qed.

(** The reports of a round touch files only, and leave the queue that
    [push_new_usernames] gives. *)
Lemma reports_spec username args results usernames :
  triple (reports username args results usernames) file_event
         (fun q => q = push_new_usernames results usernames).
Proof.
  unfold reports.
  eapply triple_bind with (Q := fun _ => True).
  { unfold result_file.
    destruct (truthy_string (output args)); [by apply triple_ret |].
    destruct (truthy_string (folderoutput args)); [| by apply triple_ret].
    eapply triple_bind with (Q := fun _ => True); [by apply triple_call |].
    intros _ _. by apply triple_ret. }
  intros file _.
  eapply triple_bind; [apply text_report_spec |].
  intros q Hq.
  eapply triple_bind with (Q := fun _ => True).
  { destruct (csv args); [apply csv_report_spec | by apply triple_ret]. }
  intros _ _. by apply triple_ret.
Qed.

Lemma file_events_silent t :
  Forall file_event t ->
  starts t = [] /\ lifecycle t = [] /\ updates t = [] /\ requests t = [].
Proof.
  induction 1 as [|ev t Hev _ (IH1 & IH2 & IH3 & IH4)]; [done |].
  by destruct ev.
Qed.

(** One pass of the loop on a fresh identifier, in terms of the round and
    of its reports. *)
Lemma main_loop_fresh fuel username id_type usernames already_checked
    site_data args w :
  lower username ∉ already_checked ->
  main_loop (S fuel) ((username, id_type) :: usernames) already_checked
            site_data args w =
    match sherlock username site_data args id_type w with
    | (w1, t1, inl e) => (w1, t1, inl e)
    | (w1, t1, inr (site_data', results)) =>
        match reports username args results usernames w1 with
        | (w2, t2, inl e) => (w2, t1 ++ t2, inl e)
        | (w2, t2, inr usernames') =>
            match main_loop fuel usernames'
                            (already_checked ∪ {[lower username]}) site_data'
                            args w2 with
            | (w3, t3, r) => (w3, t1 ++ t2 ++ t3, r)
            end
        end
    end.
Proof.
  intros Hnew. cbn [main_loop]. rewrite bool_decide_eq_false_2 by done.
  unfold bind.
  destruct (sherlock _ _ _ _ _) as [[w1 t1] [e|[sd' results]]]; [done |].
  destruct (reports _ _ _ _ _) as [[w2 t2] [e|usernames']]; [done |].
  by destruct (main_loop _ _ _ _ _ _) as [[w3 t3] r].
Qed.

(** The same, with what is known of the reports. *)
Lemma main_loop_round fuel username id_type usernames already_checked
    site_data args w :
  lower username ∉ already_checked ->
  match sherlock username site_data args id_type w with
  | (w1, t1, inl e) =>
      main_loop (S fuel) ((username, id_type) :: usernames) already_checked
                site_data args w = (w1, t1, inl e)
  | (w1, t1, inr (site_data', results)) =>
      exists w2 t2,
        Forall file_event t2 /\
        ((exists e,
            reports username args results usernames w1 = (w2, t2, inl e) /\
            main_loop (S fuel) ((username, id_type) :: usernames)
                      already_checked site_data args w = (w2, t1 ++ t2, inl e)) \/
         (reports username args results usernames w1 =
            (w2, t2, inr (push_new_usernames results usernames)) /\
          main_loop (S fuel) ((username, id_type) :: usernames)
                    already_checked site_data args w =
            match main_loop fuel (push_new_usernames results usernames)
                            (already_checked ∪ {[lower username]}) site_data'
                            args w2 with
            | (w3, t3, r) => (w3, t1 ++ t2 ++ t3, r)
            end))
  end.
Proof.
  intros Hnew. rewrite main_loop_fresh by done.
  destruct (sherlock _ _ _ _ _) as [[w1 t1] [e|[sd' results]]]; [done |].
  destruct (reports_spec username args results usernames w1) as [Ht Hq].
  unfold run_trace, run_result in *.
  destruct (reports _ _ _ _ _) as [[w2 t2] [e|usernames']]; simpl in *.
  - exists w2, t2. split; [done |]. left. by exists e.
  - subst usernames'. exists w2, t2. split; [done |]. by right.
Qed.

Lemma main_loop_seen fuel username id_type usernames already_checked
    site_data args w :
  lower username ∈ already_checked ->
  main_loop (S fuel) ((username, id_type) :: usernames) already_checked
            site_data args w =
    main_loop fuel usernames already_checked site_data args w.
Proof. intros Hseen. cbn [main_loop]. by rewrite bool_decide_eq_true_2. Qed.

(** What comes before the loop in [main]. *)
Lemma main_cases fuel args_username site_data args w :
  (exists w1 t1 e,
     main fuel args_username site_data args w = (w1, t1, inl e) /\
     Forall (fun ev => exists url, ev = ParsePage url) t1 /\
     (run_result (check_args args_username args w) = inl e \/
      run_result (parsed_usernames args (initial_usernames args_username) w)
        = inl e)) \/
  (exists w1 t1 usernames,
     parsed_usernames args (initial_usernames args_username) w
       = (w1, t1, inr usernames) /\
     Forall (fun ev => exists url, ev = ParsePage url) t1 /\
     main fuel args_username site_data args w =
       match main_loop fuel usernames ∅ site_data args w1 with
       | (w2, t2, r) => (w2, t1 ++ t2, r)
       end).
Proof.
  unfold main, check_args, bind.
  destruct (tor args && _);
    [left; do 3 eexists; split; [reflexivity | split; [constructor | by left]] |].
  simpl. destruct (_ && bool_decide (is_Some (folderoutput args)));
    [left; do 3 eexists; split; [reflexivity | split; [constructor | by left]] |].
  simpl. destruct (_ && negb _);
    [left; do 3 eexists; split; [reflexivity | split; [constructor | by left]] |].
  simpl.
  assert (Htrace : forall w1 t1 r,
            parsed_usernames args (initial_usernames args_username) w
              = (w1, t1, r) ->
            Forall (fun ev => exists url, ev = ParsePage url) t1).
  { unfold parsed_usernames. intros w1 t1 r.
    destruct (truthy_string (parse_url args)).
    - destruct (parse w _) as [w' [e|page]]; intros [= <- <- <-];
        repeat constructor; by eexists.
    - unfold ret. intros [= <- <- <-]. constructor. }
  destruct (parsed_usernames args (initial_usernames args_username) w)
    as [[w1 t1] [e|usernames]] eqn:Hparse.
  - left. exists w1, t1, e. split; [done |].
    split; [by eapply Htrace | by right].
  - right. exists w1, t1, usernames. split; [done |].
    split; [by eapply Htrace |].
    by destruct (main_loop _ _ _ _ _ _) as [[w2 t2] r].
Qed.

Lemma parse_events_silent t :
  Forall (fun ev => exists url, ev = ParsePage url) t ->
  starts t = [] /\ lifecycle t = [] /\ updates t = [] /\ requests t = [].
Proof.
  induction 1 as [|ev t [url ->] _ (IH1 & IH2 & IH3 & IH4)]; done.
Qed.

Lemma lifecycle_app t1 t2 : lifecycle (t1 ++ t2) = lifecycle t1 ++ lifecycle t2.
Proof. apply omap_app. Qed.

Lemma lifecycle_inner t : Forall inner t -> lifecycle t = [].
Proof.
  induction 1 as [|ev t Hev _ IH]; [done |].
  destruct ev; simpl in *; tauto.
Qed.

Lemma finishes_lifecycle t : finishes (lifecycle t) = finishes t.
Proof.
  unfold finishes. induction t as [|ev t IH]; [done |].
  destruct ev; simpl; auto.
Qed.

Lemma starts_lifecycle t : starts (lifecycle t) = starts t.
Proof. induction t as [|ev t IH]; [done |]. destruct ev; simpl; by rewrite ?IH. Qed.

Lemma finishes_round_marks rounds : finishes (round_marks rounds) = length rounds.
Proof.
  unfold round_marks. induction rounds as [|[u k] rounds IH]; [done |].
  rewrite bind_cons, finishes_app, IH. reflexivity.
Qed.

Lemma starts_round_marks rounds : starts (round_marks rounds) = rounds.*1.
Proof.
  unfold round_marks. induction rounds as [|[u k] rounds IH]; [done |].
  rewrite bind_cons, starts_app, IH. reflexivity.
Qed.

Lemma sherlock_lifecycle username site_data args id_type w :
  lifecycle (run_trace (sherlock username site_data args id_type w)) =
    NotifyStart username id_type ::
    match run_result (sherlock username site_data args id_type w) with
    | inl _ => []
    | inr _ => [NotifyFinish]
    end.
Proof.
  destruct (sherlock_trace username site_data args id_type w) as (t & Ht & ->).
  apply lifecycle_inner in Ht.
  change (NotifyStart username id_type :: NewSession (max_workers site_data) ::
          t ++ ?x)
    with ([NotifyStart username id_type; NewSession (max_workers site_data)] ++
          t ++ x).
  rewrite !lifecycle_app, Ht. by destruct (run_result _).
Qed.

(** The starts and completions of the loop: a completion closes every
    round before the next one starts.  When an exception stops the loop, it
    comes from the last round, which then has no completion, or from the
    reports of the last round, which has returned and has one. *)
Lemma main_loop_lifecycle fuel usernames already_checked site_data args w :
  let run := main_loop fuel usernames already_checked site_data args w in
  exists rounds,
    match run_result run with
    | inr _ => lifecycle (run_trace run) = round_marks rounds
    | inl e =>
        (rounds <> [] /\ lifecycle (run_trace run) = round_marks rounds /\
         exists username results queue w',
           last rounds.*1 = Some username /\
           run_result (reports username args results queue w') = inl e) \/
        exists username id_type,
          lifecycle (run_trace run) =
            round_marks rounds ++ [NotifyStart username id_type] /\
          exists site_data' w',
            run_result (sherlock username site_data' args id_type w') = inl e
    end.
Proof.
  revert usernames already_checked site_data w.
  induction fuel as [|fuel IH]; intros usernames already_checked site_data w;
    (destruct usernames as [|[username id_type] usernames];
     [intros run; exists []; reflexivity |]);
    [intros run; exists []; reflexivity |].
  destruct (decide (lower username ∈ already_checked)) as [Hseen|Hnew].
  { rewrite main_loop_seen by done. apply IH. }
  pose proof (main_loop_round fuel username id_type usernames already_checked
                site_data args w Hnew) as Hround.
  pose proof (sherlock_lifecycle username site_data args id_type w) as Hl.
  destruct (sherlock username site_data args id_type w)
    as [[w1 t1] [e|[site_data' results]]] eqn:Hs;
    unfold run_trace, run_result in *; simpl in *.
  { rewrite Hround. simpl. exists []. right. exists username, id_type.
    rewrite Hl. split; [done |]. exists site_data, w. by rewrite Hs. }
  destruct Hround as (w2 & t2 & Hfiles & [(e & Hrep & ->)|[_ ->]]);
    apply file_events_silent in Hfiles as (_ & Hfiles & _).
  { simpl. exists [(username, id_type)]. left. split; [done |].
    rewrite lifecycle_app, Hl, Hfiles. split; [done |].
    exists username, results, usernames, w1. by rewrite Hrep. }
  destruct (IH (push_new_usernames results usernames)
               (already_checked ∪ {[lower username]}) site_data' w2)
    as [rounds Hrounds].
  destruct (main_loop fuel _ _ site_data' args w2) as [[w3 t3] r]; simpl in *.
  exists ((username, id_type) :: rounds).
  rewrite !lifecycle_app, Hl, Hfiles. unfold round_marks. rewrite bind_cons.
  fold (round_marks rounds). simpl. destruct r as [e|st].
  - destruct Hrounds as [(Hne & -> & u & rs & q & w' & Hlast & Hrep)|
                         (u & k & -> & Hraised)].
    + left. split; [done |]. split; [done |]. exists u, rs, q, w'.
      split; [| done]. destruct rounds as [|round rounds]; done.
    + right. by exists u, k.
  - by rewrite Hrounds.
Qed.

(** C5, as amended: completion is reported to the sink once at the end of
    every round that returns, that is once for every identifier searched
    and before the next one is started, whatever is left in the work
    queue.  A run that ends without an error has as many reports as rounds
    (none when nothing is searched).  A run that an error stops has as many
    reports as rounds when the error comes from outside a round (from the
    checks of the arguments or the parsed page, before any round, or from
    the reports written after the last round), and a last round without a
    report when the error comes from inside that round. *)
Theorem C5_completion_is_reported_once_per_round
    (fuel : nat) (args_username : list string)
    (site_data : list (string * NetInfo)) (args : Args) (w : World) :
  let run := main fuel args_username site_data args w in
  exists rounds,
    finishes (run_trace run) = length rounds /\
    match run_result run with
    | inr _ =>
        lifecycle (run_trace run) = round_marks rounds /\
        starts (run_trace run) = rounds.*1
    | inl e =>
        (lifecycle (run_trace run) = round_marks rounds /\
         starts (run_trace run) = rounds.*1 /\
         ((rounds = [] /\
           (run_result (check_args args_username args w) = inl e \/
            run_result (parsed_usernames args (initial_usernames args_username)
                          w) = inl e)) \/
          (exists username results queue w',
             last rounds.*1 = Some username /\
             run_result (reports username args results queue w') = inl e))) \/
        (exists username id_type,
           lifecycle (run_trace run) =
             round_marks rounds ++ [NotifyStart username id_type] /\
           starts (run_trace run) = rounds.*1 ++ [username] /\
           exists site_data' w',
             run_result (sherlock username site_data' args id_type w') = inl e)
    end.
Proof.
  intros run.
  assert (Hshape : exists rounds,
            match run_result run with
            | inr _ => lifecycle (run_trace run) = round_marks rounds
            | inl e =>
                (lifecycle (run_trace run) = round_marks rounds /\
                 ((rounds = [] /\
                   (run_result (check_args args_username args w) = inl e \/
                    run_result (parsed_usernames args
                                  (initial_usernames args_username) w)
                      = inl e)) \/
                  (exists username results queue w',
                     last rounds.*1 = Some username /\
                     run_result (reports username args results queue w')
                       = inl e))) \/
                exists username id_type,
                  lifecycle (run_trace run) =
                    round_marks rounds ++ [NotifyStart username id_type] /\
                  exists site_data' w',
                    run_result (sherlock username site_data' args id_type w')
                      = inl e
            end).
  { subst run.
    destruct (main_cases fuel args_username site_data args w)
      as [(w1 & t1 & e & -> & Ht1 & Hsource)|
          (w1 & t1 & usernames & _ & Ht1 & ->)];
      apply parse_events_silent in Ht1 as (_ & Ht1 & _).
    { exists []. left. split; [done |]. left. done. }
    destruct (main_loop_lifecycle fuel usernames ∅ site_data args w1)
      as [rounds Hrounds].
    destruct (main_loop fuel usernames ∅ site_data args w1) as [[w2 t2] r].
    unfold run_trace at 1 2 3, run_result at 1 in Hrounds.
    unfold run_trace at 1 2 3, run_result at 1. cbn [fst snd] in *.
    exists rounds. rewrite lifecycle_app, Ht1. cbn [app].
    destruct r as [e|st]; [| done].
    destruct Hrounds as [(_ & -> & Hraised)|Hrounds]; [| by right].
    left. split; [done |]. by right. }
  destruct Hshape as [rounds Hshape]. exists rounds.
  rewrite <- finishes_lifecycle, <- starts_lifecycle.
  destruct (run_result run) as [e|st].
  - destruct Hshape as [[-> Hsource]|(u & k & -> & Hsource)].
    + rewrite finishes_round_marks, starts_round_marks. split; [done |].
      by left.
    + rewrite finishes_app, finishes_round_marks, starts_app, starts_round_marks.
      split; [unfold finishes; simpl; lia |]. right. by exists u, k.
  - by rewrite Hshape, finishes_round_marks, starts_round_marks.
Qed.

(** ** Enough fuel *)

Lemma collect_all_no_ids username args site_data results_total w w' t results :
  ids_search args = false ->
  collect_all username args site_data results_total w = (w', t, inr results) ->
  Forall (fun entry => rs_ids_usernames entry.2 = None) results_total ->
  Forall (fun entry => rs_ids_usernames entry.2 = None) results.
Proof.
  intros Hoff. revert results_total w t.
  induction site_data as [|[name net_info] rest IH];
    intros results_total w t; simpl.
  { unfold ret. by intros [= <- <- <-]. }
  unfold bind.
  destruct (collect_site_cases username args name net_info results_total w)
    as [Hskip|[(e & Hraise)|(rs & result & rs' & Hget & Hst & Hname & Hst' &
                              Hids & Hempty & Hrun)]].
  - rewrite Hskip.
    destruct (collect_all _ _ rest _ _) as [[w2 t2] r2] eqn:Hrest.
    intros [= <- <- ->]. by eapply IH.
  - by rewrite Hraise.
  - rewrite Hrun.
    destruct (collect_all _ _ rest _ _) as [[w2 t2] r2] eqn:Hrest.
    intros [= <- <- ->] Hall. eapply IH; [exact Hrest |].
    apply Forall_forall. intros x Hx. rewrite Forall_forall in Hall.
    apply dict_set_elem in Hx as [Hx| ->]; [by apply Hall |]. simpl.
    rewrite Hids, (Hempty Hoff). simpl.
    apply dict_get_Some_elem in Hget. exact (Hall _ Hget).
Qed.

Lemma push_nothing results usernames :
  Forall (fun entry => rs_ids_usernames entry.2 = None) results ->
  push_new_usernames results usernames = usernames.
Proof.
  unfold push_new_usernames. induction 1 as [|[name rs] rest Hrs _ IH]; [done |].
  simpl in *. by rewrite Hrs.
Qed.

(** Without [--ids] a round that returns gives no new identifier. *)
Lemma sherlock_no_ids username site_data args id_type w w' t site_data' results :
  ids_search args = false ->
  sherlock username site_data args id_type w = (w', t, inr (site_data', results)) ->
  Forall (fun entry => rs_ids_usernames entry.2 = None) results.
Proof.
  intros Hoff. unfold sherlock, bind, emit, ret. simpl.
  pose proof (dispatch_all_no_ids username id_type args site_data []
                (Forall_nil_2 _) w) as [_ Hq].
  unfold run_result in Hq.
  destruct (dispatch_all username id_type args site_data [] w)
    as [[w2 t2] [e|[sd2 results2]]]; simpl in *; [done |].
  destruct (collect_all username args sd2 results2 w2)
    as [[w3 t3] [e|results3]] eqn:Hc; simpl; [done |].
  intros [= <- <- <- <-]. by eapply collect_all_no_ids.
Qed.

(** Without the search for identifiers the queue only shrinks: a unit of
    fuel for each identifier of the queue is enough for the loop to end,
    with an empty queue or with an error. *)
Lemma main_loop_enough_fuel fuel usernames already_checked site_data args w :
  ids_search args = false ->
  length usernames <= fuel ->
  run_result (main_loop fuel usernames already_checked site_data args w)
    <> inr OutOfFuel.
Proof.
  intros Hoff. revert usernames already_checked site_data w.
  induction fuel as [|fuel IH]; intros usernames already_checked site_data w;
    (destruct usernames as [|[username id_type] usernames]; [done |]);
    simpl length; intros Hlen; [lia |].
  destruct (decide (lower username ∈ already_checked)) as [Hseen|Hnew].
  { rewrite main_loop_seen by done. apply IH. lia. }
  pose proof (main_loop_round fuel username id_type usernames already_checked
                site_data args w Hnew) as Hround.
  destruct (sherlock username site_data args id_type w)
    as [[w1 t1] [e|[site_data' results]]] eqn:Hs.
  { by rewrite Hround. }
  destruct Hround as (w2 & t2 & _ & [(e & _ & ->)|[_ ->]]); [done |].
  rewrite (push_nothing _ _ (sherlock_no_ids _ _ _ _ _ _ _ _ _ Hoff Hs)).
  specialize (IH usernames (already_checked ∪ {[lower username]}) site_data' w2).
  destruct (main_loop fuel usernames _ site_data' args w2) as [[w3 t3] r].
  unfold run_result in *. simpl in *. apply IH. lia.
Qed.

End Driver.

(** C5, as stated, fails: with two identifiers completion is reported
    twice, the first time while bob is still in the work queue; with no
    identifier to search the queue is empty at once and completion is never
    reported. *)
Lemma C5_completion_reported_after_each_round :
  let run := main 5 ["alice"; "bob"] Demo.catalog Demo.no_args Demo.w0 in
  let idle := main 5 ["-"] Demo.catalog Demo.no_args Demo.w0 in
  run_result run = inr Finished /\
  lifecycle (run_trace run)
    = [NotifyStart "alice" "username"; NotifyFinish;
       NotifyStart "bob" "username"; NotifyFinish] /\
  finishes (run_trace run) = 2 /\
  run_result idle = inr Finished /\
  run_trace idle = [].
Proof. vm_compute. repeat split; reflexivity. Qed.

(** The two ways in which an error stops a run.  The report of the round
    for an identifier that names a file in a missing directory cannot be
    opened: the round has returned and its completion is reported, then the
    run stops, and bob is never searched.  On the catalog with the odd site
    the error comes from inside the round, which has no completion. *)
Lemma run_stopped_after_and_inside_a_round :
  let late := main 5 ["no_such_dir/b"; "bob"] Demo.catalog Demo.no_args Demo.w0 in
  let early := main 5 ["alice"; "bob"] Demo.odd_catalog Demo.no_args Demo.w0 in
  run_result late = inl (OSError "No such file or directory") /\
  lifecycle (run_trace late) = [NotifyStart "no_such_dir/b" "username"; NotifyFinish] /\
  last (run_trace late) = Some (OpenFile "no_such_dir/b.txt") /\
  starts (run_trace late) = ["no_such_dir/b"] /\
  finishes (run_trace late) = 1 /\
  run_result early = inl (ValueError "Unknown Error Type 'regex' for site 'Odd'") /\
  starts (run_trace early) = ["alice"] /\
  finishes (run_trace early) = 0.
Proof. vm_compute. repeat split; reflexivity. Qed.

(** ** One round for each lowercase form *)

Section Dedup.
Context `{Ext : Externals}.

Lemma filter_none {A} (P : A -> Prop) `{forall x, Decision (P x)} (l : list A) :
  (forall y, y ∈ l -> ~ P y) -> filter P l = [].
Proof.
  intros Hnone. destruct (filter P l) as [|x l'] eqn:Hf; [done |].
  assert (Hx : x ∈ filter P l) by (rewrite Hf; apply list_elem_of_here).
  apply list_elem_of_filter in Hx as [HP Hx]. by destruct (Hnone x Hx).
Qed.

Lemma count_image_le_1 {A B} `{EqDecision B} (f : A -> B) (l : list A) (b : B) :
  NoDup (f <$> l) -> length (filter (fun y => f y = b) l) <= 1.
Proof.
  induction l as [|a l IH]; simpl; [lia |].
  rewrite NoDup_cons. intros [Hnot Hnd]. rewrite filter_cons.
  destruct (decide (f a = b)) as [<-|]; [| by apply IH].
  assert (filter (fun y => f y = f a) l = []) as ->; [| simpl; lia].
  apply filter_none. intros y Hy Heq.
  apply Hnot. rewrite <- Heq. apply list_elem_of_fmap. eauto.
Qed.

Lemma count_image_pos {A B} `{EqDecision B} (f : A -> B) (l : list A) (b : B) :
  b ∈ f <$> l -> 1 <= length (filter (fun y => f y = b) l).
Proof.
  induction l as [|a l IH]; simpl; [by intros ?%elem_of_nil |].
  rewrite elem_of_cons, filter_cons. intros [->|Hin].
  - rewrite decide_True by done. simpl. lia.
  - destruct (decide (f a = b)); [simpl; lia | by apply IH].
Qed.

Lemma count_image_zero {A B} `{EqDecision B} (f : A -> B) (l : list A) (b : B) :
  b ∉ f <$> l -> length (filter (fun y => f y = b) l) = 0.
Proof.
  intros Hnot.
  assert (filter (fun y => f y = b) l = []) as ->; [| done].
  apply filter_none. intros y Hy Heq.
  apply Hnot. rewrite <- Heq. apply list_elem_of_fmap. eauto.
Qed.

(** No two rounds of a run have the same lowercase form, and none has a
    form that was checked before. *)
Lemma main_loop_once fuel usernames already_checked site_data args w :
  let t := run_trace (main_loop fuel usernames already_checked site_data args w) in
  NoDup (lower <$> starts t) /\
  forall u, u ∈ starts t -> lower u ∉ already_checked.
Proof.
  revert usernames already_checked site_data w.
  induction fuel as [|fuel IH]; intros usernames already_checked site_data w;
    (destruct usernames as [|[username id_type] usernames];
     [split; [constructor | by intros u ?%elem_of_nil] |]);
    [split; [constructor | by intros u ?%elem_of_nil] |].
  destruct (decide (lower username ∈ already_checked)) as [Hseen|Hnew].
  { rewrite main_loop_seen by done. apply IH. }
  pose proof (main_loop_round fuel username id_type usernames already_checked
                site_data args w Hnew) as Hround.
  pose proof (sherlock_starts username site_data args id_type w) as Hs.
  destruct (sherlock username site_data args id_type w)
    as [[w1 t1] [e|[site_data' results]]]; unfold run_trace in *; simpl in *.
  { rewrite Hround. simpl. rewrite Hs. split; [apply NoDup_singleton |].
    by intros u ->%list_elem_of_singleton. }
  destruct Hround as (w2 & t2 & Hfiles & [(e & _ & ->)|[_ ->]]);
    apply file_events_silent in Hfiles as (Hfiles & _).
  { simpl. rewrite starts_app, Hs, Hfiles. split; [apply NoDup_singleton |].
    by intros u ->%list_elem_of_singleton. }
  specialize (IH (push_new_usernames results usernames)
                 (already_checked ∪ {[lower username]}) site_data' w2).
  destruct (main_loop fuel _ _ site_data' args w2) as [[w3 t3] r]; simpl in *.
  destruct IH as [Hnd Hfresh]. rewrite !starts_app, Hs, Hfiles. simpl. split.
  - apply NoDup_cons. split; [| done].
    intros (u & Heq & Hu)%list_elem_of_fmap.
    apply (Hfresh u Hu). rewrite <- Heq.
    apply elem_of_union. right. by apply elem_of_singleton.
  - intros u [->|Hu]%elem_of_cons; [done |].
    intros Hac. apply (Hfresh u Hu). apply elem_of_union. by left.
Qed.

Lemma found_files t k v : Forall file_event t -> ~ found t k v.
Proof.
  intros Hfiles (r & Hin & _). rewrite Forall_forall in Hfiles.
  exact (Hfiles _ Hin).
Qed.

(** In a run that ends with an empty queue, every identifier of the queue
    and every identifier found under a followed key was checked before or
    has had its round. *)
Lemma main_loop_covers fuel usernames already_checked site_data args w :
  let run := main_loop fuel usernames already_checked site_data args w in
  run_result run = inr Finished ->
  (forall u, u ∈ usernames.*1 ->
             lower u ∈ already_checked \/
             lower u ∈ lower <$> starts (run_trace run)) /\
  (forall k v, found (run_trace run) k v -> followed k = true ->
               lower v ∈ already_checked \/
               lower v ∈ lower <$> starts (run_trace run)).
Proof.
  revert usernames already_checked site_data w.
  induction fuel as [|fuel IH]; intros usernames already_checked site_data w;
    (destruct usernames as [|[username id_type] usernames];
     [intros run _; split;
        [by intros u ?%elem_of_nil | by intros k v ?%found_nil] |]);
    [by intros run Hfin |].
  destruct (decide (lower username ∈ already_checked)) as [Hseen|Hnew].
  { rewrite main_loop_seen by done. intros run Hfin.
    destruct (IH usernames already_checked site_data w Hfin) as [Hq Hf].
    split; [| done]. intros u [->|Hu]%elem_of_cons; [by left | by apply Hq]. }
  pose proof (main_loop_round fuel username id_type usernames already_checked
                site_data args w Hnew) as Hround.
  pose proof (sherlock_starts username site_data args id_type w) as Hs.
  destruct (sherlock username site_data args id_type w)
    as [[w1 t1] [e|[site_data' results]]] eqn:Hs1;
    unfold run_trace, run_result in *; simpl in *.
  { by rewrite Hround. }
  destruct Hround as (w2 & t2 & Hfiles & [(e & _ & ->)|[_ ->]]); [done |].
  pose proof (fun k v => found_files t2 k v Hfiles) as Hnone.
  apply file_events_silent in Hfiles as (Hfiles & _).
  specialize (IH (push_new_usernames results usernames)
                 (already_checked ∪ {[lower username]}) site_data' w2).
  destruct (main_loop fuel _ _ site_data' args w2) as [[w3 t3] r]; simpl in *.
  intros Hfin. destruct (IH Hfin) as [Hq Hf].
  rewrite !starts_app, Hs, Hfiles. simpl.
  assert (Hpushed : forall u, u ∈ (push_new_usernames results usernames).*1 ->
            lower u ∈ already_checked \/
            lower u ∈ lower username :: (lower <$> starts t3)).
  { intros u Hu. destruct (Hq u Hu) as [Hac|Hst];
      [| right; by apply list_elem_of_further].
    apply elem_of_union in Hac as [Hac|Hac]; [by left | right].
    apply elem_of_singleton in Hac as ->. apply list_elem_of_here. }
  split.
  - intros u [->|Hu]%elem_of_cons; [right; apply list_elem_of_here |].
    apply Hpushed. by apply push_new_usernames_queue.
  - intros k v Hfound Hk. apply found_app in Hfound as [Hfound|Hfound].
    + destruct (sherlock_carries _ _ _ _ _ _ _ _ _ Hs1) as [Hfwd _].
      destruct (Hfwd k v Hfound Hk) as (name & rs & nu & Hget & _ & Hnu & Hv).
      apply Hpushed. eapply push_new_usernames_entry; [| exact Hnu | exact Hv].
      by apply dict_get_Some_elem.
    + apply found_app in Hfound as [Hfound|Hfound]; [by destruct (Hnone k v) |].
      destruct (Hf k v Hfound Hk) as [Hac|Hst];
        [| right; by apply list_elem_of_further].
      apply elem_of_union in Hac as [Hac|Hac]; [by left | right].
      apply elem_of_singleton in Hac as ->. apply list_elem_of_here.
Qed.

(** The first identifier of the queue whose form is new gets its round,
    whatever comes of the run. *)
Lemma main_loop_head fuel username id_type usernames already_checked
    site_data args w :
  lower username ∉ already_checked ->
  exists t,
    run_trace (main_loop (S fuel) ((username, id_type) :: usernames)
                         already_checked site_data args w)
      = NotifyStart username id_type :: t.
Proof.
  intros Hnew.
  pose proof (main_loop_round fuel username id_type usernames already_checked
                site_data args w Hnew) as Hround.
  destruct (sherlock_trace username site_data args id_type w) as (t & _ & Ht).
  destruct (sherlock username site_data args id_type w)
    as [[w1 t1] [e|[site_data' results]]]; unfold run_trace in *; simpl in *;
    subst t1.
  { rewrite Hround. by eexists. }
  destruct Hround as (w2 & t2 & _ & [(e & _ & ->)|[_ ->]]); [by eexists |].
  destruct (main_loop fuel _ _ site_data' args w2) as [[w3 t3] r].
  by eexists.
Qed.

(** C8, as amended: a run starts at most one round for each lowercase
    form of an identifier and none for a form already checked; an
    identifier popped after its form was checked is dropped without any
    event, and the first identifier popped whose form is new gets its
    round, whatever comes of the run.  When the run ends with an empty
    queue, every identifier that was in the queue, however often and in
    whatever case, and every identifier found under a followed key in any
    round, has had exactly one round for its lowercase form.  Without
    [--ids] the loop always ends, with an empty queue or with an error,
    after at most one pass for each identifier of the queue. *)
Theorem C8_one_round_per_lowercase_form
    (fuel : nat) (usernames : list (string * string))
    (already_checked : gset string) (site_data : list (string * NetInfo))
    (args : Args) (w : World) :
  let run := main_loop fuel usernames already_checked site_data args w in
  (forall u, rounds_for u (run_trace run) <= 1) /\
  (forall u, lower u ∈ already_checked -> rounds_for u (run_trace run) = 0) /\
  (run_result run = inr Finished ->
   (forall u, u ∈ usernames.*1 -> lower u ∉ already_checked ->
              rounds_for u (run_trace run) = 1) /\
   (forall k v, found (run_trace run) k v ->
                str_in "username" k = true \/ k ∈ special_id_kinds ->
                lower v ∉ already_checked ->
                rounds_for v (run_trace run) = 1)) /\
  (forall u id_type,
     lower u ∈ already_checked ->
     main_loop (S fuel) ((u, id_type) :: usernames) already_checked site_data
               args w = run) /\
  (forall u id_type,
     lower u ∉ already_checked ->
     let first :=
       main_loop (S fuel) ((u, id_type) :: usernames) already_checked
                 site_data args w in
     head (run_trace first) = Some (NotifyStart u id_type) /\
     rounds_for u (run_trace first) = 1) /\
  (ids_search args = false -> length usernames <= fuel ->
   run_result run <> inr OutOfFuel).
Proof.
  intros run.
  assert (Hone : forall fuel usernames u,
            let t := run_trace (main_loop fuel usernames already_checked
                                          site_data args w) in
            lower u ∈ lower <$> starts t -> rounds_for u t = 1).
  { intros fuel' usernames' u t Hu. unfold rounds_for.
    destruct (main_loop_once fuel' usernames' already_checked site_data args w)
      as [Hnd _].
    pose proof (count_image_le_1 lower _ (lower u) Hnd).
    pose proof (count_image_pos lower _ (lower u) Hu). fold t in H, H0. lia. }
  destruct (main_loop_once fuel usernames already_checked site_data args w)
    as [Hnd Hfresh]. fold run in Hnd, Hfresh.
  split; [| split; [| split; [| split; [| split]]]].
  - intros u. by apply count_image_le_1.
  - intros u Hu. apply count_image_zero.
    intros (x & Heq & Hx)%list_elem_of_fmap.
    apply (Hfresh x Hx). by rewrite <- Heq.
  - intros Hfin.
    destruct (main_loop_covers fuel usernames already_checked site_data args w
                Hfin) as [Hq Hf]. fold run in Hq, Hf.
    split.
    + intros u Hu Hnew. apply (Hone fuel usernames). by destruct (Hq u Hu).
    + intros k v Hfound Hk Hnew. apply (Hone fuel usernames).
      apply followed_spec in Hk. by destruct (Hf k v Hfound Hk).
  - intros u id_type Hseen. by apply main_loop_seen.
  - intros u id_type Hnew first.
    destruct (main_loop_head fuel u id_type usernames already_checked site_data
                args w Hnew) as [t Ht].
    subst first. split; [by rewrite Ht |].
    apply (Hone (S fuel) ((u, id_type) :: usernames)). rewrite Ht. simpl.
    apply list_elem_of_here.
  - by apply main_loop_enough_fuel.
Qed.

End Dedup.

(** C8, as stated, fails: a run that an error stops leaves the identifiers
    still in the queue without a round.  On the catalog with the odd site
    the round for alice raises; bob, queued twice, has no round at all. *)
Lemma C8_queued_identifier_without_a_round :
  let usernames := [("alice", "username"); ("bob", "username"); ("Bob", "username")] in
  let run := main_loop 5 usernames ∅ Demo.odd_catalog Demo.no_args Demo.w0 in
  run_result run = inl (ValueError "Unknown Error Type 'regex' for site 'Odd'") /\
  "bob" ∈ usernames.*1 /\ "Bob" ∈ usernames.*1 /\
  starts (run_trace run) = ["alice"] /\
  rounds_for "bob" (run_trace run) = 0 /\
  rounds_for "bob" (run_trace run) <> 1.
Proof.
  intros usernames run.
  split; [vm_compute; reflexivity |].
  split; [apply list_elem_of_further, list_elem_of_here |].
  split; [do 2 apply list_elem_of_further; apply list_elem_of_here |].
  split; [vm_compute; reflexivity |].
  split; [vm_compute; reflexivity |].
  vm_compute. discriminate.
Qed.

(** The witness of C8: Alice and alice are both in the queue, and the pages
    of the site name bob and a Gaia identifier again and again.  The run
    has one round for Alice, one for bob and one for the Gaia identifier;
    alice and the second bob are dropped. *)
Lemma C8_one_round_per_lowercase_form_witness :
  let usernames := [("Alice", "username"); ("alice", "username")] in
  let run := main_loop 6 usernames ∅ Demo.link_catalog Demo.ids_args Demo.w0 in
  run_result run = inr Finished /\
  "alice" ∈ usernames.*1 /\
  found (run_trace run) "vk_username" "bob" /\
  lifecycle (run_trace run)
    = [NotifyStart "Alice" "username"; NotifyFinish;
       NotifyStart "bob" "username"; NotifyFinish;
       NotifyStart "77" "gaia_id"; NotifyFinish] /\
  rounds_for "alice" (run_trace run) = 1 /\
  rounds_for "bob" (run_trace run) = 1 /\
  ((lower "carol" ∉ (∅ : gset string)) /\
   ids_search Demo.no_args = false /\ length usernames <= 6) /\
  (forall u, rounds_for u (run_trace run) <= 1) /\
  (forall u, lower u ∈ (∅ : gset string) -> rounds_for u (run_trace run) = 0) /\
  (run_result run = inr Finished ->
   (forall u, u ∈ usernames.*1 -> lower u ∉ (∅ : gset string) ->
              rounds_for u (run_trace run) = 1) /\
   (forall k v, found (run_trace run) k v ->
                str_in "username" k = true \/ k ∈ special_id_kinds ->
                lower v ∉ (∅ : gset string) ->
                rounds_for v (run_trace run) = 1)) /\
  (forall u id_type,
     lower u ∈ (∅ : gset string) ->
     main_loop 7 ((u, id_type) :: usernames) ∅ Demo.link_catalog Demo.ids_args
               Demo.w0 = run) /\
  (let first :=
     main_loop 7 (("carol", "username") :: usernames) ∅ Demo.link_catalog
               Demo.ids_args Demo.w0 in
   head (run_trace first) = Some (NotifyStart "carol" "username") /\
   rounds_for "carol" (run_trace first) = 1) /\
  run_result (main_loop 6 usernames ∅ Demo.link_catalog Demo.no_args Demo.w0)
    <> inr OutOfFuel.
Proof.
  intros usernames run.
  pose proof (C8_one_round_per_lowercase_form 6 usernames ∅ Demo.link_catalog
                Demo.ids_args Demo.w0) as Hthm.
  pose proof (C8_one_round_per_lowercase_form 6 usernames ∅ Demo.link_catalog
                Demo.no_args Demo.w0) as Hoff.
  assert (Hfin : run_result run = inr Finished) by (vm_compute; reflexivity).
  assert (Hin : "alice" ∈ usernames.*1).
  { simpl. apply list_elem_of_further, list_elem_of_here. }
  assert (Hfound : found (run_trace run) "vk_username" "bob").
  { eexists. split.
    - vm_compute. do 3 apply list_elem_of_further. apply list_elem_of_here.
    - simpl. apply list_elem_of_further, list_elem_of_here. }
  assert (Hcarol : lower "carol" ∉ (∅ : gset string)) by apply not_elem_of_empty.
  assert (Hlen : length usernames <= 6) by (simpl; lia).
  split; [exact Hfin |]. split; [exact Hin |]. split; [exact Hfound |].
  split; [vm_compute; reflexivity |].
  destruct Hthm as (Hle & Hzero & Hone & Hdrop & Hhead & _).
  destruct Hoff as (_ & _ & _ & _ & _ & Hfuel).
  destruct (Hone Hfin) as [Hqueue Hdisc].
  split; [apply Hqueue; [exact Hin | apply not_elem_of_empty] |].
  split; [apply (Hdisc "vk_username");
          [exact Hfound | left; reflexivity | apply not_elem_of_empty] |].
  split; [split; [exact Hcarol | split; [reflexivity | exact Hlen]] |].
  split; [exact Hle |]. split; [exact Hzero |]. split; [exact Hone |].
  split; [exact Hdrop |].
  split; [exact (Hhead "carol" "username" Hcarol) |].
  exact (Hfuel eq_refl Hlen).
Defined.

(** ** The work queue after a round *)

Section QueueAfterRound.
Context `{Ext : Externals}.

Lemma dict_set_fresh {V} (d : list (string * V)) k v :
  k ∉ d.*1 -> dict_set d k v = d ++ [(k, v)].
Proof.
  induction d as [|[k' v'] d IH]; simpl; [done |].
  rewrite not_elem_of_cons. intros [Hne Hk].
  destruct (String.eqb_spec k' k); [congruence |]. by rewrite IH.
Qed.

Lemma dict_set_present {V} (d : list (string * V)) k v v' :
  dict_get d k = Some v ->
  exists pre post,
    d = pre ++ (k, v) :: post /\ (k ∉ pre.*1) /\
    dict_set d k v' = pre ++ (k, v') :: post.
Proof.
  induction d as [|[k0 v0] d IH]; simpl; [done |].
  destruct (String.eqb_spec k0 k) as [->|Hne].
  - intros [= ->]. exists [], d. split; [done |]. split; [apply not_elem_of_nil | done].
  - intros Hget. destruct (IH Hget) as (pre & post & -> & Hpre & Hset).
    exists ((k0, v0) :: pre), post. split; [done |].
    split; [| by rewrite Hset].
    simpl. rewrite not_elem_of_cons. auto.
Qed.

Lemma dict_set_NoDup {V} (d : list (string * V)) k v :
  NoDup d.*1 -> NoDup (dict_set d k v).*1.
Proof.
  intros Hnd. destruct (dict_get d k) as [v0|] eqn:Hget.
  - destruct (dict_set_present d k v0 v Hget) as (pre & post & -> & _ & ->).
    by rewrite fmap_app, fmap_cons in *.
  - apply dict_get_None in Hget. rewrite dict_set_fresh by done.
    rewrite fmap_app. apply NoDup_app. split; [done |].
    split; [| apply NoDup_singleton].
    intros x Hx ->%list_elem_of_singleton. done.
Qed.

(** Lookup in a dictionary after [update] with a dictionary. *)
Lemma dict_get_update {V} (d e : list (string * V)) k :
  NoDup e.*1 ->
  dict_get (dict_update d e) k =
    match dict_get e k with
    | Some v => Some v
    | None => dict_get d k
    end.
Proof.
  revert d. induction e as [|[k0 v0] e IH]; intros d Hnd; [done |].
  rewrite fmap_cons in Hnd. apply NoDup_cons in Hnd as [Hk0 Hnd].
  change (dict_update d ((k0, v0) :: e)) with (dict_update (dict_set d k0 v0) e).
  rewrite (IH _ Hnd).
  destruct (decide (k0 = k)) as [->|Hne].
  - assert (dict_get e k = None) as -> by by apply dict_get_None.
    rewrite dict_get_set_eq. simpl. by rewrite String.eqb_refl.
  - rewrite dict_get_set_ne by done.
    simpl. assert (String.eqb k0 k = false) as ->; [| done].
    by apply String.eqb_neq.
Qed.

Lemma dict_update_NoDup {V} (d e : list (string * V)) :
  NoDup d.*1 -> NoDup (dict_update d e).*1.
Proof.
  unfold dict_update. revert d.
  induction e as [|[k v] e IH]; intros d Hnd; [done |].
  cbn [fold_left]. apply IH. by apply dict_set_NoDup.
Qed.

Lemma dict_get_update_other {V} (d e : list (string * V)) k :
  k ∉ e.*1 -> dict_get (dict_update d e) k = dict_get d k.
Proof.
  unfold dict_update. revert d.
  induction e as [|[k0 v0] e IH]; intros d; [done |].
  rewrite fmap_cons, not_elem_of_cons. cbn [fst]. intros [Hne Hk].
  cbn [fold_left]. rewrite (IH _ Hk). by apply dict_get_set_ne.
Qed.

Lemma add_new_usernames_NoDup extracted (acc : list (string * string)) :
  NoDup acc.*1 -> NoDup (fold_left add_new_username extracted acc).*1.
Proof.
  revert acc. induction extracted as [|[k v] extracted IH]; intros acc Hacc;
    [done |].
  cbn [fold_left]. apply IH. rewrite add_new_username_step.
  destruct (followed k); [by apply dict_set_NoDup | done].
Qed.

(** The new identifiers of a page are a dictionary. *)
Lemma new_usernames_NoDup extracted : NoDup (new_usernames_of extracted).*1.
Proof. apply add_new_usernames_NoDup. constructor. Qed.

(** The queue has one entry for each identifier. *)
Lemma push_new_usernames_NoDup results usernames :
  NoDup usernames.*1 -> NoDup (push_new_usernames results usernames).*1.
Proof.
  unfold push_new_usernames. revert usernames.
  induction results as [|[name rs] results IH]; intros usernames Hnd; [done |].
  cbn [fold_left snd]. apply IH.
  destruct (rs_ids_usernames rs) as [nu|]; [| done].
  destruct (is_empty nu); [done | by apply dict_update_NoDup].
Qed.

(** The entries behind the last one that carries an identifier leave its
    kind alone. *)
Lemma push_new_usernames_other results usernames v :
  (forall name rs nu, (name, rs) ∈ results -> rs_ids_usernames rs = Some nu ->
                      v ∉ nu.*1) ->
  dict_get (push_new_usernames results usernames) v = dict_get usernames v.
Proof.
  unfold push_new_usernames. revert usernames.
  induction results as [|[name rs] results IH]; intros usernames Hnone; [done |].
  cbn [fold_left snd]. rewrite IH.
  - destruct (rs_ids_usernames rs) as [nu|] eqn:Hnu; [| done].
    destruct (is_empty nu); [done |].
    apply dict_get_update_other. eapply Hnone; [apply list_elem_of_here | done].
  - intros n r nu Hin. apply (Hnone n r nu). by apply list_elem_of_further.
Qed.

(** The kind of an identifier in the queue is the one that the last entry
    of the results that carries it gives. *)
Lemma push_new_usernames_last pre name rs post nu usernames v :
  rs_ids_usernames rs = Some nu -> NoDup nu.*1 -> v ∈ nu.*1 ->
  (forall name' rs' nu', (name', rs') ∈ post -> rs_ids_usernames rs' = Some nu' ->
                         v ∉ nu'.*1) ->
  dict_get (push_new_usernames (pre ++ (name, rs) :: post) usernames) v =
    dict_get nu v.
Proof.
  intros Hnu Hnd Hv Hpost. unfold push_new_usernames.
  rewrite fold_left_app. cbn [fold_left snd].
  fold (push_new_usernames pre usernames). rewrite Hnu.
  destruct nu as [|kv nu']; [by apply elem_of_nil in Hv |]. cbn [is_empty].
  fold (push_new_usernames post
          (dict_update (push_new_usernames pre usernames) (kv :: nu'))).
  rewrite (push_new_usernames_other _ _ _ Hpost), (dict_get_update _ _ _ Hnd).
  destruct (dict_get (kv :: nu') v) eqn:Hget; [done |].
  apply dict_get_None in Hget. done.
Qed.

Lemma collect_all_page_identifiers username args site_data results_total w w' t
    results t0 :
  collect_all username args site_data results_total w = (w', t, inr results) ->
  holds_page_identifiers t0 results_total ->
  holds_page_identifiers (t0 ++ t) results.
Proof.
  revert results_total w t t0.
  induction site_data as [|[name net_info] rest IH];
    intros results_total w t t0; simpl.
  { unfold ret. intros [= <- <- <-]. by rewrite app_nil_r. }
  unfold bind.
  destruct (collect_site_cases username args name net_info results_total w)
    as [Hskip|[(e & Hraise)|(rs & result & rs' & Hget & Hst & Hname & Hst' &
                              Hids & _ & Hrun)]].
  - rewrite Hskip.
    destruct (collect_all _ _ rest _ _) as [[w2 t2] r2] eqn:Hrest.
    intros [= <- <- ->]. simpl. by eapply IH.
  - rewrite Hraise. done.
  - rewrite Hrun.
    destruct (collect_all _ _ rest _ _) as [[w2 t2] r2] eqn:Hrest.
    intros [= <- <- ->] Hinv. simpl.
    change (t0 ++ NotifyUpdate result :: t2)
      with (t0 ++ [NotifyUpdate result] ++ t2).
    rewrite app_assoc. eapply IH; [exact Hrest |].
    intros n rs0 nu Hin Hnu.
    apply dict_set_elem in Hin as [Hin|[= -> ->]].
    + destruct (Hinv n rs0 nu Hin Hnu) as (r & H1 & H2 & H3 & H4).
      exists r. split; [done |]. split; [| done].
      apply elem_of_app. by left.
    + exists result. split; [done |].
      split; [apply elem_of_app; right; apply list_elem_of_here |].
      rewrite Hids in Hnu.
      destruct (qr_ids_data result) as [|kv ids] eqn:Hdata.
      * simpl in Hnu. apply dict_get_Some_elem in Hget.
        destruct (Hinv name rs nu Hget Hnu) as (r & H1 & _).
        by rewrite Hst in H1.
      * simpl in Hnu. by injection Hnu as <-.
Qed.

Lemma sherlock_page_identifiers username site_data args id_type w w' t site_data'
    results :
  sherlock username site_data args id_type w = (w', t, inr (site_data', results)) ->
  holds_page_identifiers t results.
Proof.
  unfold sherlock, bind, emit, ret. simpl.
  pose proof (dispatch_all_no_ids username id_type args site_data []
                (Forall_nil_2 _) w) as [_ Hq].
  unfold run_result in Hq.
  destruct (dispatch_all username id_type args site_data [] w)
    as [[w2 t2] [e|[sd2 results2]]]; simpl in *; [done |].
  destruct (collect_all username args sd2 results2 w2)
    as [[w3 t3] [e|results3]] eqn:Hc; simpl; [done |].
  intros [= <- <- <- <-].
  assert (Hinv : holds_page_identifiers
                   (NotifyStart username id_type ::
                    NewSession (max_workers site_data) :: t2) results2).
  { intros n rs nu Hin Hnu. rewrite Forall_forall in Hq.
    specialize (Hq _ Hin). simpl in Hq. congruence. }
  pose proof (collect_all_page_identifiers _ _ _ _ _ _ _ _ _ Hc Hinv) as Hall.
  intros n rs nu Hin Hnu.
  destruct (Hall n rs nu Hin Hnu) as (r & H1 & H2 & H3 & H4).
  exists r. split; [done |]. split; [| done].
  simpl in H2.
  apply elem_of_cons in H2 as [H2|H2]; [done |].
  apply elem_of_cons in H2 as [H2|H2]; [done |].
  do 2 apply list_elem_of_further. rewrite app_assoc.
  apply elem_of_app. by left.
Qed.

(** C10, as amended: after a round that returns, the value of an extracted
    pair is in the work queue whenever the key of the pair holds
    ["username"] or is one of the three special kinds; every entry of the
    queue was there before the round or has the value of such a pair, with
    the kind ["username"] or the key itself; nothing else enters the
    queue.  The queue has one entry for each value.  The kind of a value
    is the one that the last site, in the order of the results, whose page
    carries it under a followed key gives, and within the page of that
    site the one of the last followed pair that carries it.  The queue is
    filled while the text report of the round is written: it is the queue
    that [main] goes on with when the report is written without an
    error. *)
Theorem C10_followed_values_are_queued
    (username id_type : string) (args : Args)
    (site_data site_data' : list (string * NetInfo)) (w : World)
    (results : list (string * ResultsSite))
    (usernames : list (string * string)) :
  let run := sherlock username site_data args id_type w in
  let usernames' := push_new_usernames results usernames in
  run_result run = inr (site_data', results) ->
  (forall w1 queue,
     run_result (reports username args results usernames w1) = inr queue ->
     queue = usernames') /\
  (forall k v,
     found (run_trace run) k v ->
     str_in "username" k = true \/ k ∈ special_id_kinds ->
     v ∈ usernames'.*1) /\
  (forall v kind,
     (v, kind) ∈ usernames' ->
     (v, kind) ∈ usernames \/
     exists k, found (run_trace run) k v /\
               ((str_in "username" k = true /\ kind = "username") \/
                (k ∈ special_id_kinds /\ kind = k))) /\
  (NoDup usernames.*1 -> NoDup usernames'.*1) /\
  (forall pre name rs post nu v,
     results = pre ++ (name, rs) :: post ->
     rs_ids_usernames rs = Some nu -> v ∈ nu.*1 ->
     (forall name' rs' nu',
        (name', rs') ∈ post -> rs_ids_usernames rs' = Some nu' -> v ∉ nu'.*1) ->
     exists result,
       rs_status rs = Some result /\ (NotifyUpdate result ∈ run_trace run) /\
       nu = new_usernames_of (qr_ids_data result) /\
       dict_get usernames' v = dict_get (new_usernames_of (qr_ids_data result)) v) /\
  (forall pre k v post,
     str_in "username" k = true \/ k ∈ special_id_kinds ->
     (forall k', (k', v) ∈ post ->
                 ~ (str_in "username" k' = true \/ k' ∈ special_id_kinds)) ->
     dict_get (new_usernames_of (pre ++ (k, v) :: post)) v =
       Some (if bool_decide (k ∈ special_id_kinds) then k else "username")).
Proof.
  intros run usernames' Hrun.
  destruct (sherlock username site_data args id_type w) as [[w' t] r] eqn:Hs.
  subst run. unfold run_result, run_trace in *. simpl in *. subst r.
  destruct (sherlock_carries _ _ _ _ _ _ _ _ _ Hs) as [Hfwd Hbwd].
  pose proof (sherlock_page_identifiers _ _ _ _ _ _ _ _ _ Hs) as Hpage.
  split; [| split; [| split; [| split; [| split]]]].
  - intros w1 queue Hq.
    destruct (reports_spec username args results usernames w1) as [_ Hres].
    unfold run_result in Hres. by rewrite Hq in Hres.
  - intros k v Hf Hk. apply followed_spec in Hk.
    destruct (Hfwd k v Hf Hk) as (name & rs & nu & Hget & _ & Hnu & Hv).
    eapply push_new_usernames_entry; [| exact Hnu | exact Hv].
    by apply dict_get_Some_elem.
  - intros v kind Hin.
    apply push_new_usernames_elem in Hin
      as [Hin|(name & rs & nu & Hres & Hnu & Hv)]; [by left | right].
    destruct (Hbwd name rs nu v kind Hres Hnu Hv) as (k & Hf & Hk & Hkind).
    exists k. split; [done |]. apply kind_of_spec. done.
  - apply push_new_usernames_NoDup.
  - intros pre name rs post nu v -> Hnu Hv Hpost.
    destruct (Hpage name rs nu) as (result & Hst & Hnot & _ & Heq); [| done |].
    { apply elem_of_app. right. apply list_elem_of_here. }
    exists result. split; [done |]. split; [done |]. split; [done |].
    subst usernames'. rewrite <- Heq.
    apply (push_new_usernames_last pre name rs post nu usernames v Hnu);
      [| done | done].
    rewrite Heq. apply new_usernames_NoDup.
  - intros pre k v post Hk Hpost. apply followed_spec in Hk.
    rewrite new_usernames_last; [| done |].
    + f_equal. unfold kind_of.
      destruct (existsb (String.eqb k) special_id_kinds) eqn:Hsp.
      * rewrite bool_decide_eq_true_2; [done |].
        apply existsb_exists in Hsp as (k' & Hin & Heq).
        apply String.eqb_eq in Heq as <-. by apply list_elem_of_In.
      * rewrite bool_decide_eq_false_2; [done |]. intros Hin.
        apply not_true_iff_false in Hsp. apply Hsp.
        apply existsb_exists. exists k. rewrite String.eqb_refl.
        split; [by apply list_elem_of_In | done].
    + intros k' Hin. apply not_true_iff_false. rewrite followed_spec.
      by apply Hpost.
Qed.

End QueueAfterRound.

(** C10, as stated, fails on a page that carries one value under two
    followed keys: the pair with the key ["username"] is not queued with
    the kind ["username"]; the value is queued once, with the kind of the
    later pair, and is searched as a Gaia identifier only. *)
Lemma C10_same_value_keeps_the_last_kind :
  let run := main 5 ["alice"] Demo.twin_catalog Demo.ids_args Demo.w0 in
  extract (text (mkResponse 200 "uid=77 twin" 7))
    = [("username", "77"); ("gaia_id", "77")] /\
  new_usernames_of [("username", "77"); ("gaia_id", "77")] = [("77", "gaia_id")] /\
  (("77", "username") ∉ new_usernames_of [("username", "77"); ("gaia_id", "77")]) /\
  run_result run = inr Finished /\
  lifecycle (run_trace run)
    = [NotifyStart "alice" "username"; NotifyFinish;
       NotifyStart "77" "gaia_id"; NotifyFinish].
Proof.
  repeat split; try (vm_compute; reflexivity).
  vm_compute. intros H. apply list_elem_of_singleton in H. discriminate.
Qed.

(** The witness of C10: the round for alice on the site whose page names
    bob and a Gaia identifier. *)
Lemma C10_followed_values_are_queued_witness :
  let site_data := Demo.link_catalog in
  let run := sherlock "alice" site_data Demo.ids_args "username" Demo.w0 in
  exists site_data' results,
    run_result run = inr (site_data', results) /\
    found (run_trace run) "vk_username" "bob" /\
    found (run_trace run) "fullname" "Bob B." /\
    let usernames := [("carol", "username"); ("77", "username")] in
    let usernames' := push_new_usernames results usernames in
    usernames' = [("carol", "username"); ("77", "gaia_id"); ("bob", "username")] /\
    run_result (reports "alice" Demo.ids_args results usernames Demo.w0)
      = inr usernames' /\
    NoDup usernames.*1 /\
    (forall w1 queue,
       run_result (reports "alice" Demo.ids_args results usernames w1) = inr queue ->
       queue = usernames') /\
    (forall k v,
       found (run_trace run) k v ->
       str_in "username" k = true \/ k ∈ special_id_kinds ->
       v ∈ usernames'.*1) /\
    (forall v kind,
       (v, kind) ∈ usernames' ->
       (v, kind) ∈ usernames \/
       exists k, found (run_trace run) k v /\
                 ((str_in "username" k = true /\ kind = "username") \/
                  (k ∈ special_id_kinds /\ kind = k))) /\
    (NoDup usernames.*1 -> NoDup usernames'.*1) /\
    (forall pre name rs post nu v,
       results = pre ++ (name, rs) :: post ->
       rs_ids_usernames rs = Some nu -> v ∈ nu.*1 ->
       (forall name' rs' nu',
          (name', rs') ∈ post -> rs_ids_usernames rs' = Some nu' -> v ∉ nu'.*1) ->
       exists result,
         rs_status rs = Some result /\ (NotifyUpdate result ∈ run_trace run) /\
         nu = new_usernames_of (qr_ids_data result) /\
         dict_get usernames' v = dict_get (new_usernames_of (qr_ids_data result)) v) /\
    (forall pre k v post,
       str_in "username" k = true \/ k ∈ special_id_kinds ->
       (forall k', (k', v) ∈ post ->
                   ~ (str_in "username" k' = true \/ k' ∈ special_id_kinds)) ->
       dict_get (new_usernames_of (pre ++ (k, v) :: post)) v =
         Some (if bool_decide (k ∈ special_id_kinds) then k else "username")).
Proof.
  intros site_data run.
  eexists _, _. split; [vm_compute; reflexivity |].
  split.
  { eexists. split; [vm_compute; apply list_elem_of_further,
                       list_elem_of_further, list_elem_of_further,
                       list_elem_of_here |].
    simpl. apply list_elem_of_further, list_elem_of_here. }
  split.
  { eexists. split; [vm_compute; apply list_elem_of_further,
                       list_elem_of_further, list_elem_of_further,
                       list_elem_of_here |].
    simpl. apply list_elem_of_here. }
  intros usernames usernames'.
  split; [vm_compute; reflexivity |].
  split; [vm_compute; reflexivity |].
  split.
  { apply (bool_decide_unpack (NoDup usernames.*1)). vm_compute. exact I. }
  eapply (C10_followed_values_are_queued "alice" "username" Demo.ids_args
            site_data).
  vm_compute; reflexivity.
Defined.

(** * Further properties of the module *)

(** ** The time hook of [SherlockFuturesSession.request] *)

Section Hooks.

Lemma request_hooks_response start hooks :
  dict_get (request_hooks start hooks) "response" =
    Some (HookList (response_time start :: hooks_in (dict_get hooks "response"))).
Proof.
  unfold request_hooks.
  destruct (dict_get hooks "response") as [[hs|hs|h]|]; simpl;
    apply dict_get_set_eq.
Qed.

Lemma request_hooks_other start hooks k :
  k <> "response" ->
  dict_get (request_hooks start hooks) k = dict_get hooks k.
Proof.
  intros Hk. unfold request_hooks.
  destruct (dict_get hooks "response") as [[hs|hs|h]|];
    by rewrite dict_get_set_ne.
Qed.

(** X1: calls of [request] that share one [hooks] dictionary, as all calls
    without the argument do, pile up their time hooks: afterwards the
    response hooks are the time hooks of all the calls, the latest first,
    followed by the hooks that were there before, in their order; the other
    keys of the dictionary are as they were. *)
Theorem X1_time_hooks_pile_up_latest_first
    (starts : list N) (hooks : list (string * HookValue)) :
  hooks_in (dict_get (requests_hooks starts hooks) "response") =
    (response_time <$> rev starts) ++ hooks_in (dict_get hooks "response") /\
  (starts <> [] ->
   exists hs, dict_get (requests_hooks starts hooks) "response" = Some (HookList hs)) /\
  forall k, k <> "response" ->
            dict_get (requests_hooks starts hooks) k = dict_get hooks k.
Proof.
  unfold requests_hooks. revert hooks.
  induction starts as [|start starts IH]; intros hooks; cbn [fold_left].
  { split; [done |]. split; [done | done]. }
  destruct (IH (request_hooks start hooks)) as (Hin & Hlist & Hother).
  split; [| split].
  - rewrite Hin, request_hooks_response. simpl.
    rewrite fmap_app. simpl. by rewrite <- app_assoc.
  - intros _. destruct starts as [|start' starts'].
    + simpl. rewrite request_hooks_response. eauto.
    + apply Hlist. done.
  - intros k Hk. rewrite Hother by done. by apply request_hooks_other.
Qed.

End Hooks.

(** The witness of X1: three calls on the default dictionary, and one call
    on a dictionary that holds a tuple of two hooks. *)
Lemma X1_time_hooks_pile_up_latest_first_witness :
  [3%N; 5%N; 8%N] <> [] /\
  requests_hooks [3%N; 5%N; 8%N] []
    = [("response", HookList [response_time 8; response_time 5; response_time 3])] /\
  requests_hooks [4%N] [("response", HookTuple [caller_hook "log"; caller_hook "count"])]
    = [("response", HookList [response_time 4; caller_hook "log"; caller_hook "count"])] /\
  exists hs, dict_get (requests_hooks [3%N; 5%N; 8%N] []) "response" = Some (HookList hs).
Proof.
  split; [discriminate |]. split; [reflexivity |]. split; [reflexivity |].
  apply (X1_time_hooks_pile_up_latest_first [3%N; 5%N; 8%N] []). discriminate.
Defined.

(** ** The outcome of a request *)


(** ** The first loop, case by case *)

Section FirstLoop.
Context `{Ext : Externals}.

(** The five ways in which one iteration of the first loop ends. *)
Lemma dispatch_site_cases username id_type args name net_info results_total w :
  let run := dispatch_site username id_type args name net_info results_total w in
  (skipped net_info id_type (tags args) = true /\
   run = (w, [], inr (net_info, results_total))) \/
  (skipped net_info id_type (tags args) = false /\
   ((format (ni_url net_info) username = None /\
     run = (w, [], inl (FormatError (ni_url net_info)))) \/
    exists url,
      format (ni_url net_info) username = Some url /\
      ((regex_rejects net_info username = true /\
        run = (w,
               [NotifyUpdate (mkQueryResult username name (Some url) ILLEGAL []
                                            None None)],
               inr (net_info,
                    dict_set results_total name
                      (mkResultsSite (ni_urlMain net_info) (Some "")
                         (Some (mkQueryResult username name (Some url) ILLEGAL
                                              [] None None))
                         (Some HttpEmpty) None)))) \/
       (regex_rejects net_info username = false /\
        ((format (probe_template net_info) username = None /\
          run = (w, [], inl (FormatError (probe_template net_info)))) \/
         exists url_probe,
           format (probe_template net_info) username = Some url_probe /\
           run = ((send w (site_request args net_info url_probe)).1,
                  HttpRequest name (site_request args net_info url_probe) ::
                    (if unique_tor args then [ResetIdentity] else []),
                  inr (set_request_future net_info
                         (send w (site_request args net_info url_probe)).2,
                       dict_set results_total name
                         (mkResultsSite (ni_urlMain net_info) (Some url) None
                                        None None)))))))).
Proof.
  intros run. subst run. unfold dispatch_site, skipped.
  destruct (kind_differs net_info id_type); [left; auto |].
  destruct (tags_exclude net_info (tags args)); [left; auto |].
  right. split; [done |].
  unfold bind, format_or_raise, emit, ret, raise, submit.
  destruct (format (ni_url net_info) username) as [url|] eqn:Hurl; [| by left].
  right. exists url. split; [done |].
  destruct (regex_rejects net_info username); [left; auto |].
  right. split; [done |].
  unfold probe_template.
  destruct (ni_urlProbe net_info) as [template|]; simpl.
  - destruct (format template username) as [url_probe|]; [| by left].
    right. exists url_probe. split; [done |].
    fold (site_headers net_info). fold (site_proxies args).
    fold (site_request args net_info url_probe).
    destruct (send w (site_request args net_info url_probe)) as [w' f]. simpl.
    by destruct (unique_tor args).
  - rewrite Hurl. right. exists url. split; [done |].
    fold (site_headers net_info). fold (site_proxies args).
    fold (site_request args net_info url).
    destruct (send w (site_request args net_info url)) as [w' f]. simpl.
    by destruct (unique_tor args).
Qed.

End FirstLoop.

Section FirstLoopResults.
Context `{Ext : Externals}.

Lemma updates_app t1 t2 : updates (t1 ++ t2) = updates t1 ++ updates t2.
Proof. apply omap_app. Qed.

Lemma requests_app t1 t2 : requests (t1 ++ t2) = requests t1 ++ requests t2.
Proof. apply omap_app. Qed.

Lemma network_events_app t1 t2 :
  network_events (t1 ++ t2) = network_events t1 ++ network_events t2.
Proof. apply omap_app. Qed.

Lemma first_results_cons username id_type args name net_info site_data :
  first_results username id_type args ((name, net_info) :: site_data) =
    match
      (if skipped net_info id_type (tags args) then None
       else (fun url => (name, first_entry username name net_info url))
              <$> format (ni_url net_info) username)
    with
    | Some entry => entry :: first_results username id_type args site_data
    | None => first_results username id_type args site_data
    end.
Proof. reflexivity. Qed.

Lemma dispatch_site_events username id_type args name net_info results_total :
  triple (dispatch_site username id_type args name net_info results_total)
    (site_event username id_type args name net_info) (fun _ => True).
Proof.
  intros w. unfold site_event.
  destruct (dispatch_site_cases username id_type args name net_info
              results_total w)
    as [[Hsk ->]|[Hsk [[Hurl ->]|(url & Hurl & [[Hre ->]|[Hre [[Hp ->]|
         (url_probe & Hp & ->)]]])]]];
    unfold run_trace, run_result; simpl; (split; [| done]);
    repeat constructor; eauto.
  destruct (unique_tor args) eqn:Htor; repeat constructor; done.
Qed.

Lemma dispatch_all_events username id_type args site_data results_total :
  triple (dispatch_all username id_type args site_data results_total)
    (fun ev => exists name net_info,
                 (name, net_info) ∈ site_data /\
                 site_event username id_type args name net_info ev)
    (fun _ => True).
Proof.
  revert results_total.
  induction site_data as [|[name net_info] rest IH]; intros results_total; simpl.
  { by apply triple_ret. }
  eapply triple_bind with (Q := fun _ => True).
  - eapply triple_weaken; [apply dispatch_site_events | | done].
    intros ev Hev. exists name, net_info. split; [apply list_elem_of_here | done].
  - intros [net_info' results_total'] _.
    eapply triple_bind with (Q := fun _ => True).
    + eapply triple_weaken; [apply IH | | done].
      intros ev (n & ni & Hin & Hev). exists n, ni.
      split; [by apply list_elem_of_further | done].
    + intros [rest' results_total''] _. by apply triple_ret.
Qed.

Lemma dispatch_all_cons_trace username id_type args name net_info rest
    results_total w :
  run_trace (dispatch_all username id_type args ((name, net_info) :: rest)
                          results_total w) =
    match dispatch_site username id_type args name net_info results_total w with
    | (w1, t1, inl _) => t1
    | (w1, t1, inr (net_info', results_total')) =>
        t1 ++ run_trace (dispatch_all username id_type args rest results_total' w1)
    end.
Proof.
  cbn [dispatch_all]. unfold bind, ret, run_trace.
  destruct (dispatch_site _ _ _ _ _ _ _) as [[w1 t1] [e|[ni' rt1]]]; [done |].
  destruct (dispatch_all _ _ _ rest rt1 w1) as [[w2 t2] [e|[rest' rt2]]];
    simpl; by rewrite ?app_nil_r.
Qed.

(** The requests and resets of the first loop, whatever its outcome: each
    request is followed at once by a reset when [unique_tor] is set, and
    there is no other reset. *)
Lemma dispatch_all_network username id_type args site_data results_total w :
  let t := run_trace (dispatch_all username id_type args site_data results_total w) in
  network_events t = with_resets (unique_tor args) (requests t).
Proof.
  revert results_total w.
  induction site_data as [|[name net_info] rest IH]; intros results_total w;
    [done |].
  cbn zeta. rewrite dispatch_all_cons_trace.
  destruct (dispatch_site_cases username id_type args name net_info
              results_total w)
    as [[Hsk ->]|[Hsk [[Hurl ->]|(url & Hurl & [[Hre ->]|[Hre [[Hp ->]|
         (url_probe & Hp & ->)]]])]]]; try done.
  - apply IH.
  - apply IH.
  - rewrite network_events_app, requests_app, IH.
    unfold with_resets. by destruct (unique_tor args).
Qed.

(** The first loop when it returns: the entries it has written, the
    verdicts it has notified, and the site entries it leaves. *)
Lemma dispatch_all_returns username id_type args site_data results_total w
    w' t site_data' results_total' :
  NoDup site_data.*1 ->
  (forall n, n ∈ site_data.*1 -> n ∉ results_total.*1) ->
  dispatch_all username id_type args site_data results_total w
    = (w', t, inr (site_data', results_total')) ->
  results_total' = results_total ++ first_results username id_type args site_data /\
  updates t = omap (fun entry => rs_status entry.2)
                   (first_results username id_type args site_data) /\
  Forall2 (dispatched_site username id_type args) site_data site_data'.
Proof.
  revert results_total w w' t site_data' results_total'.
  induction site_data as [|[name net_info] rest IH];
    intros results_total w w' t site_data' results_total' Hnd Hfresh.
  { simpl. unfold ret. intros [= <- <- <- <-]. by rewrite app_nil_r. }
  rewrite fmap_cons in Hnd, Hfresh. cbn [fst] in Hnd, Hfresh.
  apply NoDup_cons in Hnd as [Hname Hnd].
  assert (Hhere : name ∉ results_total.*1).
  { apply Hfresh. apply list_elem_of_here. }
  assert (Hrest : forall entry,
            forall n, n ∈ rest.*1 -> n ∉ (results_total ++ [(name, entry)]).*1).
  { intros entry n Hn. rewrite fmap_app, elem_of_app. simpl.
    rewrite list_elem_of_singleton. intros [Hin| ->]; [| done].
    apply (Hfresh n); [| done]. by apply list_elem_of_further. }
  cbn [dispatch_all]. unfold bind. rewrite first_results_cons.
  destruct (dispatch_site_cases username id_type args name net_info
              results_total w)
    as [[Hsk ->]|[Hsk [[Hurl ->]|(url & Hurl & [[Hre ->]|[Hre [[Hp ->]|
         (url_probe & Hp & ->)]]])]]]; try done; rewrite Hsk.
  - destruct (dispatch_all _ _ _ rest results_total w)
      as [[w2 t2] [e|[rest' rt2]]] eqn:Hrun; [done |].
    unfold ret. intros [= <- <- <- <-]. rewrite ?app_nil_r.
    destruct (IH _ _ _ _ _ _ Hnd (fun n Hn => Hfresh n (list_elem_of_further _ _ _ Hn)) Hrun)
      as (Hres & Hup & Hsites).
    split; [done |]. split; [done |].
    constructor; [| done]. split; [done |]. simpl. by rewrite Hsk.
  - rewrite Hurl. simpl. rewrite dict_set_fresh by done.
    destruct (dispatch_all _ _ _ rest _ w)
      as [[w2 t2] [e|[rest' rt2]]] eqn:Hrun; [done |].
    unfold ret. intros [= <- <- <- <-]. rewrite ?app_nil_r.
    destruct (IH _ _ _ _ _ _ Hnd (Hrest _) Hrun) as (Hres & Hup & Hsites).
    unfold first_entry. rewrite Hre. split; [by rewrite Hres, <- app_assoc |].
    split; [simpl; by rewrite Hup |].
    constructor; [| done]. split; [done |]. simpl. by rewrite Hsk, Hre.
  - rewrite Hurl. simpl. rewrite dict_set_fresh by done.
    destruct (dispatch_all _ _ _ rest _ _)
      as [[w2 t2] [e|[rest' rt2]]] eqn:Hrun; [done |].
    unfold ret. intros [= <- <- <- <-]. rewrite ?app_nil_r.
    destruct (IH _ _ _ _ _ _ Hnd (Hrest _) Hrun) as (Hres & Hup & Hsites).
    unfold first_entry. rewrite Hre. split; [by rewrite Hres, <- app_assoc |].
    split.
    + destruct (unique_tor args); simpl; exact Hup.
    + constructor; [| done]. split; [done |]. simpl. rewrite Hsk, Hre. simpl.
      eauto.
Qed.

End FirstLoopResults.

(** ** The second loop, case by case *)

Section SecondLoop.
Context `{Ext : Externals}.

Lemma classify_result username name url net_info r error_text extracted time
    result :
  classify username name url net_info r error_text extracted time = inr result ->
  qr_username result = username /\ qr_site_name result = name /\
  qr_site_url_user result = url /\ qr_ids_data result = extracted /\
  qr_query_time result = time /\ qr_status result <> ILLEGAL /\
  (qr_status result = UNKNOWN <-> is_Some error_text) /\
  qr_context result = error_text.
Proof.
  unfold classify. intros H.
  repeat match type of H with
         | match ?x with _ => _ end = _ => destruct x
         | (if ?b then _ else _) = _ => destruct b
         end;
    try discriminate; injection H as <-; simpl;
    repeat split; try done; try (intros [? ?]; done); by eexists.
Qed.

Lemma classify_raises username name url net_info r error_text extracted time e :
  classify username name url net_info r error_text extracted time = inl e ->
  error_text = None /\
  (r = None \/
   (ni_errorType net_info = "message" /\ ni_errorMsg net_info = None /\
    e = TypeError "'in <string>' requires string as left operand, not NoneType") \/
   (ni_errorType net_info <> "message" /\
    ni_errorType net_info <> "status_code" /\
    ni_errorType net_info <> "response_url" /\
    e = ValueError ("Unknown Error Type '" +:+ ni_errorType net_info +:+
                    "' for site '" +:+ name +:+ "'"))).
Proof.
  unfold classify. destruct error_text as [ctx|]; [done |].
  intros H. split; [done |].
  destruct (String.eqb_spec (ni_errorType net_info) "message") as [Hm|Hm].
  { destruct r as [resp|]; [| by left]. simpl in H.
    destruct (ni_errorMsg net_info) as [[err|errs]|]; simpl in H;
      try (destruct (negb _); discriminate).
    right. left. by injection H as <-. }
  destruct (String.eqb_spec (ni_errorType net_info) "status_code") as [Hs|Hs].
  { destruct r as [resp|]; [| by left]. simpl in H.
    destruct (_ || _); discriminate. }
  destruct (String.eqb_spec (ni_errorType net_info) "response_url") as [Hr|Hr].
  { destruct r as [resp|]; [| by left]. simpl in H.
    destruct (_ && _); discriminate. }
  right. right. by injection H as <-.
Qed.

Lemma detect_failure_delivered failure_errors resp error_text :
  exists error_text',
    detect_failure failure_errors (Some resp) error_text = inr error_text' /\
    (is_Some error_text' \/
     (error_text' = error_text /\
      Forall (fun kc => str_in kc.1 (text resp) = false) failure_errors)).
Proof.
  induction failure_errors as [|[k c] rest IH]; simpl.
  - exists error_text. auto.
  - destruct (str_in k (text resp)) eqn:Hk.
    + exists (Some c). split; [done |]. left. by eexists.
    + destruct IH as (et & -> & Hcases). exists et. split; [done |].
      destruct Hcases as [Hsome|[-> Hall]]; [by left | right].
      split; [done |]. by constructor.
Qed.

(** The three ways in which one iteration of the second loop ends: it has
    nothing to do, it raises, or it fills the entry of the site and
    notifies the verdict. *)
Lemma collect_site_outcome username args name net_info results_total w :
  let run := collect_site username args name net_info results_total w in
  (~ pending_in results_total name /\ run = (w, [], inr results_total)) \/
  (pending_in results_total name /\
   exists e, collect_failure name net_info e /\ run = (w, [], inl e)) \/
  (exists pre rs post result rs1,
     results_total = pre ++ (name, rs) :: post /\ (name ∉ pre.*1) /\
     rs_status rs = None /\ rs_status rs1 = Some result /\
     rs_url_main rs1 = rs_url_main rs /\ rs_url_user rs1 = rs_url_user rs /\
     is_Some (rs_http_status rs1) /\
     qr_site_name result = name /\ qr_username result = username /\
     qr_site_url_user result = rs_url_user rs /\
     qr_status result <> ILLEGAL /\
     run = (w, [NotifyUpdate result], inr (pre ++ (name, rs1) :: post))).
Proof.
  intros run. subst run. unfold collect_site.
  destruct (dict_get results_total name) as [rs|] eqn:Hget.
  2: { left. split; [| done]. intros (rs & Hrs & _). congruence. }
  destruct (rs_status rs) as [st|] eqn:Hst.
  { left. split; [| done]. intros (rs' & Hrs & Hnone). congruence. }
  assert (Hpending : pending_in results_total name) by (exists rs; auto).
  destruct (ni_request_future net_info) as [future|] eqn:Hfut.
  2: { right. left. split; [done |]. eexists. split; [| reflexivity].
       left. auto. }
  assert (Hfill : forall r error_text result,
            classify username name (rs_url_user rs) net_info r error_text
                     (extracted_ids (ids_search args) r) (elapsed <$> r)
              = inr result ->
            forall http ids,
            exists pre rs0 post result0 rs1,
              results_total = pre ++ (name, rs0) :: post /\ (name ∉ pre.*1) /\
              rs_status rs0 = None /\ rs_status rs1 = Some result0 /\
              rs_url_main rs1 = rs_url_main rs0 /\
              rs_url_user rs1 = rs_url_user rs0 /\
              is_Some (rs_http_status rs1) /\
              qr_site_name result0 = name /\ qr_username result0 = username /\
              qr_site_url_user result0 = rs_url_user rs0 /\
              qr_status result0 <> ILLEGAL /\
              (w, [NotifyUpdate result],
               inr (dict_set results_total name
                      (mkResultsSite (rs_url_main rs) (rs_url_user rs)
                                     (Some result) (Some http) ids)))
              = (w, [NotifyUpdate result0], inr (pre ++ (name, rs1) :: post))
                :> World * list Event * (PyExn + list (string * ResultsSite))).
  { intros r error_text result Hc http ids.
    apply classify_result in Hc as (Hu & Hn & Hurl & _ & _ & Hill & _).
    destruct (dict_set_present results_total name rs
                (mkResultsSite (rs_url_main rs) (rs_url_user rs) (Some result)
                               (Some http) ids) Hget)
      as (pre & post & Hrt & Hpre & Hset).
    exists pre, rs, post, result,
      (mkResultsSite (rs_url_main rs) (rs_url_user rs) (Some result)
                     (Some http) ids).
    rewrite Hset. simpl. repeat split; done. }
  unfold bind, lift, emit, ret.
  destruct future as [resp|ex msg]; simpl.
  - destruct (detect_failure_delivered (default [] (ni_errors net_info)) resp
                (if (status_code resp =? 0)%Z
                 then Some "General Unknown Error" else None))
      as (error_text' & -> & Hcases).
    destruct (classify _ _ _ _ _ error_text' _ _) as [e|result] eqn:Hc.
    + right. left. split; [done |]. exists e. split; [| done].
      apply classify_raises in Hc as [-> Hwhy].
      destruct Hcases as [[? [=]]|[Hzero Hall]].
      destruct (Z.eqb_spec (status_code resp) 0); [done |].
      right. right. exists resp. split; [done |]. split; [done |].
      split; [done |]. destruct Hwhy as [[=]|[?|?]]; auto.
    + right. right. eapply Hfill. exact Hc.
  - destruct (get_response_throws ex msg) as (ctx & Hctx & Hresp).
    simpl in Hresp. rewrite Hresp.
    destruct (default [] (ni_errors net_info)) as [|[k c] rest] eqn:Herr; simpl.
    + right. right. change (classify username name (rs_url_user rs) net_info None (Some ctx) (extracted_ids (ids_search args) None) None) with (inr (mkQueryResult username name (rs_url_user rs) UNKNOWN (extracted_ids (ids_search args) None) None (Some ctx)) : PyExn + QueryResult).
      eapply (Hfill None (Some ctx)). reflexivity.
    + right. left. split; [done |]. eexists. split; [| reflexivity].
      right. left. exists ex, msg. rewrite Herr. auto.
Qed.

End SecondLoop.

Section SecondLoopResults.
Context `{Ext : Externals}.

Lemma dict_get_middle {V} (pre post : list (string * V)) k v :
  k ∉ pre.*1 -> dict_get (pre ++ (k, v) :: post) k = Some v.
Proof.
  induction pre as [|[k' v'] pre IH]; simpl.
  - intros _. by rewrite String.eqb_refl.
  - rewrite not_elem_of_cons. intros [Hne Hpre].
    destruct (String.eqb_spec k' k); [congruence | by apply IH].
Qed.

Lemma elem_dict_get {V} (d : list (string * V)) k v :
  NoDup d.*1 -> (k, v) ∈ d -> dict_get d k = Some v.
Proof.
  induction d as [|[k' v'] d IH]; simpl; [by intros _ ?%elem_of_nil |].
  rewrite NoDup_cons. intros [Hk Hnd] [[= -> ->]|Hin]%elem_of_cons.
  - by rewrite String.eqb_refl.
  - destruct (String.eqb_spec k' k) as [->|Hne]; [| by apply IH].
    exfalso. apply Hk. apply list_elem_of_fmap. by exists (k, v).
Qed.

Lemma filled_entry_refl username entry : filled_entry username entry entry.
Proof. split; auto. Qed.

Lemma filled_entry_trans username a b c :
  filled_entry username a b -> filled_entry username b c ->
  filled_entry username a c.
Proof.
  intros [Hab Hb] [Hbc Hc]. split; [congruence |].
  destruct Hb as [Hb|Hb].
  - rewrite <- Hb, <- Hab. exact Hc.
  - destruct Hc as [->|(Hnone & _)]; [by right |].
    destruct Hb as (_ & _ & _ & _ & r & Hr & _). congruence.
Qed.

Lemma filled_keys username before after :
  Forall2 (filled_entry username) before after -> after.*1 = before.*1.
Proof.
  induction 1 as [|a b ? ? [Hab _] _ IH]; [done |].
  rewrite !fmap_cons. by rewrite Hab, IH.
Qed.

Lemma filled_dict_get username before after n rs' :
  Forall2 (filled_entry username) before after ->
  dict_get after n = Some rs' ->
  exists rs, dict_get before n = Some rs /\ filled_entry username (n, rs) (n, rs').
Proof.
  induction 1 as [|[ka a] [kb b] before after [Hk Hab] _ IH]; simpl; [done |].
  simpl in Hk. subst kb.
  destruct (String.eqb_spec ka n) as [->|Hne]; [| exact IH].
  intros [= ->]. exists a. split; [done |]. by split.
Qed.

Lemma filled_pending username before after n :
  Forall2 (filled_entry username) before after ->
  pending_in after n -> pending_in before n.
Proof.
  intros Hall (rs' & Hget & Hnone).
  destruct (filled_dict_get _ _ _ _ _ Hall Hget) as (rs & Hrs & _ & Hfill).
  exists rs. split; [done |]. simpl in Hfill.
  destruct Hfill as [->|(Hst & _)]; done.
Qed.

Lemma collected_refl username results : collected username results [] results.
Proof.
  split; [| split]; [| by rewrite app_nil_r | constructor].
  apply Forall_Forall2_diag, Forall_forall. intros x _.
  apply filled_entry_refl.
Qed.

Lemma collected_trans username a t1 b t2 c :
  collected username a t1 b -> collected username b t2 c ->
  collected username a (t1 ++ t2) c.
Proof.
  intros (Hab & Hpab & Htab) (Hbc & Hpbc & Htbc). split; [| split].
  - eapply Forall2_trans; [| exact Hab | exact Hbc].
    intros x y z. apply filled_entry_trans.
  - rewrite Hpbc, Hpab, updates_app. by rewrite <- app_assoc.
  - by apply Forall_app.
Qed.

(** The second loop when it returns: the network is as it was, the entries
    are filled, the verdicts written are the verdicts notified, and no
    entry of a visited site is left to fill. *)
Lemma collect_all_returns username args site_data results_total w w' t results :
  collect_all username args site_data results_total w = (w', t, inr results) ->
  w' = w /\ collected username results_total t results /\
  forall n, n ∈ site_data.*1 -> ~ pending_in results n.
Proof.
  revert results_total w t.
  induction site_data as [|[name net_info] rest IH]; intros results_total w t.
  { simpl. unfold ret. intros [= <- <- <-].
    split; [done |]. split; [apply collected_refl |]. by intros n ?%elem_of_nil. }
  cbn [collect_all]. unfold bind.
  destruct (collect_site_outcome username args name net_info results_total w)
    as [[Hnot ->]|[(_ & e & _ & ->)|(pre & rs & post & result & rs1 & -> & Hpre &
          Hnone & Hsome & Hmain & Huser & Hhttp & Hname & Husername & Hurl &
          Hill & ->)]]; [| done |].
  - destruct (collect_all _ _ rest results_total w) as [[w2 t2] [e|rt2]] eqn:Hrun;
      [done |].
    intros [= <- <- <-]. destruct (IH _ _ _ Hrun) as (-> & Hcol & Hdone).
    split; [done |]. split; [done |].
    intros n [->|Hn]%elem_of_cons; [| by apply Hdone].
    intros Hp. apply Hnot. destruct Hcol as (Hfill & _).
    by eapply filled_pending.
  - destruct (collect_all _ _ rest _ w) as [[w2 t2] [e|rt2]] eqn:Hrun; [done |].
    intros [= <- <- <-]. destruct (IH _ _ _ Hrun) as (-> & Hcol & Hdone).
    split; [done |].
    assert (Hstep : collected username (pre ++ (name, rs) :: post)
                      [NotifyUpdate result] (pre ++ (name, rs1) :: post)).
    { split; [| split].
      - apply Forall2_app.
        + apply Forall_Forall2_diag, Forall_forall. intros x _.
          apply filled_entry_refl.
        + constructor.
          * split; [done |]. right. simpl. split; [done |].
            split; [done |]. split; [done |]. split; [done |]. eauto.
          * apply Forall_Forall2_diag, Forall_forall. intros x _.
            apply filled_entry_refl.
      - rewrite !omap_app. simpl. rewrite Hnone, Hsome. simpl.
        rewrite <- app_assoc. apply Permutation_app_head.
        apply Permutation_cons_append.
      - repeat constructor. exact Hill. }
    split; [exact (collected_trans _ _ _ _ _ _ Hstep Hcol) |].
    intros n [->|Hn]%elem_of_cons; [| by apply Hdone].
    intros Hp. destruct Hcol as (Hfill & _).
    apply (filled_pending _ _ _ _ Hfill) in Hp as (rs' & Hget & Hst).
    rewrite dict_get_middle in Hget by done. injection Hget as <-. congruence.
Qed.

(** The second loop when it raises: the site at which it stops. *)
Lemma collect_all_raises username args site_data results_total w w' t e :
  collect_all username args site_data results_total w = (w', t, inl e) ->
  exists name net_info,
    (name, net_info) ∈ site_data /\ pending_in results_total name /\
    collect_failure name net_info e.
Proof.
  revert results_total w t.
  induction site_data as [|[name net_info] rest IH]; intros results_total w t;
    [done |].
  cbn [collect_all]. unfold bind.
  destruct (collect_site_outcome username args name net_info results_total w)
    as [[Hnot ->]|[(Hp & e' & Hwhy & ->)|(pre & rs & post & result & rs1 & -> &
          Hpre & Hnone & Hsome & Hmain & Huser & Hhttp & Hname & Husername &
          Hurl & Hill & ->)]].
  - destruct (collect_all _ _ rest results_total w) as [[w2 t2] [e2|rt2]] eqn:Hrun;
      [| done].
    intros [= <- <- <-]. destruct (IH _ _ _ Hrun) as (n & ni & Hin & Hp & Hwhy).
    exists n, ni. split; [by apply list_elem_of_further | done].
  - intros [= <- <- <-]. exists name, net_info.
    split; [apply list_elem_of_here | done].
  - destruct (collect_all _ _ rest _ w) as [[w2 t2] [e2|rt2]] eqn:Hrun; [| done].
    intros [= <- <- <-]. destruct (IH _ _ _ Hrun) as (n & ni & Hin & Hp & Hwhy).
    exists n, ni. split; [by apply list_elem_of_further |]. split; [| done].
    destruct Hp as (rs' & Hget & Hst).
    destruct (decide (n = name)) as [->|Hne].
    + rewrite dict_get_middle in Hget by done. congruence.
    + exists rs'. split; [| done]. revert Hget.
      clear -Hne. induction pre as [|[k v] pre IHp]; simpl.
      * destruct (String.eqb_spec name n); [congruence | done].
      * destruct (String.eqb_spec k n); [done | exact IHp].
Qed.

(** The events of the second loop are verdicts on probed sites, whatever
    its outcome. *)
Lemma collect_all_events username args site_data results_total :
  triple (collect_all username args site_data results_total)
         collect_event (fun _ => True).
Proof.
  revert results_total.
  induction site_data as [|[name net_info] rest IH]; intros results_total; simpl.
  { by apply triple_ret. }
  eapply triple_bind with (Q := fun _ => True); [| intros; apply IH].
  intros w.
  destruct (collect_site_outcome username args name net_info results_total w)
    as [[Hnot ->]|[(_ & e & _ & ->)|(pre & rs & post & result & rs1 & -> & Hpre &
          Hnone & Hsome & Hmain & Huser & Hhttp & Hname & Husername & Hurl &
          Hill & ->)]]; unfold run_trace, run_result; simpl;
    (split; [| done]); repeat constructor. exact Hill.
Qed.

(** A round in terms of its two loops. *)
Lemma sherlock_unfold username site_data args id_type w :
  sherlock username site_data args id_type w =
    match dispatch_all username id_type args site_data [] w with
    | (w1, t1, inl e) =>
        (w1, NotifyStart username id_type :: NewSession (max_workers site_data) ::
               t1, inl e)
    | (w1, t1, inr (site_data', results_total)) =>
        match collect_all username args site_data' results_total w1 with
        | (w2, t2, inl e) =>
            (w2, NotifyStart username id_type ::
                   NewSession (max_workers site_data) :: t1 ++ t2, inl e)
        | (w2, t2, inr results) =>
            (w2, NotifyStart username id_type ::
                   NewSession (max_workers site_data) ::
                   t1 ++ t2 ++ [NotifyFinish],
             inr (site_data', results))
        end
    end.
Proof.
  unfold sherlock, bind, emit, ret. simpl.
  destruct (dispatch_all _ _ _ _ _ _) as [[w1 t1] [e|[sd1 rt1]]]; [done |].
  by destruct (collect_all _ _ _ _ _) as [[w2 t2] [e|rt2]].
Qed.

End SecondLoopResults.

(** ** A round that returns *)

Section RoundReturns.
Context `{Ext : Externals}.

Lemma Forall2_elem_r {A B} (P : A -> B -> Prop) (l : list A) (k : list B) y :
  Forall2 P l k -> y ∈ k -> exists x, x ∈ l /\ P x y.
Proof.
  induction 1 as [|a b l k Hab _ IH]; [by intros ?%elem_of_nil |].
  intros [->|Hy]%elem_of_cons.
  - exists a. split; [apply list_elem_of_here | done].
  - destruct (IH Hy) as (x & Hx & HP). exists x.
    split; [by apply list_elem_of_further | done].
Qed.

Lemma dispatched_names username id_type args site_data site_data' :
  Forall2 (dispatched_site username id_type args) site_data site_data' ->
  site_data'.*1 = site_data.*1.
Proof.
  induction 1 as [|a b ? ? [Hab _] _ IH]; [done |].
  rewrite !fmap_cons. by rewrite Hab, IH.
Qed.

(** The templates of the sites that are not skipped can be filled when the
    first loop returns. *)
Lemma dispatch_all_formats username id_type args site_data results_total w
    w' t out :
  dispatch_all username id_type args site_data results_total w = (w', t, inr out) ->
  forall name net_info,
    (name, net_info) ∈ site_data ->
    skipped net_info id_type (tags args) = false ->
    is_Some (format (ni_url net_info) username) /\
    (regex_rejects net_info username = false ->
     is_Some (format (probe_template net_info) username)).
Proof.
  revert results_total w w' t out.
  induction site_data as [|[name net_info] rest IH];
    intros results_total w w' t out; [by intros _ n ni ?%elem_of_nil |].
  cbn [dispatch_all]. unfold bind.
  destruct (dispatch_site_cases username id_type args name net_info
              results_total w)
    as [[Hsk ->]|[Hsk [[Hurl ->]|(url & Hurl & [[Hre ->]|[Hre [[Hp ->]|
         (url_probe & Hp & ->)]]])]]]; try done;
    (destruct (dispatch_all _ _ _ rest _ _) as [[w2 t2] [e|out2]] eqn:Hrun;
     [done |]); intros _ n ni [[= -> ->]|Hin]%elem_of_cons Hn;
    try (by eapply IH); try congruence.
  - rewrite Hurl. split; [by eexists | congruence].
  - rewrite Hurl, Hp. split; [by eexists |]. intros _. by eexists.
Qed.

(** The first loop when it raises: the template that cannot be filled. *)
Lemma dispatch_all_raises username id_type args site_data results_total w
    w' t e :
  dispatch_all username id_type args site_data results_total w = (w', t, inl e) ->
  exists name net_info template,
    (name, net_info) ∈ site_data /\
    skipped net_info id_type (tags args) = false /\
    format template username = None /\ e = FormatError template /\
    (template = ni_url net_info \/
     (regex_rejects net_info username = false /\
      template = probe_template net_info)).
Proof.
  revert results_total w w' t.
  induction site_data as [|[name net_info] rest IH];
    intros results_total w w' t; [done |].
  cbn [dispatch_all]. unfold bind.
  assert (Hlater : forall rt w0 w2 t2 e2,
            dispatch_all username id_type args rest rt w0 = (w2, t2, inl e2) ->
            e2 = e ->
            exists n ni template,
              (n, ni) ∈ (name, net_info) :: rest /\
              skipped ni id_type (tags args) = false /\
              format template username = None /\ e = FormatError template /\
              (template = ni_url ni \/
               (regex_rejects ni username = false /\
                template = probe_template ni))).
  { intros rt w0 w2 t2 e2 Hrun <-.
    destruct (IH _ _ _ _ Hrun) as (n & ni & tpl & Hin & Hrest).
    exists n, ni, tpl. split; [by apply list_elem_of_further | done]. }
  destruct (dispatch_site_cases username id_type args name net_info
              results_total w)
    as [[Hsk ->]|[Hsk [[Hurl ->]|(url & Hurl & [[Hre ->]|[Hre [[Hp ->]|
         (url_probe & Hp & ->)]]])]]].
  - destruct (dispatch_all _ _ _ rest _ _) as [[w2 t2] [e2|[rest' rt2]]] eqn:Hrun;
      simpl; [| done]. intros [= _ _ He]. by eapply Hlater.
  - intros [= _ _ <-]. exists name, net_info, (ni_url net_info).
    split; [apply list_elem_of_here |]. repeat split; try done. by left.
  - destruct (dispatch_all _ _ _ rest _ _) as [[w2 t2] [e2|[rest' rt2]]] eqn:Hrun;
      simpl; [| done]. intros [= _ _ He]. by eapply Hlater.
  - intros [= _ _ <-]. exists name, net_info, (probe_template net_info).
    split; [apply list_elem_of_here |]. repeat split; try done. by right.
  - destruct (dispatch_all _ _ _ rest _ _) as [[w2 t2] [e2|[rest' rt2]]] eqn:Hrun;
      simpl; [| done]. intros [= _ _ He]. by eapply Hlater.
Qed.

Lemma first_results_elem username id_type args site_data name rs :
  (name, rs) ∈ first_results username id_type args site_data ->
  exists net_info url,
    (name, net_info) ∈ site_data /\
    skipped net_info id_type (tags args) = false /\
    format (ni_url net_info) username = Some url /\
    rs = first_entry username name net_info url.
Proof.
  unfold first_results. intros ([n ni] & Hin & Hsome)%list_elem_of_omap.
  simpl in Hsome. destruct (skipped ni id_type (tags args)) eqn:Hsk; [done |].
  destruct (format (ni_url ni) username) as [url|] eqn:Hurl; [| done].
  simpl in Hsome. injection Hsome as <- <-.
  exists ni, url. repeat split; done.
Qed.

Lemma first_results_keys username id_type args site_data :
  (forall name net_info,
     (name, net_info) ∈ site_data ->
     skipped net_info id_type (tags args) = false ->
     is_Some (format (ni_url net_info) username)) ->
  (first_results username id_type args site_data).*1 =
    (applicable site_data id_type (tags args)).*1.
Proof.
  unfold applicable.
  induction site_data as [|[name net_info] rest IH]; intros Hfmt; [done |].
  rewrite first_results_cons, filter_cons.
  assert (IH' := IH (fun n ni Hin => Hfmt n ni (list_elem_of_further _ _ _ Hin))).
  destruct (skipped net_info id_type (tags args)) eqn:Hsk.
  - rewrite decide_False by (simpl; congruence). exact IH'.
  - rewrite decide_True by done.
    destruct (Hfmt name net_info (list_elem_of_here _ _) Hsk) as [url ->].
    cbn [fmap option_fmap option_map]. rewrite !fmap_cons. by rewrite IH'.
Qed.

Lemma applicable_NoDup site_data id_type tags :
  NoDup site_data.*1 -> NoDup (applicable site_data id_type tags).*1.
Proof.
  unfold applicable.
  induction site_data as [|[name net_info] rest IH]; [done |].
  intros Hnd. rewrite fmap_cons in Hnd. apply NoDup_cons in Hnd as [Hname Hnd].
  rewrite filter_cons. destruct (decide _); [| by apply IH].
  rewrite fmap_cons. apply NoDup_cons. split; [| by apply IH].
  intros ([n ni] & Heq & [_ Hin]%list_elem_of_filter)%list_elem_of_fmap.
  simpl in Heq. subst n.
  apply Hname. apply list_elem_of_fmap. by exists (name, ni).
Qed.

(** A round that returns, in terms of its two loops. *)
Lemma sherlock_returns username site_data args id_type w w' t site_data' results :
  NoDup site_data.*1 ->
  sherlock username site_data args id_type w = (w', t, inr (site_data', results)) ->
  exists t1 t2,
    t = NotifyStart username id_type :: NewSession (max_workers site_data) ::
        t1 ++ t2 ++ [NotifyFinish] /\
    updates t1 = omap (fun entry => rs_status entry.2)
                      (first_results username id_type args site_data) /\
    collected username (first_results username id_type args site_data) t2 results /\
    results.*1 = (applicable site_data id_type (tags args)).*1 /\
    Forall2 (dispatched_site username id_type args) site_data site_data' /\
    (forall n, ~ pending_in results n).
Proof.
  intros Hnd. rewrite sherlock_unfold.
  destruct (dispatch_all username id_type args site_data [] w)
    as [[w1 t1] [e|[sd1 rt1]]] eqn:Hd; [done |].
  destruct (collect_all username args sd1 rt1 w1) as [[w2 t2] [e|rt2]] eqn:Hc;
    [done |].
  intros [= <- <- <- <-].
  assert (Hempty : forall n, n ∈ site_data.*1 ->
                             n ∉ ([] : list (string * ResultsSite)).*1).
  { intros n _. apply not_elem_of_nil. }
  destruct (dispatch_all_returns _ _ _ _ _ _ _ _ _ _ Hnd Hempty Hd)
    as (Hrt & Hup & Hsites).
  simpl in Hrt. subst rt1.
  destruct (collect_all_returns _ _ _ _ _ _ _ _ Hc) as (_ & Hcol & Hdone).
  assert (Hkeys : rt2.*1 = (applicable site_data id_type (tags args)).*1).
  { destruct Hcol as (Hfill & _). rewrite (filled_keys _ _ _ Hfill).
    apply first_results_keys. intros n ni Hin Hsk.
    by destruct (dispatch_all_formats _ _ _ _ _ _ _ _ _ Hd n ni Hin Hsk). }
  exists t1, t2. split; [done |]. split; [done |]. split; [done |].
  split; [done |]. split; [done |].
  intros n Hp. apply (Hdone n); [| done].
  rewrite (dispatched_names _ _ _ _ _ Hsites).
  destruct Hp as (rs & Hget & _). apply dict_get_Some_elem in Hget.
  assert (Hn : n ∈ rt2.*1) by (apply list_elem_of_fmap; by exists (n, rs)).
  rewrite Hkeys in Hn. unfold applicable in Hn.
  apply list_elem_of_fmap in Hn as ([n' ni] & -> & [_ Hin]%list_elem_of_filter).
  apply list_elem_of_fmap. by exists (n', ni).
Qed.

Lemma updates_round username id_type n t1 t2 :
  updates (NotifyStart username id_type :: NewSession n ::
           t1 ++ t2 ++ [NotifyFinish]) = updates t1 ++ updates t2.
Proof.
  change (NotifyStart username id_type :: NewSession n :: t1 ++ t2 ++ [NotifyFinish])
    with ([NotifyStart username id_type; NewSession n] ++ t1 ++ t2 ++ [NotifyFinish]).
  rewrite !updates_app. simpl. by rewrite app_nil_r.
Qed.

(** The entries of the results of a round that returns. *)
Lemma sherlock_entries username site_data args id_type w w' t site_data' results
    name rs :
  NoDup site_data.*1 ->
  sherlock username site_data args id_type w = (w', t, inr (site_data', results)) ->
  (name, rs) ∈ results ->
  exists net_info url result,
    (name, net_info) ∈ site_data /\
    skipped net_info id_type (tags args) = false /\
    format (ni_url net_info) username = Some url /\
    rs_status rs = Some result /\ NotifyUpdate result ∈ t /\
    rs_url_main rs = ni_urlMain net_info /\
    is_Some (rs_http_status rs) /\
    qr_site_name result = name /\ qr_username result = username /\
    if regex_rejects net_info username
    then rs = first_entry username name net_info url
    else rs_url_user rs = Some url /\ qr_site_url_user result = Some url /\
         qr_status result <> ILLEGAL.
Proof.
  intros Hnd Hrun Hin.
  destruct (sherlock_returns _ _ _ _ _ _ _ _ _ Hnd Hrun)
    as (t1 & t2 & -> & Hup1 & (Hfill & Hperm & Hev) & Hkeys & Hsites & Hdone).
  destruct (Forall2_elem_r _ _ _ _ Hfill Hin) as ([n rs0] & Hin0 & Hn & Hrel).
  simpl in Hn, Hrel. subst n.
  destruct (first_results_elem _ _ _ _ _ _ Hin0)
    as (net_info & url & Hsite & Hsk & Hurl & Hrs0).
  assert (Hget : dict_get results name = Some rs).
  { apply elem_dict_get; [| done]. rewrite Hkeys. by apply applicable_NoDup. }
  assert (Hnotify : forall result, rs_status rs = Some result ->
                                   NotifyUpdate result ∈
                                     NotifyStart username id_type ::
                                     NewSession (max_workers site_data) ::
                                     t1 ++ t2 ++ [NotifyFinish]).
  { intros result Hres.
    assert (Hr : result ∈ omap (fun entry => rs_status entry.2) results).
    { apply list_elem_of_omap. by exists (name, rs). }
    rewrite Hperm, <- Hup1, <- updates_app in Hr.
    unfold updates in Hr. apply list_elem_of_omap in Hr as (ev & Hev' & Hsome).
    destruct ev; simplify_eq.
    do 2 apply list_elem_of_further. rewrite app_assoc.
    apply elem_of_app. by left. }
  exists net_info, url.
  assert (Hentry := Hrs0). unfold first_entry in Hrs0.
  destruct (regex_rejects net_info username) eqn:Hre.
  - destruct Hrel as [Heq|(Hnone & _)]; [| by rewrite Hrs0 in Hnone].
    simpl in Heq. subst rs.
    exists (illegal_result username name url).
    split; [done |]. split; [done |]. split; [done |].
    split; [by rewrite Hrs0 |].
    split; [apply Hnotify; by rewrite Hrs0 |].
    split; [by rewrite Hrs0 |]. split; [rewrite Hrs0; by eexists |].
    done.
  - destruct Hrel as [Heq|(_ & Hmain & Huser & Hhttp & result & Hres & Hname &
                           Husername & Hurl')].
    { exfalso. simpl in Heq. subst rs. apply (Hdone name). exists rs0.
      split; [done |]. by rewrite Hrs0. }
    exists result. rewrite Hrs0 in Hmain, Huser, Hurl'. simpl in *.
    split; [done |]. split; [done |]. split; [done |]. split; [done |].
    split; [by apply Hnotify |]. split; [done |]. split; [done |].
    split; [done |]. split; [done |]. split; [done |]. split; [done |].
    assert (Hr : result ∈ omap (fun entry => rs_status entry.2) results).
    { apply list_elem_of_omap. by exists (name, rs). }
    rewrite Hperm in Hr. apply elem_of_app in Hr as [Hr|Hr].
    + apply list_elem_of_omap in Hr as ([n1 rs1] & Hin1 & Hst1).
      simpl in Hst1.
      destruct (first_results_elem _ _ _ _ _ _ Hin1)
        as (ni1 & url1 & Hsite1 & Hsk1 & Hurl1 & ->).
      unfold first_entry in Hst1.
      destruct (regex_rejects ni1 username) eqn:Hre1; simpl in Hst1; [| done].
      injection Hst1 as <-. simpl in Hname. subst n1.
      assert (ni1 = net_info) as -> by (eapply dict_key_unique; eauto).
      congruence.
    + unfold updates in Hr.
      apply list_elem_of_omap in Hr as (ev & Hev' & Hsome).
      destruct ev; simplify_eq. rewrite Forall_forall in Hev.
      by apply (Hev _ Hev').
Qed.

End RoundReturns.

(** ** A round as a whole *)

Section RoundTheorems.
Context `{Ext : Externals}.

(** The trace of a round, whatever its outcome: the events of the first
    loop, then the ones of the second loop. *)
Lemma sherlock_loops username site_data args id_type w :
  exists t1 t2,
    run_trace (sherlock username site_data args id_type w) =
      NotifyStart username id_type :: NewSession (max_workers site_data) ::
      t1 ++ t2 ++
      match run_result (sherlock username site_data args id_type w) with
      | inr _ => [NotifyFinish]
      | inl _ => []
      end /\
    Forall (fun ev => exists name net_info,
                        (name, net_info) ∈ site_data /\
                        site_event username id_type args name net_info ev) t1 /\
    network_events t1 = with_resets (unique_tor args) (requests t1) /\
    Forall collect_event t2.
Proof.
  rewrite sherlock_unfold.
  destruct (dispatch_all_events username id_type args site_data [] w) as [Hev1 _].
  pose proof (dispatch_all_network username id_type args site_data [] w) as Hnet.
  cbn zeta in Hnet.
  destruct (dispatch_all username id_type args site_data [] w)
    as [[w1 t1] [e|[sd1 rt1]]] eqn:Hd.
  { exists t1, []. unfold run_trace, run_result in *. simpl in *.
    rewrite app_nil_r. split; [done |]. split; [done |]. split; [done |].
    constructor. }
  destruct (collect_all_events username args sd1 rt1 w1) as [Hev2 _].
  destruct (collect_all username args sd1 rt1 w1) as [[w2 t2] [e|rt2]];
    exists t1, t2; unfold run_trace, run_result in *; simpl in *;
    rewrite ?app_nil_r; split; done.
Qed.

Lemma site_event_dispatch username id_type args name net_info ev :
  site_event username id_type args name net_info ev -> dispatch_event ev.
Proof.
  intros [_ Hev]. destruct ev; try done.
  by destruct Hev as (_ & url & _ & ->).
Qed.

Lemma collect_event_quiet t :
  Forall collect_event t -> requests t = [] /\ network_events t = [].
Proof.
  induction 1 as [|ev t Hev _ [IH1 IH2]]; [done |]. by destruct ev.
Qed.

(** The verdicts that a round notifies are the ones it returns, and each is
    for the site under whose name it is returned. *)
Lemma sherlock_updates username site_data args id_type w w' t site_data' results :
  NoDup site_data.*1 ->
  sherlock username site_data args id_type w = (w', t, inr (site_data', results)) ->
  updates t ≡ₚ omap (fun entry => rs_status entry.2) results /\
  qr_site_name <$> omap (fun entry => rs_status entry.2) results = results.*1.
Proof.
  intros Hnd Hrun. split.
  - destruct (sherlock_returns _ _ _ _ _ _ _ _ _ Hnd Hrun)
      as (t1 & t2 & -> & Hup1 & (_ & Hperm & _) & _).
    by rewrite updates_round, Hup1, Hperm.
  - assert (Hall : forall name rs,
              (name, rs) ∈ results ->
              exists result, rs_status rs = Some result /\
                             qr_site_name result = name).
    { intros name rs Hin.
      destruct (sherlock_entries _ _ _ _ _ _ _ _ _ _ _ Hnd Hrun Hin)
        as (ni & url & result & _ & _ & _ & Hst & _ & _ & _ & Hname & _).
      by exists result. }
    clear Hrun. induction results as [|[name rs] results IH]; [done |].
    destruct (Hall name rs (list_elem_of_here _ _)) as (result & Hst & Hname).
    simpl. rewrite Hst. simpl. rewrite Hname. f_equal.
    apply IH. intros n r Hin. apply Hall. by apply list_elem_of_further.
Qed.

(** The sites of the verdicts notified by a round that returns. *)
Lemma sherlock_update_sites username site_data args id_type w w' t site_data'
    results :
  NoDup site_data.*1 ->
  sherlock username site_data args id_type w = (w', t, inr (site_data', results)) ->
  qr_site_name <$> updates t ≡ₚ (applicable site_data id_type (tags args)).*1 /\
  NoDup (qr_site_name <$> updates t).
Proof.
  intros Hnd Hrun.
  destruct (sherlock_updates _ _ _ _ _ _ _ _ _ Hnd Hrun) as [Hperm Hnames].
  destruct (sherlock_returns _ _ _ _ _ _ _ _ _ Hnd Hrun)
    as (_ & _ & _ & _ & _ & Hkeys & _).
  assert (Hsites : qr_site_name <$> updates t ≡ₚ
                     (applicable site_data id_type (tags args)).*1).
  { by rewrite Hperm, Hnames, Hkeys. }
  split; [done |]. rewrite Hsites. by apply applicable_NoDup.
Qed.

(** X3: a round that returns has handed to the sink exactly one verdict for
    each site of the catalog that it does not skip, and none for another
    site; each verdict is for the identifier of the round. *)
Theorem X3_one_verdict_for_each_applicable_site
    username site_data args id_type w site_data' results :
  NoDup site_data.*1 ->
  let run := sherlock username site_data args id_type w in
  run_result run = inr (site_data', results) ->
  qr_site_name <$> updates (run_trace run) ≡ₚ
    (applicable site_data id_type (tags args)).*1 /\
  NoDup (qr_site_name <$> updates (run_trace run)) /\
  Forall (fun result => qr_username result = username) (updates (run_trace run)).
Proof.
  intros Hnd run Hres. subst run.
  destruct (sherlock username site_data args id_type w) as [[w' t] r] eqn:Hrun.
  unfold run_result, run_trace in *. simpl in *. subst r.
  destruct (sherlock_updates _ _ _ _ _ _ _ _ _ Hnd Hrun) as [Hperm _].
  destruct (sherlock_update_sites _ _ _ _ _ _ _ _ _ Hnd Hrun) as [Hsites Hnodup].
  split; [done |]. split; [done |].
  apply Forall_forall. intros result Hin. rewrite Hperm in Hin.
  apply list_elem_of_omap in Hin as ([name rs] & Hin & Hst). simpl in Hst.
  destruct (sherlock_entries _ _ _ _ _ _ _ _ _ _ _ Hnd Hrun Hin)
    as (ni & url & result' & _ & _ & _ & Hst' & _ & _ & _ & _ & Hu & _).
  congruence.
Qed.

(** X4: the results that a round returns have one entry for each site that
    it does not skip, in the order of the catalog; each entry is complete
    and holds the verdict that the sink has received for the site. *)
Theorem X4_results_hold_the_notified_verdicts
    username site_data args id_type w site_data' results :
  NoDup site_data.*1 ->
  let run := sherlock username site_data args id_type w in
  run_result run = inr (site_data', results) ->
  results.*1 = (applicable site_data id_type (tags args)).*1 /\
  omap (fun entry => rs_status entry.2) results ≡ₚ updates (run_trace run) /\
  forall name rs,
    (name, rs) ∈ results ->
    exists net_info result,
      (name, net_info) ∈ site_data /\
      rs_url_main rs = ni_urlMain net_info /\
      rs_status rs = Some result /\
      qr_site_name result = name /\ qr_username result = username /\
      NotifyUpdate result ∈ run_trace run /\
      is_Some (rs_url_user rs) /\ is_Some (rs_http_status rs).
Proof.
  intros Hnd run Hres. subst run.
  destruct (sherlock username site_data args id_type w) as [[w' t] r] eqn:Hrun.
  unfold run_result, run_trace in *. simpl in *. subst r.
  destruct (sherlock_updates _ _ _ _ _ _ _ _ _ Hnd Hrun) as [Hperm _].
  destruct (sherlock_returns _ _ _ _ _ _ _ _ _ Hnd Hrun)
    as (_ & _ & _ & _ & _ & Hkeys & _).
  split; [done |]. split; [done |].
  intros name rs Hin.
  destruct (sherlock_entries _ _ _ _ _ _ _ _ _ _ _ Hnd Hrun Hin)
    as (ni & url & result & Hsite & _ & _ & Hst & Hnot & Hmain & Hhttp & Hname &
        Hu & Hcase).
  exists ni, result.
  split; [done |]. split; [done |]. split; [done |]. split; [done |].
  split; [done |]. split; [done |]. split; [| done].
  destruct (regex_rejects ni username) eqn:Hre.
  - subst rs. unfold first_entry. rewrite Hre. by eexists.
  - destruct Hcase as (-> & _). by eexists.
Qed.

(** X5: for an identifier that the regular expression of a site rejects, the
    round sends no request to the site; when it returns, the sink has
    received one verdict for the site, [ILLEGAL] with no response time, and
    the entry of the site holds it with an empty user URL and an empty HTTP
    status. *)
Theorem X5_rejected_identifier_is_not_probed
    username site_data args id_type w name net_info :
  NoDup site_data.*1 ->
  (name, net_info) ∈ site_data ->
  skipped net_info id_type (tags args) = false ->
  regex_rejects net_info username = true ->
  let run := sherlock username site_data args id_type w in
  (name ∉ (requests (run_trace run)).*1) /\
  forall site_data' results,
    run_result run = inr (site_data', results) ->
    exists url,
      format (ni_url net_info) username = Some url /\
      filter (fun result => qr_site_name result = name) (updates (run_trace run))
        = [mkQueryResult username name (Some url) ILLEGAL [] None None] /\
      dict_get results name =
        Some (mkResultsSite (ni_urlMain net_info) (Some "")
                (Some (mkQueryResult username name (Some url) ILLEGAL [] None None))
                (Some HttpEmpty) None).
Proof.
  intros Hnd Hsite Hsk Hre run. subst run. split.
  - destruct (sherlock_loops username site_data args id_type w)
      as (t1 & t2 & -> & Hev1 & _ & Hev2).
    change (NotifyStart username id_type :: NewSession (max_workers site_data) ::
            t1 ++ t2 ++ _)
      with ([NotifyStart username id_type; NewSession (max_workers site_data)] ++
            t1 ++ t2 ++
            match run_result (sherlock username site_data args id_type w) with
            | inr _ => [NotifyFinish]
            | inl _ => []
            end).
    rewrite !requests_app.
    destruct (collect_event_quiet _ Hev2) as [-> _].
    assert (Hlast : requests
                      match run_result (sherlock username site_data args id_type w)
                      with inr _ => [NotifyFinish] | inl _ => [] end = []).
    { by destruct (run_result _). }
    rewrite Hlast. simpl. rewrite app_nil_r.
    intros ([n rq] & Hn & Hin)%list_elem_of_fmap. simpl in Hn. subst n.
    unfold requests in Hin. apply list_elem_of_omap in Hin as (ev & Hin & Hsome).
    rewrite Forall_forall in Hev1.
    destruct (Hev1 _ Hin) as (n & ni & Hin' & _ & Hev).
    destruct ev; try done. injection Hsome as -> ->.
    destruct Hev as (-> & Hre' & _).
    assert (ni = net_info) as -> by (eapply dict_key_unique; eauto).
    congruence.
  - intros site_data' results Hres.
    destruct (sherlock username site_data args id_type w) as [[w' t] r] eqn:Hrun.
    unfold run_result, run_trace in *. simpl in *. subst r.
    destruct (sherlock_update_sites _ _ _ _ _ _ _ _ _ Hnd Hrun)
      as [Hsites Hnodup].
    destruct (sherlock_returns _ _ _ _ _ _ _ _ _ Hnd Hrun)
      as (_ & _ & _ & _ & _ & Hkeys & _).
    assert (Hname : name ∈ results.*1).
    { rewrite Hkeys. apply list_elem_of_fmap. exists (name, net_info).
      split; [done |]. by apply list_elem_of_filter. }
    apply list_elem_of_fmap in Hname as ([n rs] & Hn & Hin). simpl in Hn. subst n.
    destruct (sherlock_entries _ _ _ _ _ _ _ _ _ _ _ Hnd Hrun Hin)
      as (ni & url & result & Hsite' & _ & Hurl & Hst & Hnot & _ & _ & Hname &
          _ & Hcase).
    assert (ni = net_info) as -> by (eapply dict_key_unique; eauto).
    rewrite Hre in Hcase. unfold first_entry in Hcase. rewrite Hre in Hcase.
    subst rs. simpl in Hst. injection Hst as <-.
    exists url. split; [done |]. split.
    + assert (Hmem : illegal_result username name url ∈
                       filter (fun result => qr_site_name result = name)
                              (updates t)).
      { apply list_elem_of_filter. split; [done |].
        unfold updates. apply list_elem_of_omap.
        by exists (NotifyUpdate (illegal_result username name url)). }
      pose proof (count_image_le_1 qr_site_name (updates t) name Hnodup) as Hle.
      destruct (filter _ (updates t)) as [|r [|r' rest]] eqn:Hf.
      * by apply elem_of_nil in Hmem.
      * apply list_elem_of_singleton in Hmem. by subst r.
      * simpl in Hle. lia.
    + apply elem_dict_get; [| done]. rewrite Hkeys. by apply applicable_NoDup.
Qed.

End RoundTheorems.

(** ** The requests of a round *)

Section RoundRequests.
Context `{Ext : Externals}.

(** The requests of a round are the ones of its first loop. *)
Lemma sherlock_requests username site_data args id_type w name rq :
  (name, rq) ∈ requests (run_trace (sherlock username site_data args id_type w)) ->
  exists net_info url_probe,
    (name, net_info) ∈ site_data /\
    skipped net_info id_type (tags args) = false /\
    regex_rejects net_info username = false /\
    format (probe_template net_info) username = Some url_probe /\
    rq = site_request args net_info url_probe.
Proof.
  destruct (sherlock_loops username site_data args id_type w)
    as (t1 & t2 & -> & Hev1 & _ & Hev2).
  change (NotifyStart username id_type :: NewSession (max_workers site_data) ::
          t1 ++ t2 ++ _)
    with ([NotifyStart username id_type; NewSession (max_workers site_data)] ++
          t1 ++ t2 ++
          match run_result (sherlock username site_data args id_type w) with
          | inr _ => [NotifyFinish]
          | inl _ => []
          end).
  rewrite !requests_app.
  destruct (collect_event_quiet _ Hev2) as [-> _].
  assert (Hlast : requests
                    match run_result (sherlock username site_data args id_type w)
                    with inr _ => [NotifyFinish] | inl _ => [] end = []).
  { by destruct (run_result _). }
  rewrite Hlast. simpl. rewrite app_nil_r.
  unfold requests. intros (ev & Hin & Hsome)%list_elem_of_omap.
  rewrite Forall_forall in Hev1.
  destruct (Hev1 _ Hin) as (n & ni & Hin' & Hsk & Hev).
  destruct ev; try done. injection Hsome as -> ->.
  destruct Hev as (-> & Hre & url_probe & Hp & ->).
  by exists ni, url_probe.
Qed.

(** X6: every request of a round is for a site of the catalog that the
    round does not skip and whose regular expression allows the identifier.
    Its URL is the probe template of the site (["urlProbe"], or ["url"]
    without one) filled with the identifier; redirects are refused exactly
    for the strategy [response_url]; the timeout and the proxy are the ones
    of the command line, the proxy for both schemes. *)
Theorem X6_request_of_a_site username site_data args id_type w name rq :
  (name, rq) ∈ requests (run_trace (sherlock username site_data args id_type w)) ->
  exists net_info,
    (name, net_info) ∈ site_data /\
    skipped net_info id_type (tags args) = false /\
    regex_rejects net_info username = false /\
    format (default (ni_url net_info) (ni_urlProbe net_info)) username
      = Some (rq_url rq) /\
    (rq_allow_redirects rq = false <-> ni_errorType net_info = "response_url") /\
    rq_timeout rq = timeout args /\
    rq_proxies rq = (fun p => [("http", p); ("https", p)]) <$> proxy args.
Proof.
  intros (ni & url_probe & Hin & Hsk & Hre & Hp & ->)%sherlock_requests.
  exists ni. split; [done |]. split; [done |]. split; [done |].
  split; [done |]. split.
  - simpl. unfold allow_redirects.
    destruct (String.eqb_spec (ni_errorType ni) "response_url"); by split.
  - split; [done |]. simpl. unfold site_proxies. by destruct (proxy args).
Qed.

(** X7: the headers of the request for a site are the ones of the site
    over the default ones: a header that the site gives has the value of
    the site, another one its default value, which is there for
    [User-Agent] only. *)
Theorem X7_site_headers_override_the_default
    username site_data args id_type w name net_info rq :
  NoDup site_data.*1 ->
  (name, net_info) ∈ site_data ->
  NoDup (default [] (ni_headers net_info)).*1 ->
  (name, rq) ∈ requests (run_trace (sherlock username site_data args id_type w)) ->
  forall key,
    dict_get (rq_headers rq) key =
      match dict_get (default [] (ni_headers net_info)) key with
      | Some value => Some value
      | None =>
          if String.eqb key "User-Agent"
          then Some "Mozilla/5.0 (Macintosh; Intel Mac OS X 11.1; rv:55.0) Gecko/20100101 Firefox/55.0"
          else None
      end.
Proof.
  intros Hnd Hsite Hheaders
         (ni & url_probe & Hin & Hsk & Hre & Hp & ->)%sherlock_requests key.
  assert (ni = net_info) as -> by (eapply dict_key_unique; eauto).
  simpl. unfold site_headers.
  destruct (ni_headers net_info) as [extra|]; simpl in *.
  - rewrite dict_get_update by done. simpl.
    by rewrite (String.eqb_sym key).
  - by rewrite (String.eqb_sym key).
Qed.

(** X8: the trace of a round, whatever its outcome, is the start, the
    creation of the session, the events of the first loop (requests, resets
    of the Tor identity and [ILLEGAL] verdicts), the verdicts on the probed
    sites, and the completion when the round returns: every request is
    submitted before the outcome of any request is read. *)
Theorem X8_requests_come_before_the_verdicts_on_probed_sites
    username site_data args id_type w :
  let run := sherlock username site_data args id_type w in
  exists t1 t2,
    run_trace run =
      NotifyStart username id_type :: NewSession (max_workers site_data) ::
      t1 ++ t2 ++
      match run_result run with inr _ => [NotifyFinish] | inl _ => [] end /\
    Forall dispatch_event t1 /\ Forall collect_event t2.
Proof.
  intros run.
  destruct (sherlock_loops username site_data args id_type w)
    as (t1 & t2 & Ht & Hev1 & _ & Hev2).
  exists t1, t2. split; [done |]. split; [| done].
  eapply Forall_impl; [exact Hev1 |].
  intros ev (n & ni & _ & Hev). by eapply site_event_dispatch.
Qed.

(** X9: with [--unique-tor] the Tor identity is reset right after each
    request of a round and at no other time; without it, it is never
    reset. *)
Theorem X9_identity_is_reset_after_each_request
    username site_data args id_type w :
  let t := run_trace (sherlock username site_data args id_type w) in
  network_events t =
    mbind (M := list)
      (fun rq => HttpRequest rq.1 rq.2 ::
                 (if unique_tor args then [ResetIdentity] else []))
      (requests t).
Proof.
  intros t. subst t.
  destruct (sherlock_loops username site_data args id_type w)
    as (t1 & t2 & -> & _ & Hnet & Hev2).
  change (NotifyStart username id_type :: NewSession (max_workers site_data) ::
          t1 ++ t2 ++ _)
    with ([NotifyStart username id_type; NewSession (max_workers site_data)] ++
          t1 ++ t2 ++
          match run_result (sherlock username site_data args id_type w) with
          | inr _ => [NotifyFinish]
          | inl _ => []
          end).
  rewrite !requests_app, !network_events_app.
  destruct (collect_event_quiet _ Hev2) as [-> ->].
  assert (Hlast : requests
                    match run_result (sherlock username site_data args id_type w)
                    with inr _ => [NotifyFinish] | inl _ => [] end = [] /\
                  network_events
                    match run_result (sherlock username site_data args id_type w)
                    with inr _ => [NotifyFinish] | inl _ => [] end = []).
  { by destruct (run_result _). }
  destruct Hlast as [-> ->]. simpl. by rewrite !app_nil_r.
Qed.

End RoundRequests.

(** ** The round theorems on the sample catalog *)

Lemma X3_one_verdict_for_each_applicable_site_witness :
  let run := sherlock "bob" Sample.catalog Sample.tor_args "username" Demo.w0 in
  NoDup Sample.catalog.*1 /\
  (exists site_data' results, run_result run = inr (site_data', results)) /\
  qr_site_name <$> updates (run_trace run) ≡ₚ
    (applicable Sample.catalog "username" []).*1 /\
  NoDup (qr_site_name <$> updates (run_trace run)) /\
  Forall (fun result => qr_username result = "bob") (updates (run_trace run)).
Proof.
  intros run.
  assert (Hnd : NoDup Sample.catalog.*1).
  { apply (bool_decide_unpack (NoDup Sample.catalog.*1)). vm_compute. exact I. }
  split; [exact Hnd |]. split; [eexists _, _; vm_compute; reflexivity |].
  eapply (X3_one_verdict_for_each_applicable_site "bob" Sample.catalog
            Sample.tor_args "username" Demo.w0 _ _ Hnd).
  vm_compute. reflexivity.
Defined.

Lemma X4_results_hold_the_notified_verdicts_witness :
  let run := sherlock "alice" Sample.catalog Sample.tor_args "username" Demo.w0 in
  NoDup Sample.catalog.*1 /\
  exists site_data' results,
    run_result run = inr (site_data', results) /\
    results.*1 = ["Strict"; "Redirecting"; "Wordy"] /\
    results.*1 = (applicable Sample.catalog "username" []).*1 /\
    omap (fun entry => rs_status entry.2) results ≡ₚ updates (run_trace run) /\
    forall name rs,
      (name, rs) ∈ results ->
      exists net_info result,
        (name, net_info) ∈ Sample.catalog /\
        rs_url_main rs = ni_urlMain net_info /\
        rs_status rs = Some result /\
        qr_site_name result = name /\ qr_username result = "alice" /\
        NotifyUpdate result ∈ run_trace run /\
        is_Some (rs_url_user rs) /\ is_Some (rs_http_status rs).
Proof.
  intros run.
  assert (Hnd : NoDup Sample.catalog.*1).
  { apply (bool_decide_unpack (NoDup Sample.catalog.*1)). vm_compute. exact I. }
  split; [exact Hnd |]. eexists _, _.
  split; [vm_compute; reflexivity |]. split; [vm_compute; reflexivity |].
  eapply (X4_results_hold_the_notified_verdicts "alice" Sample.catalog
            Sample.tor_args "username" Demo.w0 _ _ Hnd).
  vm_compute. reflexivity.
Defined.

Lemma X5_rejected_identifier_is_not_probed_witness :
  let run := sherlock "bob" Sample.catalog Sample.tor_args "username" Demo.w0 in
  NoDup Sample.catalog.*1 /\
  ("Strict", Sample.strict) ∈ Sample.catalog /\
  skipped Sample.strict "username" [] = false /\
  regex_rejects Sample.strict "bob" = true /\
  ("Strict" ∉ (requests (run_trace run)).*1) /\
  forall site_data' results,
    run_result run = inr (site_data', results) ->
    exists url,
      format (ni_url Sample.strict) "bob" = Some url /\
      filter (fun result => qr_site_name result = "Strict")
             (updates (run_trace run))
        = [mkQueryResult "bob" "Strict" (Some url) ILLEGAL [] None None] /\
      dict_get results "Strict" =
        Some (mkResultsSite (ni_urlMain Sample.strict) (Some "")
                (Some (mkQueryResult "bob" "Strict" (Some url) ILLEGAL [] None None))
                (Some HttpEmpty) None).
Proof.
  intros run.
  assert (Hnd : NoDup Sample.catalog.*1).
  { apply (bool_decide_unpack (NoDup Sample.catalog.*1)). vm_compute. exact I. }
  assert (Hin : ("Strict", Sample.strict) ∈ Sample.catalog).
  { apply list_elem_of_here. }
  assert (Hsk : skipped Sample.strict "username" (tags Sample.tor_args) = false).
  { vm_compute. reflexivity. }
  assert (Hre : regex_rejects Sample.strict "bob" = true).
  { vm_compute. reflexivity. }
  split; [exact Hnd |]. split; [exact Hin |]. split; [exact Hsk |].
  split; [exact Hre |].
  exact (X5_rejected_identifier_is_not_probed "bob" Sample.catalog
           Sample.tor_args "username" Demo.w0 "Strict" Sample.strict
           Hnd Hin Hsk Hre).
Defined.

Lemma X6_request_of_a_site_witness :
  let run := sherlock "alice" Sample.catalog Sample.tor_args "username" Demo.w0 in
  let rq := mkRequest HEAD "https://api.strict.example/alice"
                      [("User-Agent", "curl/8"); ("Accept", "text/html")]
                      None true (Some 30%N) in
  ("Strict", rq) ∈ requests (run_trace run) /\
  exists net_info,
    ("Strict", net_info) ∈ Sample.catalog /\
    skipped net_info "username" [] = false /\
    regex_rejects net_info "alice" = false /\
    format (default (ni_url net_info) (ni_urlProbe net_info)) "alice"
      = Some "https://api.strict.example/alice" /\
    (rq_allow_redirects rq = false <-> ni_errorType net_info = "response_url") /\
    rq_timeout rq = Some 30%N /\
    rq_proxies rq = None.
Proof.
  intros run rq.
  assert (Hin : ("Strict", rq) ∈ requests (run_trace run)).
  { vm_compute. apply list_elem_of_here. }
  split; [exact Hin |].
  exact (X6_request_of_a_site "alice" Sample.catalog Sample.tor_args "username"
           Demo.w0 "Strict" rq Hin).
Defined.

Lemma X7_site_headers_override_the_default_witness :
  let run := sherlock "alice" Sample.catalog Sample.tor_args "username" Demo.w0 in
  let rq := mkRequest HEAD "https://api.strict.example/alice"
                      [("User-Agent", "curl/8"); ("Accept", "text/html")]
                      None true (Some 30%N) in
  NoDup Sample.catalog.*1 /\
  ("Strict", Sample.strict) ∈ Sample.catalog /\
  NoDup (default [] (ni_headers Sample.strict)).*1 /\
  ("Strict", rq) ∈ requests (run_trace run) /\
  forall key,
    dict_get (rq_headers rq) key =
      match dict_get (default [] (ni_headers Sample.strict)) key with
      | Some value => Some value
      | None =>
          if String.eqb key "User-Agent"
          then Some "Mozilla/5.0 (Macintosh; Intel Mac OS X 11.1; rv:55.0) Gecko/20100101 Firefox/55.0"
          else None
      end.
Proof.
  intros run rq.
  assert (Hnd : NoDup Sample.catalog.*1).
  { apply (bool_decide_unpack (NoDup Sample.catalog.*1)). vm_compute. exact I. }
  assert (Hsite : ("Strict", Sample.strict) ∈ Sample.catalog).
  { apply list_elem_of_here. }
  assert (Hh : NoDup (default [] (ni_headers Sample.strict)).*1).
  { apply (bool_decide_unpack (NoDup (default [] (ni_headers Sample.strict)).*1)).
    vm_compute. exact I. }
  assert (Hin : ("Strict", rq) ∈ requests (run_trace run)).
  { vm_compute. apply list_elem_of_here. }
  split; [exact Hnd |]. split; [exact Hsite |]. split; [exact Hh |].
  split; [exact Hin |].
  exact (X7_site_headers_override_the_default "alice" Sample.catalog
           Sample.tor_args "username" Demo.w0 "Strict" Sample.strict rq
           Hnd Hsite Hh Hin).
Defined.

(** ** The verdict on a probed site *)

Section Verdicts.
Context `{Ext : Externals}.

(** One iteration of the second loop for a delivered response in which no
    failure annotation is found. *)
Lemma collect_site_delivered username args name net_info results_total rs resp w :
  dict_get results_total name = Some rs -> rs_status rs = None ->
  ni_request_future net_info = Some (Returns resp) ->
  status_code resp <> 0%Z ->
  Forall (fun kc => str_in kc.1 (text resp) = false)
         (default [] (ni_errors net_info)) ->
  let extracted := extracted_ids (ids_search args) (Some resp) in
  collect_site username args name net_info results_total w =
    match classify username name (rs_url_user rs) net_info (Some resp) None
                   extracted (Some (elapsed resp)) with
    | inl e => (w, [], inl e)
    | inr result =>
        (w, [NotifyUpdate result],
         inr (dict_set results_total name
                (mkResultsSite (rs_url_main rs) (rs_url_user rs) (Some result)
                   (Some (HttpCode (status_code resp)))
                   (if is_empty extracted then rs_ids_usernames rs
                    else Some (new_usernames_of extracted)))))
    end.
Proof.
  intros Hget Hnone Hfut Hsc Hann extracted. subst extracted.
  unfold collect_site. rewrite Hget, Hnone, Hfut.
  cbn -[classify detect_failure extracted_ids new_usernames_of].
  assert (Z.eqb (status_code resp) 0 = false) as -> by by apply Z.eqb_neq.
  unfold bind, lift.
  rewrite (detect_failure_delivered_no_match _ _ _ Hann).
  by destruct (classify _ _ _ _ _ _ _ _).
Qed.

(** X11: for a site detected by message, a delivered response in which no
    failure annotation is found gives [AVAILABLE] when the body holds the
    error message of the site, or one of them when the site has a list, and
    [CLAIMED] otherwise, whatever the status code. *)
Theorem X11_verdict_by_message
    username args name net_info results_total rs resp msg w :
  dict_get results_total name = Some rs -> rs_status rs = None ->
  ni_request_future net_info = Some (Returns resp) ->
  status_code resp <> 0%Z ->
  Forall (fun kc => str_in kc.1 (text resp) = false)
         (default [] (ni_errors net_info)) ->
  ni_errorType net_info = "message" ->
  ni_errorMsg net_info = Some msg ->
  exists result rs',
    collect_site username args name net_info results_total w
      = (w, [NotifyUpdate result], inr (dict_set results_total name rs')) /\
    rs_status rs' = Some result /\
    rs_http_status rs' = Some (HttpCode (status_code resp)) /\
    qr_status result =
      (if match msg with
          | MsgStr err => str_in err (text resp)
          | MsgList errs => existsb (fun err => str_in err (text resp)) errs
          end
       then AVAILABLE else CLAIMED) /\
    qr_site_url_user result = rs_url_user rs /\
    qr_query_time result = Some (elapsed resp) /\
    qr_context result = None.
Proof.
  intros Hget Hnone Hfut Hsc Hann Hty Hmsg.
  rewrite (collect_site_delivered _ _ _ _ _ _ _ _ Hget Hnone Hfut Hsc Hann).
  unfold classify. rewrite Hty, Hmsg. simpl.
  destruct msg as [err|errs]; simpl.
  - destruct (str_in err (text resp)); simpl; eexists _, _; by repeat split.
  - destruct (existsb _ errs); simpl; eexists _, _; by repeat split.
Qed.

(** X12: for a site detected by redirect, a delivered response in which no
    failure annotation is found gives [CLAIMED] exactly when its status
    code is from 200 to 299, and [AVAILABLE] otherwise. *)
Theorem X12_verdict_by_response_url
    username args name net_info results_total rs resp w :
  dict_get results_total name = Some rs -> rs_status rs = None ->
  ni_request_future net_info = Some (Returns resp) ->
  status_code resp <> 0%Z ->
  Forall (fun kc => str_in kc.1 (text resp) = false)
         (default [] (ni_errors net_info)) ->
  ni_errorType net_info = "response_url" ->
  exists result rs',
    collect_site username args name net_info results_total w
      = (w, [NotifyUpdate result], inr (dict_set results_total name rs')) /\
    rs_status rs' = Some result /\
    rs_http_status rs' = Some (HttpCode (status_code resp)) /\
    (qr_status result = CLAIMED <-> (200 <= status_code resp < 300)%Z) /\
    (qr_status result = AVAILABLE <-> ~ (200 <= status_code resp < 300)%Z) /\
    qr_site_url_user result = rs_url_user rs /\
    qr_query_time result = Some (elapsed resp) /\
    qr_context result = None.
Proof.
  intros Hget Hnone Hfut Hsc Hann Hty.
  rewrite (collect_site_delivered _ _ _ _ _ _ _ _ Hget Hnone Hfut Hsc Hann).
  rewrite (classify_response_url _ _ _ _ _ _ _ Hty).
  eexists _, _. split; [done |]. split; [done |]. split; [done |]. simpl.
  destruct (Z.leb_spec 200 (status_code resp)),
           (Z.ltb_spec (status_code resp) 300); simpl;
    (split; [split; [intros; lia || done | intros; lia || done] |]);
    (split; [split; [intros; lia || done | intros; lia || done] |]); done.
Qed.

(** X13: the identifiers of a verdict are extracted from the body of the
    response only with [--ids] and for a response whose status code is not
    from 400 to 599; otherwise the verdict has none.  The entry of the site
    gets new identifiers to follow only when some are extracted. *)
Theorem X13_identifiers_come_from_successful_responses
    username args name net_info results_total rs future results w :
  dict_get results_total name = Some rs -> rs_status rs = None ->
  ni_request_future net_info = Some future ->
  run_result (collect_site username args name net_info results_total w)
    = inr results ->
  exists result rs',
    run_trace (collect_site username args name net_info results_total w)
      = [NotifyUpdate result] /\
    results = dict_set results_total name rs' /\
    rs_status rs' = Some result /\
    qr_ids_data result =
      match future with
      | Returns resp =>
          if ids_search args &&
             negb (Z.leb 400 (status_code resp) && Z.ltb (status_code resp) 600)
          then extract (text resp) else []
      | Throws _ _ => []
      end /\
    rs_ids_usernames rs' =
      if is_empty (qr_ids_data result) then rs_ids_usernames rs
      else Some (new_usernames_of (qr_ids_data result)).
Proof.
  intros Hget Hnone Hfut. unfold collect_site. rewrite Hget, Hnone, Hfut.
  destruct (get_response future) as [[r error_text] expection_text] eqn:Hresp.
  unfold bind, lift, run_result, run_trace.
  destruct (detect_failure _ r error_text) as [e|error_text'] eqn:Hdet;
    [done |].
  destruct (classify username name (rs_url_user rs) net_info r error_text'
              (extracted_ids (ids_search args) r) (elapsed <$> r))
    as [e|result] eqn:Hcl; [done |].
  simpl. intros [= <-].
  destruct (classify_result _ _ _ _ _ _ _ _ _ Hcl)
    as (_ & _ & _ & Hids & _).
  eexists _, _. split; [done |]. split; [done |]. split; [done |].
  rewrite Hids. split; [| done].
  destruct future as [resp|ex msg].
  - injection Hresp as <- _ _. done.
  - assert (r = None) as ->.
    { simpl in Hresp. repeat destruct (isinstance_HTTPError _ || _) in Hresp.
      by repeat (destruct (_ ex) in Hresp; try by injection Hresp as <-). }
    unfold extracted_ids. simpl. by rewrite andb_false_r.
Qed.

End Verdicts.

(** ** A site detected by message without an error message *)

Section MessageWithoutText.
Context `{Ext : Externals}.

(** One iteration of the second loop for such a site: [None in r.text]. *)
Lemma collect_site_message_without_text username args name net_info
    results_total rs resp w :
  dict_get results_total name = Some rs -> rs_status rs = None ->
  ni_request_future net_info = Some (Returns resp) ->
  status_code resp <> 0%Z ->
  Forall (fun kc => str_in kc.1 (text resp) = false)
         (default [] (ni_errors net_info)) ->
  ni_errorType net_info = "message" ->
  ni_errorMsg net_info = None ->
  collect_site username args name net_info results_total w =
    (w, [],
     inl (TypeError "'in <string>' requires string as left operand, not NoneType")).
Proof.
  intros Hget Hnone Hfut Hsc Hann Hty Hmsg.
  rewrite (collect_site_delivered _ _ _ _ _ _ _ _ Hget Hnone Hfut Hsc Hann).
  unfold classify. by rewrite Hty, Hmsg.
Qed.

(** X10: a site detected by message whose descriptor has no ["errorMsg"]
    stops the round when its response is delivered and no failure
    annotation is found in it: [None in r.text] raises a [TypeError], which
    nothing catches.  The sink has received the start of the round, what
    the first loop emitted and the verdicts of the sites collected before
    that one, and nothing after that: no verdict for the site or for those
    behind it, and no completion. *)
Theorem X10_message_site_without_error_message_stops_the_round
    (username id_type : string) (site_data : list (string * NetInfo))
    (args : Args) (w : World)
    (pre post : list (string * NetInfo)) (name : string) (net_info : NetInfo)
    (results_total results_total' : list (string * ResultsSite))
    (rs : ResultsSite) (resp : Response) :
  let dispatched := dispatch_all username id_type args site_data [] w in
  let collected := collect_all username args pre results_total dispatched.1.1 in
  run_result dispatched = inr (pre ++ (name, net_info) :: post, results_total) ->
  run_result collected = inr results_total' ->
  dict_get results_total' name = Some rs -> rs_status rs = None ->
  ni_request_future net_info = Some (Returns resp) ->
  status_code resp <> 0%Z ->
  Forall (fun kc => str_in kc.1 (text resp) = false)
         (default [] (ni_errors net_info)) ->
  ni_errorType net_info = "message" ->
  ni_errorMsg net_info = None ->
  sherlock username site_data args id_type w =
    (collected.1.1,
     NotifyStart username id_type :: NewSession (max_workers site_data) ::
       run_trace dispatched ++ run_trace collected,
     inl (TypeError "'in <string>' requires string as left operand, not NoneType")) /\
  lifecycle (run_trace (sherlock username site_data args id_type w))
    = [NotifyStart username id_type] /\
  updates (run_trace (sherlock username site_data args id_type w))
    = updates (run_trace dispatched) ++ updates (run_trace collected).
Proof.
  intros dispatched collected Hd Hc Hget Hst Hfut Hsc Hann Hty Hmsg.
  assert (sherlock username site_data args id_type w =
    (collected.1.1,
     NotifyStart username id_type :: NewSession (max_workers site_data) ::
       run_trace dispatched ++ run_trace collected,
     inl (TypeError "'in <string>' requires string as left operand, not NoneType")))
    as Heq.
  { rewrite sherlock_unfold.
    subst collected. subst dispatched. unfold run_result, run_trace in *.
    destruct (dispatch_all username id_type args site_data [] w)
      as [[w1 t1] r1]; simpl in *. subst r1.
    destruct (collect_all username args pre results_total w1)
      as [[w2 t2] r2] eqn:Hpre; simpl in *. subst r2.
    rewrite (collect_all_app _ _ _ _ _ _ _ _ _ Hpre). simpl. unfold bind.
    rewrite (collect_site_message_without_text _ _ _ _ _ _ _ _ Hget Hst Hfut
               Hsc Hann Hty Hmsg).
    by rewrite app_nil_r. }
  split; [exact Heq |]. split.
  - rewrite sherlock_lifecycle. by rewrite Heq.
  - rewrite Heq. unfold run_trace at 1. simpl.
    change (updates (NotifyStart username id_type ::
                     NewSession (max_workers site_data) :: ?t))
      with (updates t).
    apply updates_app.
Qed.

End MessageWithoutText.

(** The witness of X10: the round for bob on a wordy site, whose error
    messages are listed, and a silent site, which has none. *)
Lemma X10_message_site_without_error_message_stops_the_round_witness :
  let site_data := [("Wordy", Sample.wordy); ("Silent", Sample.silent)] in
  let dispatched := dispatch_all "bob" "username" Demo.no_args site_data [] Demo.w0 in
  let pre := [("Wordy", set_request_future Sample.wordy (Returns Demo.not_found))] in
  let net_info := set_request_future Sample.silent (Returns Demo.welcome) in
  let results_total :=
    [("Wordy", Demo.pending "https://wordy.example/missing/bob");
     ("Silent", Demo.pending "https://silent.example/bob")] in
  let collected := collect_all "bob" Demo.no_args pre results_total dispatched.1.1 in
  run_result dispatched = inr (pre ++ [("Silent", net_info)], results_total) /\
  dict_get (default [] (match run_result collected with
                        | inr results => Some results | inl _ => None end))
           "Silent" = Some (Demo.pending "https://silent.example/bob") /\
  ni_errorType net_info = "message" /\ ni_errorMsg net_info = None /\
  sherlock "bob" site_data Demo.no_args "username" Demo.w0 =
    (collected.1.1,
     NotifyStart "bob" "username" :: NewSession (max_workers site_data) ::
       run_trace dispatched ++ run_trace collected,
     inl (TypeError "'in <string>' requires string as left operand, not NoneType")) /\
  lifecycle (run_trace (sherlock "bob" site_data Demo.no_args "username" Demo.w0))
    = [NotifyStart "bob" "username"] /\
  length (updates (run_trace (sherlock "bob" site_data Demo.no_args "username"
                                Demo.w0))) = 1.
Proof.
  intros site_data dispatched pre net_info results_total collected.
  split; [vm_compute; reflexivity |].
  split; [vm_compute; reflexivity |].
  split; [reflexivity |]. split; [reflexivity |].
  destruct (X10_message_site_without_error_message_stops_the_round
              "bob" "username" site_data Demo.no_args Demo.w0
              pre [] "Silent" net_info results_total
              (dict_set results_total "Wordy"
                 (mkResultsSite (Some "https://example.org")
                    (Some "https://wordy.example/missing/bob")
                    (Some (mkQueryResult "bob" "Wordy"
                             (Some "https://wordy.example/missing/bob")
                             AVAILABLE [] (Some 4%N) None))
                    (Some (HttpCode 404)) None))
              (Demo.pending "https://silent.example/bob") Demo.welcome)
    as (Hrun & Hlife & Hupd).
  - vm_compute; reflexivity.
  - vm_compute; reflexivity.
  - reflexivity.
  - reflexivity.
  - reflexivity.
  - discriminate.
  - constructor.
  - reflexivity.
  - reflexivity.
  - split; [exact Hrun |]. split; [exact Hlife |].
    rewrite Hupd. vm_compute; reflexivity.
Defined.

(** ** The entry of a site depends on the site alone *)

Section Locality.
Context `{Ext : Externals}.

Lemma dict_set_same {V} (d : list (string * V)) k v :
  dict_get d k = Some v -> dict_set d k v = d.
Proof.
  induction d as [|[k' v'] d IH]; [done |]. simpl.
  destruct (String.eqb k' k); [by intros [= ->] |].
  intros Hget. by rewrite IH.
Qed.






End Locality.

(** ** The verdict theorems on sample sites *)

Lemma X11_verdict_by_message_witness :
  let net_info := set_request_future Sample.wordy (Returns Demo.not_found) in
  let rs := Demo.pending "https://wordy.example/missing/bob" in
  let results_total := [("Forum", Demo.pending "https://forum.example/bob");
                        ("Wordy", rs)] in
  dict_get results_total "Wordy" = Some rs /\
  ni_errorMsg net_info = Some (MsgList ["No such user"; "Not Found"]) /\
  exists result rs',
    collect_site "bob" Demo.no_args "Wordy" net_info results_total Demo.w0
      = (Demo.w0, [NotifyUpdate result],
         inr (dict_set results_total "Wordy" rs')) /\
    rs_status rs' = Some result /\
    rs_http_status rs' = Some (HttpCode 404) /\
    qr_status result = AVAILABLE /\
    qr_site_url_user result = Some "https://wordy.example/missing/bob" /\
    qr_query_time result = Some 4%N /\
    qr_context result = None.
Proof.
  intros net_info rs results_total.
  split; [reflexivity |]. split; [reflexivity |].
  apply (X11_verdict_by_message "bob" Demo.no_args "Wordy" net_info
           results_total rs Demo.not_found
           (MsgList ["No such user"; "Not Found"]) Demo.w0).
  - reflexivity.
  - reflexivity.
  - reflexivity.
  - simpl. lia.
  - simpl. constructor.
  - reflexivity.
  - reflexivity.
Defined.

Lemma X12_verdict_by_response_url_witness :
  let resp := mkResponse 302 "Moved" 3 in
  let net_info := set_request_future Sample.redirecting (Returns resp) in
  let rs := Demo.pending "https://redir.example/bob" in
  let results_total := [("Redirecting", rs)] in
  exists result rs',
    collect_site "bob" Demo.no_args "Redirecting" net_info results_total Demo.w0
      = (Demo.w0, [NotifyUpdate result],
         inr (dict_set results_total "Redirecting" rs')) /\
    rs_status rs' = Some result /\
    rs_http_status rs' = Some (HttpCode 302) /\
    (qr_status result = CLAIMED <-> (200 <= 302 < 300)%Z) /\
    (qr_status result = AVAILABLE <-> ~ (200 <= 302 < 300)%Z) /\
    qr_site_url_user result = Some "https://redir.example/bob" /\
    qr_query_time result = Some 3%N /\
    qr_context result = None.
Proof.
  intros resp net_info rs results_total.
  apply (X12_verdict_by_response_url "bob" Demo.no_args "Redirecting" net_info
           results_total rs resp Demo.w0).
  - reflexivity.
  - reflexivity.
  - reflexivity.
  - simpl. lia.
  - simpl. constructor.
  - reflexivity.
Defined.

Lemma X13_identifiers_come_from_successful_responses_witness :
  let resp := mkResponse 404 "uid=77 name=bob" 7 in
  let net_info :=
    set_request_future
      (Demo.site None None "https://vk.example/{}" "status_code" None None)
      (Returns resp) in
  let rs := Demo.pending "https://vk.example/alice" in
  let results_total := [("Vk", rs)] in
  let run := collect_site "alice" Demo.ids_args "Vk" net_info results_total
                          Demo.w0 in
  extract (text resp) <> [] /\
  exists results result rs',
    run_result run = inr results /\
    run_trace run = [NotifyUpdate result] /\
    results = dict_set results_total "Vk" rs' /\
    rs_status rs' = Some result /\
    qr_ids_data result = [] /\
    rs_ids_usernames rs' = None.
Proof.
  intros resp net_info rs results_total run.
  split; [vm_compute; discriminate |].
  assert (Hrun : run_result run =
                 inr [("Vk",
                       mkResultsSite (Some "https://example.org")
                         (Some "https://vk.example/alice")
                         (Some (mkQueryResult "alice" "Vk"
                                  (Some "https://vk.example/alice") AVAILABLE []
                                  (Some 7%N) None))
                         (Some (HttpCode 404)) None)]).
  { vm_compute. reflexivity. }
  eexists.
  destruct (X13_identifiers_come_from_successful_responses "alice" Demo.ids_args
              "Vk" net_info results_total rs (Returns resp) _ Demo.w0
              eq_refl eq_refl eq_refl Hrun)
    as (result & rs' & Htrace & Hres & Hst & Hids & Hnew).
  exists result, rs'. split; [exact Hrun |]. split; [exact Htrace |].
  split; [exact Hres |]. split; [exact Hst |].
  split; [exact Hids |]. rewrite Hnew, Hids. reflexivity.
Defined.


(** ** The queue and the report of [main] *)

Section Queue.
Context `{Ext : Externals}.

(** [u in ('-')] *)
Lemma str_in_dash u : str_in u "-" = true <-> u = "" \/ u = "-".
Proof.
  destruct u as [|c [|c' u]]; simpl.
  - split; [by left | done].
  - destruct (ascii_dec c "-") as [->|Hne]; simpl.
    + split; [by right | done].
    + split; [done |]. intros [|]; congruence.
  - destruct (ascii_dec c "-"); simpl; (split; [done |]); intros [|]; done.
Qed.

Lemma initial_usernames_snoc args_username u :
  initial_usernames (args_username ++ [u]) =
    if decide ((u <> "" /\ u <> "-") /\
               u ∉ (initial_usernames args_username).*1)
    then initial_usernames args_username ++ [(u, "username")]
    else initial_usernames args_username.
Proof.
  unfold initial_usernames. rewrite fold_left_app. cbn [fold_left].
  fold (initial_usernames args_username).
  assert (Hall : Forall (fun entry => entry.2 = "username")
                        (initial_usernames args_username)).
  { unfold initial_usernames.
    generalize (Forall_nil_2 (fun entry : string * string => entry.2 = "username")).
    generalize ([] : list (string * string)).
    induction args_username as [|a l IH]; intros acc Hacc; [done |].
    cbn [fold_left]. apply IH. destruct (negb (str_in a "-")); [| done].
    apply Forall_forall. intros x [Hx| ->]%dict_set_elem; [| done].
    rewrite Forall_forall in Hacc. by apply Hacc. }
  destruct (str_in u "-") eqn:Hdash; simpl.
  - apply str_in_dash in Hdash. rewrite decide_False; [done |].
    intros [[H1 H2] _]. by destruct Hdash.
  - assert (Hvalid : u <> "" /\ u <> "-").
    { split; intros ->; by rewrite (proj2 (str_in_dash _)) in Hdash;
        [| by left || by right]. }
    destruct (decide (u ∈ (initial_usernames args_username).*1)) as [Hin|Hnot].
    + rewrite decide_False by (intros [_ ?]; done).
      apply list_elem_of_fmap in Hin as ([u' kind] & -> & Hin). simpl in *.
      rewrite Forall_forall in Hall. pose proof (Hall _ Hin) as Hkind.
      simpl in Hkind. subst kind. apply dict_set_same.
      destruct (dict_get (initial_usernames args_username) u') as [kind|] eqn:Hget.
      * apply dict_get_Some_elem in Hget. pose proof (Hall _ Hget) as Hk.
        simpl in Hk. by subst kind.
      * apply dict_get_None in Hget. exfalso. apply Hget.
        apply list_elem_of_fmap. by exists (u', "username").
    + rewrite decide_True by done. by apply dict_set_fresh.
Qed.

(** X15: the queue at the start holds the names of the command line other
    than the empty name and [-], each once, at the place of its first
    occurrence, and all of the kind [username]. *)
Theorem X15_queue_starts_with_the_names_given (args_username : list string) :
  (initial_usernames args_username).*1 =
    reverse (remove_dups
               (reverse (filter (fun u => u <> "" /\ u <> "-") args_username))) /\
  Forall (fun entry => entry.2 = "username") (initial_usernames args_username).
Proof.
  induction args_username as [|u l [IHk IHv]] using rev_ind; [done |].
  rewrite initial_usernames_snoc, filter_app, reverse_app.
  rewrite filter_cons, filter_nil.
  destruct (decide (u <> "" /\ u <> "-")) as [Hvalid|Hbad].
  - cbn [reverse app]. rewrite reverse_singleton. cbn [app remove_dups].
    assert (Hiff : u ∈ (initial_usernames l).*1 <->
                   u ∈ reverse (filter (fun u => u <> "" /\ u <> "-") l)).
    { by rewrite IHk, elem_of_reverse, elem_of_remove_dups. }
    destruct (decide_rel elem_of u (reverse _)) as [Hin|Hnot].
    + rewrite decide_False by (intros [_ Hn]; apply Hn; by apply Hiff).
      done.
    + rewrite decide_True by (split; [done |]; intros Hn; by apply Hnot, Hiff).
      rewrite fmap_app, reverse_cons, IHk. split; [done |].
      apply Forall_app. split; [done |]. by constructor.
  - rewrite decide_False by (intros [? _]; done).
    cbn [reverse app]. by rewrite reverse_nil.
Qed.




End Queue.


(** ** The report of a round *)

Section Report.
Context `{Ext : Externals}.

Lemma claimed_urls_cons name rs results :
  claimed_urls ((name, rs) :: results) =
    match rs_status rs, rs_url_user rs with
    | Some result, Some url =>
        if is_claimed result then url :: claimed_urls results
        else claimed_urls results
    | _, _ => claimed_urls results
    end.
Proof.
  unfold claimed_urls. cbn [omap list_omap snd].
  destruct (rs_status rs) as [result|]; [| by destruct (rs_url_user rs)].
  destruct (is_claimed result); by destruct (rs_url_user rs).
Qed.

Lemma written_writes file lines : written file (WriteFile file <$> lines) = lines.
Proof.
  induction lines as [|line lines IH]; [done |].
  rewrite fmap_cons. unfold written in *. cbn [omap list_omap].
  by rewrite String.eqb_refl, IH.
Qed.

Lemma written_app file t1 t2 :
  written file (t1 ++ t2) = written file t1 ++ written file t2.
Proof. apply omap_app. Qed.

(** The loop of the text report on results that all have a verdict and a
    user URL: it writes the claimed URLs in order, up to a write that
    fails. *)
Lemma report_loop_complete file results usernames exists_counter w :
  (forall name rs, (name, rs) ∈ results ->
                   is_Some (rs_status rs) /\ is_Some (rs_url_user rs)) ->
  let urls := (fun url => url +:+ newline) <$> claimed_urls results in
  exists w' lines,
    run_trace (report_loop file results usernames exists_counter w)
      = WriteFile file <$> lines /\
    (report_loop file results usernames exists_counter w).1.1 = w' /\
    match run_result (report_loop file results usernames exists_counter w) with
    | inr out =>
        lines = urls /\
        out = (push_new_usernames results usernames,
               exists_counter + length (claimed_urls results))
    | inl e =>
        lines `prefix_of` urls /\
        exists w0 text, (write_file w0 file text).2 = Some e
    end.
Proof.
  revert usernames exists_counter w.
  induction results as [|[name rs] results IH];
    intros usernames c w Hall urls; subst urls.
  { exists w, []. simpl. split; [done |]. split; [done |]. split; [done |].
    do 2 f_equal. lia. }
  destruct (Hall name rs (list_elem_of_here _ _)) as [[result Hst] [url Hurl]].
  assert (Hrest : forall n r, (n, r) ∈ results ->
                              is_Some (rs_status r) /\ is_Some (rs_url_user r)).
  { intros n r Hin. apply (Hall n). by apply list_elem_of_further. }
  rewrite claimed_urls_cons. cbn [report_loop]. rewrite Hst, Hurl.
  unfold push_new_usernames. cbn [fold_left snd].
  fold (push_new_usernames results).
  set (usernames' := match rs_ids_usernames rs with
                     | Some new_usernames =>
                         if is_empty new_usernames then usernames
                         else dict_update usernames new_usernames
                     | None => usernames
                     end).
  assert (Hc : is_claimed result =
               match qr_status result with CLAIMED => true | _ => false end)
    by done.
  rewrite Hc.
  destruct (qr_status result);
    try (destruct (IH usernames' c w Hrest) as (w' & lines & H1 & H2 & H3);
         by exists w', lines).
  unfold bind, call.
  destruct (write_file w file (url +:+ newline)) as [w1 [e|]] eqn:Hw.
  - exists w1, [url +:+ newline]. unfold run_trace, run_result. cbn [fst snd].
    split; [done |]. split; [done |]. split.
    + rewrite fmap_cons. by apply prefix_cons, prefix_nil.
    + exists w, (url +:+ newline). by rewrite Hw.
  - destruct (IH usernames' (S c) w1 Hrest) as (w' & lines & H1 & H2 & H3).
    exists w', ((url +:+ newline) :: lines).
    unfold run_trace, run_result in *.
    destruct (report_loop file results usernames' (S c) w1) as [[w2 t2] r].
    cbn [fst snd] in *. subst t2 w2. split; [done |]. split; [done |].
    destruct r as [e|out].
    + destruct H3 as [Hpre Hraised]. split; [| done].
      rewrite fmap_cons. by apply prefix_cons.
    + destruct H3 as [-> ->]. split; [done |].
      apply pair_equal_spec. split; [done | simpl; lia].
Qed.

Lemma report_block file lines :
  let block := OpenFile file :: (WriteFile file <$> lines) ++ [CloseFile file] in
  head block = Some (OpenFile file) /\
  last block = Some (CloseFile file) /\
  written file block = lines.
Proof.
  intros block. subst block. split; [done |]. split.
  - change (OpenFile file :: (WriteFile file <$> lines) ++ [CloseFile file])
      with ((OpenFile file :: (WriteFile file <$> lines)) ++ [CloseFile file]).
    by rewrite last_snoc.
  - change (OpenFile file :: (WriteFile file <$> lines) ++ [CloseFile file])
      with ([OpenFile file] ++ (WriteFile file <$> lines) ++ [CloseFile file]).
    rewrite !written_app, written_writes. simpl. by rewrite app_nil_r.
Qed.

(** X17: the text report of a round that has returned.  The file is opened
    first and, once open, is always closed last.  What is written to it is
    a beginning of: the user URL of each site whose verdict is [CLAIMED], in
    the order of the catalog, one to a line, and then the total, which is
    the number of [CLAIMED] verdicts that the sink has received; each URL
    is the one of its verdict.  The report returns when no operation on
    the file fails, all of that is then written, and the queue it leaves is
    the one of [push_new_usernames]; an exception that stops the report is
    one that an operation on the file raises. *)
Theorem X17_report_lists_the_claimed_sites
    username site_data args id_type w site_data' results file usernames w1 :
  NoDup site_data.*1 ->
  let run := sherlock username site_data args id_type w in
  run_result run = inr (site_data', results) ->
  let report := text_report file results usernames w1 in
  head (run_trace report) = Some (OpenFile file) /\
  ((open_file w1 file).2 = None ->
     last (run_trace report) = Some (CloseFile file)) /\
  written file (run_trace report)
    `prefix_of` report_lines (claimed_urls results) /\
  match run_result report with
  | inr queue =>
      queue = push_new_usernames results usernames /\
      run_trace report =
        OpenFile file ::
        (WriteFile file <$> report_lines (claimed_urls results)) ++
        [CloseFile file]
  | inl e => raised_by_file file e
  end /\
  ((forall w0, (open_file w0 file).2 = None) ->
   (forall w0 text, (write_file w0 file text).2 = None) ->
   (forall w0, (close_file w0 file).2 = None) ->
   exists queue, run_result report = inr queue) /\
  length (claimed_urls results) =
    length (filter (fun result => is_claimed result = true)
                   (updates (run_trace run))) /\
  Forall (fun url => exists result,
                       (NotifyUpdate result ∈ run_trace run) /\
                       qr_status result = CLAIMED /\
                       qr_site_url_user result = Some url)
         (claimed_urls results).
Proof.
  intros Hnd run Hres report. subst run.
  destruct (sherlock username site_data args id_type w) as [[w' t] r] eqn:Hrun.
  change (run_result (w', t, r)) with r in Hres.
  change (run_trace (w', t, r)) with t. subst r.
  destruct (sherlock_updates _ _ _ _ _ _ _ _ _ Hnd Hrun) as [Hperm _].
  assert (Hall : forall name rs,
            (name, rs) ∈ results ->
            exists result url,
              rs_status rs = Some result /\ rs_url_user rs = Some url /\
              (NotifyUpdate result ∈ t) /\
              (qr_status result = CLAIMED -> qr_site_url_user result = Some url)).
  { intros name rs Hin.
    destruct (sherlock_entries _ _ _ _ _ _ _ _ _ _ _ Hnd Hrun Hin)
      as (ni & url & result & _ & _ & _ & Hst & Hnot & _ & _ & _ & _ & Hcase).
    destruct (regex_rejects ni username) eqn:Hre.
    - subst rs. unfold first_entry in *. rewrite Hre in *. simpl in *.
      injection Hst as <-. by exists (illegal_result username name url), "".
    - destruct Hcase as (Hu & Hr & _). by exists result, url. }
  assert (Hcomplete : forall name rs, (name, rs) ∈ results ->
            is_Some (rs_status rs) /\ is_Some (rs_url_user rs)).
  { intros name rs Hin.
    destruct (Hall name rs Hin) as (result & url & -> & -> & _).
    split; by eexists. }
  assert (Hreport :
    head (run_trace report) = Some (OpenFile file) /\
    ((open_file w1 file).2 = None ->
       last (run_trace report) = Some (CloseFile file)) /\
    written file (run_trace report)
      `prefix_of` report_lines (claimed_urls results) /\
    match run_result report with
    | inr queue =>
        queue = push_new_usernames results usernames /\
        run_trace report =
          OpenFile file ::
          (WriteFile file <$> report_lines (claimed_urls results)) ++
          [CloseFile file]
    | inl e => raised_by_file file e
    end /\
    ((forall w0, (open_file w0 file).2 = None) ->
     (forall w0 text, (write_file w0 file text).2 = None) ->
     (forall w0, (close_file w0 file).2 = None) ->
     exists queue, run_result report = inr queue)).
  { subst report. unfold text_report, with_open, bind, call.
    destruct (open_file w1 file) as [w2 [e|]] eqn:Hopen.
    { unfold run_trace, run_result; cbn [fst snd].
      split; [done |]. split; [done |]. split; [apply prefix_nil |].
      split; [exists w1; left; by rewrite Hopen |].
      intros H. specialize (H w1). by rewrite Hopen in H. }
    destruct (report_loop_complete file results usernames 0 w2 Hcomplete)
      as (w3 & lines & Ht & Hw & Hr).
    unfold run_trace, run_result in *.
    destruct (report_loop file results usernames 0 w2) as [[w3' t3] r3].
    cbn [fst snd] in *. subst w3' t3.
    set (total := "Total Websites Username Detected On : " +:+
                  decimal (length (claimed_urls results))).
    assert (Hlines : report_lines (claimed_urls results) =
                     ((fun url => url +:+ newline) <$> claimed_urls results) ++
                     [total]) by done.
    destruct r3 as [e|[q n]].
    { destruct Hr as [Hpre Hraised].
      assert (Hpre' : lines `prefix_of` report_lines (claimed_urls results)).
      { rewrite Hlines. by apply prefix_app_r. }
      destruct (report_block file lines) as (Hhead & Hlast & Hwritten).
      destruct (close_file w3 file) as [w4 [e2|]] eqn:Hclose; cbn [fst snd app];
        (split; [done |]); (split; [done |]); rewrite Hwritten;
        (split; [done |]); (split; [| intros _ Hwrite _]).
      - exists w3. right. right. by rewrite Hclose.
      - destruct Hraised as (w0 & text & Hraised). rewrite Hwrite in Hraised.
        done.
      - destruct Hraised as (w0 & text & Hraised). exists w0. right. left.
        by exists text.
      - destruct Hraised as (w0 & text & Hraised). rewrite Hwrite in Hraised.
        done. }
    destruct Hr as [-> [= -> ->]]. cbn [Nat.add]. fold total.
    destruct (report_block file (report_lines (claimed_urls results)))
      as (Hhead & Hlast & Hwritten).
    rewrite Hlines, fmap_app in Hhead, Hlast, Hwritten. cbn [fmap list_fmap] in *.
    unfold ret.
    destruct (write_file w3 file total) as [w4 [e|]] eqn:Hwrite;
      destruct (close_file w4 file) as [w5 [e2|]] eqn:Hclose;
      cbn [fst snd app]; rewrite ?app_nil_r;
      (split; [done |]); (split; [done |]); rewrite Hwritten;
      (split; [done |]).
    - split; [exists w4; right; right; by rewrite Hclose |].
      intros _ _ Hc. specialize (Hc w4). by rewrite Hclose in Hc.
    - split; [exists w3; right; left; exists total; by rewrite Hwrite |].
      intros _ Hw _. specialize (Hw w3 total). by rewrite Hwrite in Hw.
    - split; [exists w4; right; right; by rewrite Hclose |].
      intros _ _ Hc. specialize (Hc w4). by rewrite Hclose in Hc.
    - split; [| by eexists]. split; [done |].
      by rewrite Hlines, fmap_app. }
  destruct Hreport as (H1 & H2 & H3 & H4 & H5).
  split; [exact H1 |]. split; [exact H2 |]. split; [exact H3 |].
  split; [exact H4 |]. split; [exact H5 |]. split.
  - rewrite Hperm. clear Hperm Hrun Hcomplete H1 H2 H3 H4 H5. clear report.
    induction results as [|[name rs] results IH]; [done |].
    destruct (Hall name rs (list_elem_of_here _ _))
      as (result & url & Hst & Hurl & _).
    rewrite claimed_urls_cons. cbn [omap list_omap snd]. rewrite Hst, Hurl.
    rewrite filter_cons.
    assert (IH' := IH (fun n r Hin => Hall n r (list_elem_of_further _ _ _ Hin))).
    destruct (is_claimed result).
    + rewrite decide_True by done. simpl. by rewrite IH'.
    + rewrite decide_False by done. exact IH'.
  - apply Forall_forall. intros url Hin.
    unfold claimed_urls in Hin.
    apply list_elem_of_omap in Hin as ([name rs] & Hin & Hsome). simpl in Hsome.
    destruct (Hall name rs Hin) as (result & url' & Hst & Hurl & Hnot & Hclaimed).
    rewrite Hst, Hurl in Hsome. unfold is_claimed in Hsome.
    destruct (qr_status result) eqn:Hq; try done.
    injection Hsome as <-. exists result. split; [done |]. split; [done |].
    by apply Hclaimed.
Qed.

End Report.

(** A witness of X17: the report of the round for alice, two of whose four
    sites are claimed. *)
Lemma X17_report_lists_the_claimed_sites_witness :
  let run := sherlock "alice" Sample.catalog Sample.tor_args "username" Demo.w0 in
  let file := "alice.txt" in
  NoDup Sample.catalog.*1 /\
  exists site_data' results,
    run_result run = inr (site_data', results) /\
    claimed_urls results =
      ["https://strict.example/u/alice"; "https://redir.example/alice"] /\
    run_result (text_report file results [] run.1.1) = inr [] /\
    written file (run_trace (text_report file results [] run.1.1)) =
      ["https://strict.example/u/alice" +:+ newline;
       "https://redir.example/alice" +:+ newline;
       "Total Websites Username Detected On : 2"] /\
    let report := text_report file results [] run.1.1 in
    head (run_trace report) = Some (OpenFile file) /\
    ((open_file run.1.1 file).2 = None ->
       last (run_trace report) = Some (CloseFile file)) /\
    written file (run_trace report)
      `prefix_of` report_lines (claimed_urls results) /\
    match run_result report with
    | inr queue =>
        queue = push_new_usernames results [] /\
        run_trace report =
          OpenFile file ::
          (WriteFile file <$> report_lines (claimed_urls results)) ++
          [CloseFile file]
    | inl e => raised_by_file file e
    end /\
    ((forall w0, (open_file w0 file).2 = None) ->
     (forall w0 text, (write_file w0 file text).2 = None) ->
     (forall w0, (close_file w0 file).2 = None) ->
     exists queue, run_result report = inr queue) /\
    length (claimed_urls results) =
      length (filter (fun result => is_claimed result = true)
                     (updates (run_trace run))) /\
    Forall (fun url => exists result,
                         (NotifyUpdate result ∈ run_trace run) /\
                         qr_status result = CLAIMED /\
                         qr_site_url_user result = Some url)
           (claimed_urls results).
Proof.
  intros run file.
  assert (Hnd : NoDup Sample.catalog.*1).
  { apply (bool_decide_unpack (NoDup Sample.catalog.*1)). vm_compute. exact I. }
  split; [exact Hnd |]. eexists _, _.
  split; [vm_compute; reflexivity |]. split; [vm_compute; reflexivity |].
  split; [vm_compute; reflexivity |]. split; [vm_compute; reflexivity |].
  eapply (X17_report_lists_the_claimed_sites "alice" Sample.catalog
            Sample.tor_args "username" Demo.w0 _ _ file [] run.1.1 Hnd).
  vm_compute. reflexivity.
Defined.

(** ** The selection of the sites *)

Section Selection.
Context `{Ext : Externals}.

Lemma dict_set_nonempty {V} (d : list (string * V)) k v :
  is_empty (dict_set d k v) = false.
Proof. destruct d as [|[k' v'] d]; simpl; [done |]. by destruct (String.eqb k' k). Qed.

Lemma select_site_nonempty site site_data_all site_data :
  is_empty site_data = false ->
  is_empty (select_site site site_data_all site_data) = false.
Proof.
  unfold select_site. revert site_data.
  induction site_data_all as [|existing rest IH]; intros site_data Hne; [done |].
  cbn [fold_left]. apply IH.
  destruct (String.eqb _ _); [apply dict_set_nonempty | done].
Qed.

Lemma select_site_empty site site_data_all :
  is_empty (select_site site site_data_all []) =
    negb (names_a_site site_data_all site).
Proof.
  unfold select_site, names_a_site.
  induction site_data_all as [|existing rest IH]; [done |].
  cbn [fold_left existsb].
  destruct (String.eqb (lower site) (lower existing.1)); [| exact IH].
  simpl. apply (select_site_nonempty site rest [(existing.1, existing.2)]). done.
Qed.

Lemma select_sites_missing site_list site_data_all site_data site_missing :
  (fold_left
     (fun state site =>
        let site_data := select_site site site_data_all state.1 in
        (site_data,
         if is_empty site_data then state.2 ++ ["'" +:+ site +:+ "'"]
         else state.2))
     site_list (site_data, site_missing)).2 =
    if is_empty site_data
    then site_missing ++
         ((fun site => "'" +:+ site +:+ "'") <$>
            while_true (fun site => negb (names_a_site site_data_all site))
                       site_list)
    else site_missing.
Proof.
  revert site_data site_missing.
  induction site_list as [|site rest IH]; intros site_data site_missing.
  { simpl. destruct (is_empty site_data); [by rewrite app_nil_r | done]. }
  cbn [fold_left while_true fst snd]. rewrite IH.
  destruct (is_empty site_data) eqn:Hsd.
  - destruct site_data; [| done]. rewrite select_site_empty.
    destruct (names_a_site site_data_all site); simpl;
      [by rewrite app_nil_r |].
    by rewrite <- app_assoc.
  - by rewrite select_site_nonempty.
Qed.

(** X18: a name of [--site] is reported as not found only while no site
    has been selected: the names reported are the names before the first
    one that names a site, and a name that follows a known one is dropped
    silently.  So the selection stops the program exactly when the first
    name given names no site. *)
Theorem X18_only_leading_unknown_names_are_reported
    (site_list : list string) (site_data_all : list (string * NetInfo)) :
  (select_sites site_list site_data_all).2 =
    ((fun site => "'" +:+ site +:+ "'") <$>
       while_true (fun site => negb (names_a_site site_data_all site)) site_list) /\
  (selected_site_data (Some site_list) site_data_all = None <->
   exists site rest,
     site_list = site :: rest /\
     forall existing, existing ∈ site_data_all.*1 ->
                      lower site <> lower existing).
Proof.
  assert (Hmissing : (select_sites site_list site_data_all).2 =
            ((fun site => "'" +:+ site +:+ "'") <$>
               while_true (fun site => negb (names_a_site site_data_all site))
                          site_list)).
  { unfold select_sites. by rewrite select_sites_missing. }
  split; [done |].
  unfold selected_site_data.
  destruct (select_sites site_list site_data_all) as [site_data site_missing].
  simpl in Hmissing. subst site_missing.
  assert (Hnames : forall site,
            names_a_site site_data_all site = false <->
            forall existing, existing ∈ site_data_all.*1 ->
                             lower site <> lower existing).
  { intros site. unfold names_a_site. split.
    - intros Hnone existing ([n ni] & -> & Hin)%list_elem_of_fmap Heq.
      assert (Hex : existsb (fun existing => String.eqb (lower site)
                                               (lower existing.1))
                            site_data_all = true).
      { apply existsb_exists. exists (n, ni).
        split; [by apply list_elem_of_In |]. by apply String.eqb_eq. }
      congruence.
    - intros Hall. apply not_true_is_false.
      intros ([n ni] & Hin & Heq)%existsb_exists.
      apply String.eqb_eq in Heq. apply (Hall n); [| done].
      apply list_elem_of_fmap. exists (n, ni).
      split; [done |]. by apply list_elem_of_In. }
  destruct site_list as [|site rest]; simpl.
  { split; [done |]. by intros (? & ? & ? & _). }
  destruct (names_a_site site_data_all site) eqn:Hsite; simpl.
  - split; [done |]. intros (s & r & [= <- <-] & Hall).
    apply Hnames in Hall. congruence.
  - split; [| done]. intros _. exists site, rest. split; [done |].
    by apply Hnames.
Qed.

Lemma dict_set_elem_of {V} (d : list (string * V)) k v x :
  NoDup d.*1 ->
  x ∈ dict_set d k v <-> (x ∈ d /\ x.1 <> k) \/ x = (k, v).
Proof.
  intros Hnd. destruct (dict_get d k) as [v0|] eqn:Hget.
  - destruct (dict_set_present d k v0 v Hget) as (pre & post & -> & Hpre & ->).
    rewrite fmap_app, fmap_cons in Hnd. cbn [fst] in Hnd.
    apply NoDup_app in Hnd as (_ & Hdisj & [Hpost _]%NoDup_cons).
    rewrite !elem_of_app, !elem_of_cons. split.
    + intros [Hx|[-> |Hx]].
      * left. split; [by left |]. intros <-. apply Hpre.
        apply list_elem_of_fmap. by exists x.
      * by right.
      * left. split; [by right; right |]. intros <-. apply Hpost.
        apply list_elem_of_fmap. by exists x.
    + intros [[[Hx|[-> |Hx]] Hne]| ->].
      * by left.
      * done.
      * by right; right.
      * by right; left.
  - apply dict_get_None in Hget. rewrite dict_set_fresh by done.
    rewrite elem_of_app, list_elem_of_singleton. split.
    + intros [Hx| ->]; [| by right]. left. split; [done |].
      intros <-. apply Hget. apply list_elem_of_fmap. by exists x.
    + intros [[Hx _]| ->]; [by left | by right].
Qed.

Lemma select_site_spec site site_data_all site_data_rest site_data :
  NoDup site_data_all.*1 ->
  site_data_rest ⊆ site_data_all ->
  NoDup site_data.*1 -> site_data ⊆ site_data_all ->
  let selected := select_site site site_data_rest site_data in
  NoDup selected.*1 /\ selected ⊆ site_data_all /\
  forall entry,
    entry ∈ selected <->
    entry ∈ site_data \/ (entry ∈ site_data_rest /\ lower site = lower entry.1).
Proof.
  intros Hall. unfold select_site. revert site_data.
  induction site_data_rest as [|[n ni] rest IH]; intros site_data Hrest Hnd Hsub.
  { simpl. split; [done |]. split; [done |]. intros entry.
    split; [by left |]. intros [|[?%elem_of_nil _]]; done. }
  assert (Hrest' : rest ⊆ site_data_all).
  { intros x Hx. apply Hrest. by apply list_elem_of_further. }
  assert (Hin : (n, ni) ∈ site_data_all) by (apply Hrest; apply list_elem_of_here).
  cbn [fold_left fst snd].
  destruct (String.eqb_spec (lower site) (lower n)) as [Heq|Hne].
  - assert (Hset : forall x, x ∈ dict_set site_data n ni <->
                             x ∈ site_data \/ x = (n, ni)).
    { intros x. rewrite (dict_set_elem_of _ _ _ _ Hnd). split.
      - intros [[Hx _]| ->]; [by left | by right].
      - intros [Hx| ->]; [| by right].
        destruct (decide (x.1 = n)) as [Hn|Hn]; [| by left].
        right. destruct x as [n' ni']. simpl in Hn. subst n'.
        f_equal. eapply dict_key_unique; [exact Hall | by apply Hsub | done]. }
    destruct (IH (dict_set site_data n ni) Hrest' (dict_set_NoDup _ _ _ Hnd))
      as (H1 & H2 & H3).
    { intros x [Hx| ->]%Hset; [by apply Hsub | done]. }
    split; [done |]. split; [done |]. intros entry. rewrite H3, Hset.
    rewrite elem_of_cons. split.
    + intros [[Hx| ->]|[Hx Hl]]; [by left | | by right; split; [right |]].
      right. split; [by left | done].
    + intros [Hx|[[-> |Hx] Hl]]; [by left; left | by left; right |].
      right. by split.
  - destruct (IH site_data Hrest' Hnd Hsub) as (H1 & H2 & H3).
    split; [done |]. split; [done |]. intros entry. rewrite H3.
    rewrite elem_of_cons. split.
    + intros [Hx|[Hx Hl]]; [by left |]. right. split; [by right | done].
    + intros [Hx|[[-> |Hx] Hl]]; [by left | done |]. right. by split.
Qed.

(** X19: the sites selected by [--site] are the sites of the catalog whose
    name is one of the names given, up to case, each once and with its
    descriptor. *)
Theorem X19_selected_sites_are_the_named_ones
    (site_list : list string) (site_data_all : list (string * NetInfo)) :
  NoDup site_data_all.*1 ->
  let site_data := (select_sites site_list site_data_all).1 in
  NoDup site_data.*1 /\
  forall name net_info,
    (name, net_info) ∈ site_data <->
    (name, net_info) ∈ site_data_all /\
    exists site, site ∈ site_list /\ lower site = lower name.
Proof.
  intros Hall. unfold select_sites.
  assert (Hgen : forall site_data site_missing,
            NoDup site_data.*1 -> site_data ⊆ site_data_all ->
            let selected :=
              (fold_left
                 (fun state site =>
                    let site_data := select_site site site_data_all state.1 in
                    (site_data,
                     if is_empty site_data
                     then state.2 ++ ["'" +:+ site +:+ "'"]
                     else state.2))
                 site_list (site_data, site_missing)).1 in
            NoDup selected.*1 /\
            forall entry,
              entry ∈ selected <->
              entry ∈ site_data \/
              (entry ∈ site_data_all /\
               exists site, site ∈ site_list /\ lower site = lower entry.1)).
  { induction site_list as [|site rest IH]; intros site_data site_missing Hnd Hsub.
    { simpl. split; [done |]. intros entry. split; [by left |].
      intros [|(_ & s & ?%elem_of_nil & _)]; done. }
    cbn [fold_left fst snd].
    destruct (select_site_spec site site_data_all site_data_all site_data Hall
                (fun x Hx => Hx) Hnd Hsub) as (H1 & H2 & H3).
    destruct (IH (select_site site site_data_all site_data)
                 (if is_empty (select_site site site_data_all site_data)
                  then site_missing ++ ["'" +:+ site +:+ "'"] else site_missing)
                 H1 H2) as (H4 & H5).
    split; [done |]. intros entry. rewrite H5, H3. split.
    - intros [[Hx|[Hx Hl]]|(Hx & s & Hs & Hl)].
      + by left.
      + right. split; [done |]. exists site. split; [apply list_elem_of_here | done].
      + right. split; [done |]. exists s. split; [by apply list_elem_of_further | done].
    - intros [Hx|(Hx & s & [-> |Hs]%elem_of_cons & Hl)].
      + by left; left.
      + left. right. by split.
      + right. split; [done |]. by exists s. }
  destruct (Hgen [] [] (NoDup_nil_2) (fun x Hx => False_ind _ (not_elem_of_nil x Hx)))
    as (H1 & H2).
  split; [done |]. intros name net_info. rewrite H2. split.
  - intros [?%elem_of_nil|H]; done.
  - intros H. by right.
Qed.

End Selection.

Lemma X19_selected_sites_are_the_named_ones_witness :
  let site_list := ["wordy"; "Nowhere"; "STRICT"] in
  let site_data := (select_sites site_list Sample.catalog).1 in
  NoDup Sample.catalog.*1 /\
  site_data = [("Wordy", Sample.wordy); ("Strict", Sample.strict)] /\
  (select_sites site_list Sample.catalog).2 = [] /\
  NoDup site_data.*1 /\
  forall name net_info,
    (name, net_info) ∈ site_data <->
    (name, net_info) ∈ Sample.catalog /\
    exists site, site ∈ site_list /\ lower site = lower name.
Proof.
  intros site_list site_data.
  assert (Hnd : NoDup Sample.catalog.*1).
  { apply (bool_decide_unpack (NoDup Sample.catalog.*1)). vm_compute. exact I. }
  split; [exact Hnd |]. split; [vm_compute; reflexivity |].
  split; [vm_compute; reflexivity |].
  exact (X19_selected_sites_are_the_named_ones site_list Sample.catalog Hnd).
Defined.

(** ** The ranking of the sites *)

Section RankingFacts.
Context {Info : Type} (rank : Info -> option Z).

Lemma key_le_refl (a : bool * Z) : key_le a a = true.
Proof. destruct a as [[] z]; unfold key_le; simpl; by apply Z.leb_le. Qed.

Lemma key_le_total (a b : bool * Z) : key_le a b = false -> key_le b a = true.
Proof.
  destruct a as [[] x], b as [[] y]; unfold key_le; simpl; try done;
    rewrite Z.leb_gt, Z.leb_le; lia.
Qed.

Lemma key_le_trans (a b c : bool * Z) :
  key_le a b = true -> key_le b c = true -> key_le a c = true.
Proof.
  destruct a as [[] x], b as [[] y], c as [[] z]; unfold key_le; simpl;
    try done; rewrite !Z.leb_le; lia.
Qed.

Lemma insert_ranked_perm (entry : string * Info) sorted :
  insert_ranked rank entry sorted ≡ₚ entry :: sorted.
Proof.
  induction sorted as [|other rest IH]; [done |]. simpl.
  destruct (key_le _ _); [done |]. by rewrite IH, Permutation_swap.
Qed.

Lemma sorted_by_rank_perm (site_data : list (string * Info)) :
  sorted_by_rank rank site_data ≡ₚ site_data.
Proof.
  induction site_data as [|entry rest IH]; [done |].
  unfold sorted_by_rank in *. cbn [foldr]. by rewrite insert_ranked_perm, IH.
Qed.

Lemma insert_ranked_sorted (entry : string * Info) sorted :
  StronglySorted (fun a b => key_le (rank_key rank a) (rank_key rank b) = true)
                 sorted ->
  StronglySorted (fun a b => key_le (rank_key rank a) (rank_key rank b) = true)
                 (insert_ranked rank entry sorted).
Proof.
  induction 1 as [|other rest Hrest IH Hall]; simpl.
  { by repeat constructor. }
  destruct (key_le (rank_key rank entry) (rank_key rank other)) eqn:Hle.
  - constructor; [by constructor |]. constructor; [done |].
    eapply Forall_impl; [exact Hall |]. intros x Hx. by eapply key_le_trans.
  - constructor; [done |].
    rewrite (insert_ranked_perm entry rest). constructor; [| done].
    by apply key_le_total.
Qed.

Lemma sorted_by_rank_sorted (site_data : list (string * Info)) :
  StronglySorted (fun a b => key_le (rank_key rank a) (rank_key rank b) = true)
                 (sorted_by_rank rank site_data).
Proof.
  induction site_data as [|entry rest IH]; [constructor |].
  unfold sorted_by_rank in *. cbn [foldr]. by apply insert_ranked_sorted.
Qed.

Lemma insert_ranked_stable (entry : string * Info) sorted (key : bool * Z) :
  filter (fun x => rank_key rank x = key) (insert_ranked rank entry sorted) =
    filter (fun x => rank_key rank x = key) (entry :: sorted).
Proof.
  induction sorted as [|other rest IH]; [done |]. simpl.
  destruct (key_le (rank_key rank entry) (rank_key rank other)) eqn:Hle; [done |].
  rewrite (filter_cons _ other), IH, !filter_cons.
  destruct (decide (rank_key rank other = key)) as [Ho|Ho],
           (decide (rank_key rank entry = key)) as [He|He]; try done.
  rewrite He, <- Ho, key_le_refl in Hle. done.
Qed.

Lemma sorted_by_rank_stable (site_data : list (string * Info)) (key : bool * Z) :
  filter (fun x => rank_key rank x = key) (sorted_by_rank rank site_data) =
    filter (fun x => rank_key rank x = key) site_data.
Proof.
  induction site_data as [|entry rest IH]; [done |].
  unfold sorted_by_rank in *. cbn [foldr].
  by rewrite insert_ranked_stable, !filter_cons, IH.
Qed.

(** The dictionary rebuilt from the sorted names is the sorted list of the
    entries. *)
Lemma rebuild_sorted (site_data sorted acc : list (string * Info)) :
  NoDup (acc ++ sorted).*1 ->
  (forall entry, entry ∈ sorted -> dict_get site_data entry.1 = Some entry.2) ->
  fold_left
    (fun acc site => match dict_get site_data site with
                     | Some info => dict_set acc site info
                     | None => acc
                     end)
    sorted.*1 acc = acc ++ sorted.
Proof.
  revert acc. induction sorted as [|[name info] rest IH]; intros acc Hnd Hget.
  { by rewrite app_nil_r. }
  rewrite fmap_cons. cbn [fold_left fst].
  pose proof (Hget (name, info) (list_elem_of_here _ _)) as Hname.
  cbn [fst snd] in Hname. rewrite Hname.
  assert (Hfresh : name ∉ acc.*1).
  { rewrite fmap_app, fmap_cons in Hnd. apply NoDup_app in Hnd as (_ & Hdisj & _).
    intros Hin. apply (Hdisj _ Hin). apply list_elem_of_here. }
  rewrite dict_set_fresh by done. rewrite IH.
  - by rewrite <- app_assoc.
  - by rewrite <- app_assoc.
  - intros entry Hin. apply Hget. by apply list_elem_of_further.
Qed.

Lemma ranked_site_data_sorted (site_data : list (string * Info)) :
  NoDup site_data.*1 ->
  ranked_site_data rank site_data = sorted_by_rank rank site_data.
Proof.
  intros Hnd. unfold ranked_site_data.
  rewrite rebuild_sorted; [done | |].
  - simpl. by rewrite (sorted_by_rank_perm site_data).
  - intros [name info] Hin. rewrite (sorted_by_rank_perm site_data) in Hin.
    by apply elem_dict_get.
Qed.

Lemma StronglySorted_weaken {A} (R R' : A -> A -> Prop) (l : list A) :
  (forall a b, R a b -> R' a b) -> StronglySorted R l -> StronglySorted R' l.
Proof.
  intros Himpl. induction 1 as [|a l _ IH Hall]; constructor; [done |].
  eapply Forall_impl; [exact Hall |]. intros b. apply Himpl.
Qed.

(** X20: with [--rank] the sites are put in the order of their sort key,
    which is first whether the NAME of the site lacks the text [rank] (the
    names that hold it come first), and then the rank of the site, a site
    without rank counting as [sys.maxsize].  No site is lost or changed, and
    the sites with the same key keep the order of the catalog. *)
Theorem X20_ranking_sorts_the_sites_by_key (site_data : list (string * Info)) :
  NoDup site_data.*1 ->
  let ranked := ranked_site_data rank site_data in
  ranked ≡ₚ site_data /\
  StronglySorted
    (fun a b =>
       match str_in "rank" a.1, str_in "rank" b.1 with
       | true, false => True
       | false, true => False
       | _, _ => (default 9223372036854775807 (rank a.2)
                  <= default 9223372036854775807 (rank b.2))%Z
       end)
    ranked /\
  forall key : bool * Z,
    filter (fun entry => (negb (str_in "rank" entry.1),
                          default 9223372036854775807%Z (rank entry.2)) = key)
           ranked =
    filter (fun entry => (negb (str_in "rank" entry.1),
                          default 9223372036854775807%Z (rank entry.2)) = key)
           site_data.
Proof.
  intros Hnd ranked. subst ranked. rewrite (ranked_site_data_sorted _ Hnd).
  split; [apply sorted_by_rank_perm |]. split.
  - eapply StronglySorted_weaken; [| apply sorted_by_rank_sorted].
    intros a b. unfold key_le, rank_key, maxsize. simpl.
    destruct (str_in "rank" a.1), (str_in "rank" b.1); simpl; try done.
    + by intros ?%Z.leb_le.
    + by intros ?%Z.leb_le.
  - intros key. apply (sorted_by_rank_stable site_data key).
Qed.

End RankingFacts.

Lemma X20_ranking_sorts_the_sites_by_key_witness :
  let site_data : list (string * option Z) :=
    [("Zeta", Some 5%Z); ("Gamma", None); ("Alpha", Some 2%Z);
     ("Frank", None); ("Beta", Some 2%Z)] in
  let ranked := ranked_site_data id site_data in
  NoDup site_data.*1 /\
  ranked = [("Frank", None); ("Alpha", Some 2%Z); ("Beta", Some 2%Z);
            ("Zeta", Some 5%Z); ("Gamma", None)] /\
  ranked ≡ₚ site_data /\
  StronglySorted
    (fun a b =>
       match str_in "rank" a.1, str_in "rank" b.1 with
       | true, false => True
       | false, true => False
       | _, _ => (default 9223372036854775807 (id a.2)
                  <= default 9223372036854775807 (id b.2))%Z
       end)
    ranked /\
  forall key : bool * Z,
    filter (fun entry => (negb (str_in "rank" entry.1),
                          default 9223372036854775807%Z (id entry.2)) = key)
           ranked =
    filter (fun entry => (negb (str_in "rank" entry.1),
                          default 9223372036854775807%Z (id entry.2)) = key)
           site_data.
Proof.
  intros site_data ranked.
  assert (Hnd : NoDup site_data.*1).
  { apply (bool_decide_unpack (NoDup site_data.*1)). vm_compute. exact I. }
  split; [exact Hnd |]. split; [vm_compute; reflexivity |].
  exact (X20_ranking_sorts_the_sites_by_key id site_data Hnd).
Defined.

(** ** The requests and the catalog of a round that returns *)

Section RoundNetwork.
Context `{Ext : Externals}.

Lemma dispatch_all_requests username id_type args site_data results_total w
    w' t out :
  dispatch_all username id_type args site_data results_total w = (w', t, inr out) ->
  requests t =
    omap (fun entry =>
            if skipped entry.2 id_type (tags args) ||
               regex_rejects entry.2 username
            then None
            else (fun url_probe =>
                    (entry.1, site_request args entry.2 url_probe))
                   <$> format (probe_template entry.2) username)
         site_data.
Proof.
  revert results_total w w' t out.
  induction site_data as [|[name net_info] rest IH];
    intros results_total w w' t out.
  { simpl. unfold ret. by intros [= <- <- <-]. }
  cbn [dispatch_all omap list_omap fst snd]. unfold bind.
  destruct (dispatch_site_cases username id_type args name net_info
              results_total w)
    as [[Hsk ->]|[Hsk [[Hurl ->]|(url & Hurl & [[Hre ->]|[Hre [[Hp ->]|
         (url_probe & Hp & ->)]]])]]]; try done;
    (destruct (dispatch_all _ _ _ rest _ _) as [[w2 t2] [e|[rest' rt2]]] eqn:Hrun;
     [done |]); simpl; intros [= <- <- <-]; rewrite Hsk, ?Hre, ?Hp; simpl;
    rewrite ?app_nil_r, ?requests_app; rewrite (IH _ _ _ _ _ Hrun);
    rewrite ?app_nil_r; try done.
  by destruct (unique_tor args).
Qed.

(** X21: in a round that returns, the requests are exactly one for each
    site of the catalog that the round does not skip and whose regular
    expression allows the identifier, in the order of the catalog. *)
Theorem X21_one_request_for_each_probed_site
    username site_data args id_type w site_data' results :
  let run := sherlock username site_data args id_type w in
  run_result run = inr (site_data', results) ->
  requests (run_trace run) =
    omap (fun entry =>
            if skipped entry.2 id_type (tags args) ||
               regex_rejects entry.2 username
            then None
            else (fun url_probe =>
                    (entry.1, site_request args entry.2 url_probe))
                   <$> format (probe_template entry.2) username)
         site_data /\
  (requests (run_trace run)).*1 =
    (filter (fun entry => skipped entry.2 id_type (tags args) = false /\
                          regex_rejects entry.2 username = false)
            site_data).*1.
Proof.
  intros run. subst run. rewrite sherlock_unfold.
  destruct (dispatch_all username id_type args site_data [] w)
    as [[w1 t1] [e|[sd1 rt1]]] eqn:Hd; [done |].
  destruct (collect_all_events username args sd1 rt1 w1) as [Hev2 _].
  destruct (collect_all username args sd1 rt1 w1) as [[w2 t2] [e|rt2]] eqn:Hc;
    [done |].
  unfold run_result, run_trace in *. simpl in *. intros _.
  destruct (collect_event_quiet _ Hev2) as [Hquiet _].
  assert (Hreq : requests (t1 ++ t2 ++ [NotifyFinish]) = requests t1).
  { rewrite !requests_app, Hquiet. simpl. by rewrite app_nil_r. }
  rewrite Hreq, (dispatch_all_requests _ _ _ _ _ _ _ _ _ Hd).
  split; [done |].
  assert (Hfmt := dispatch_all_formats _ _ _ _ _ _ _ _ _ Hd).
  clear Hd Hreq. induction site_data as [|[name net_info] rest IH]; [done |].
  cbn [omap list_omap fst snd]. rewrite filter_cons.
  assert (IH' := IH (fun n ni Hin => Hfmt n ni (list_elem_of_further _ _ _ Hin))).
  destruct (skipped net_info id_type (tags args)) eqn:Hsk; simpl.
  { rewrite decide_False by (simpl; intros [? _]; congruence). exact IH'. }
  destruct (regex_rejects net_info username) eqn:Hre; simpl.
  { rewrite decide_False by (simpl; intros [_ ?]; congruence). exact IH'. }
  rewrite decide_True by done.
  destruct (Hfmt name net_info (list_elem_of_here _ _) Hsk) as [_ Hp].
  destruct (Hp Hre) as [url_probe ->].
  cbn [fmap option_fmap option_map]. rewrite !fmap_cons. by rewrite IH'.
Qed.


End RoundNetwork.

Lemma X21_one_request_for_each_probed_site_witness :
  let run := sherlock "bob" Sample.catalog Sample.tor_args "username" Demo.w0 in
  exists site_data' results,
    run_result run = inr (site_data', results) /\
    (requests (run_trace run)).*1 = ["Redirecting"; "Wordy"] /\
    requests (run_trace run) =
      omap (fun entry =>
              if skipped entry.2 "username" [] || regex_rejects entry.2 "bob"
              then None
              else (fun url_probe =>
                      (entry.1, site_request Sample.tor_args entry.2 url_probe))
                     <$> format (probe_template entry.2) "bob")
           Sample.catalog /\
    (requests (run_trace run)).*1 =
      (filter (fun entry => skipped entry.2 "username" [] = false /\
                            regex_rejects entry.2 "bob" = false)
              Sample.catalog).*1.
Proof.
  intros run. eexists _, _.
  split; [vm_compute; reflexivity |]. split; [vm_compute; reflexivity |].
  eapply (X21_one_request_for_each_probed_site "bob" Sample.catalog
            Sample.tor_args "username" Demo.w0).
  vm_compute. reflexivity.
Defined.


(** ** Unknown verdicts *)

Section Unknown.
Context `{Ext : Externals}.



End Unknown.

